(** * GoToSocial persistence layer: internal/db/bundb/bundb.go

    A shallow embedding of the connection set-up ([deriveBunDBPGOptions],
    [pgConn]), the start-up migration gate ([doMigration]) and the three
    reference resolvers ([MentionStringsToMentions], [TagStringsToTags],
    [EmojiStringsToEmojis]) of the bun-backed database service, together
    with the properties its specification states about them.

    Conventions of the embedding:
    - a Go [string] is a Rocq [string] (a sequence of bytes);
    - a Go result pair [(v, err)] is a pair whose second component is an
      [option error]; a nil slice and an empty slice are both [[]], a nil
      pointer is [None];
    - everything the code reads from or does to the outside (tables, driver
      failures, the ULID generator, the wall clock, log lines, connection
      attempts) lives in an explicit [World] threaded through the calls;
    - what the code calls in packages that are not among the sources at
      hand, and that cannot be written out byte for byte, is a parameter
      of the function that calls it. *)

From Stdlib Require Import ZArith String Ascii List Bool Lia.
From stdpp Require Import base option list strings gmap pretty.

Open Scope string_scope.
Open Scope list_scope.
Open Scope Z_scope.

(** ** Letter case of ASCII bytes *)

Module ascii_case.

(** Folding of the letters A-Z and a-z byte by byte; every other byte,
    those of a multi-byte UTF-8 sequence included, is left as it is. *)
Definition is_upper (c : ascii) : bool :=
  let n := nat_of_ascii c in (65 <=? n)%nat && (n <=? 90)%nat.

Definition is_lower (c : ascii) : bool :=
  let n := nat_of_ascii c in (97 <=? n)%nat && (n <=? 122)%nat.

Definition lower_byte (c : ascii) : ascii :=
  if is_upper c then ascii_of_nat (nat_of_ascii c + 32) else c.

Definition upper_byte (c : ascii) : ascii :=
  if is_lower c then ascii_of_nat (nat_of_ascii c - 32) else c.

Fixpoint map_bytes (f : ascii -> ascii) (s : string) : string :=
  match s with
  | EmptyString => EmptyString
  | String c r => String (f c) (map_bytes f r)
  end.

Definition lower : string -> string := map_bytes lower_byte.
Definition upper : string -> string := map_bytes upper_byte.

(** The string holds bytes below 0x80 only. *)
Fixpoint isASCII (s : string) : bool :=
  match s with
  | EmptyString => true
  | String c r => (nat_of_ascii c <? 128)%nat && isASCII r
  end.

End ascii_case.

(** ** The Go [strings] package *)

(** [TrimPrefix] and [Split] work on bytes and are written out below.
    [strings.ToLower] and [strings.ToUpper] map every letter of Unicode
    by the tables of the Go release the program is built with; they are
    not part of the sources at hand, and the code that calls them takes
    them as the parameters [strings_ToLower] and [strings_ToUpper]. *)
Module strings.

(** [strip p s] is [Some r] when [s = p +:+ r]. *)
Fixpoint strip (p s : string) : option string :=
  match p, s with
  | EmptyString, _ => Some s
  | String a p', String b s' =>
      if Ascii.eqb a b then strip p' s' else None
  | String _ _, EmptyString => None
  end.

(** [strings.TrimPrefix(s, prefix)]: [s] without the leading [prefix],
    or [s] itself when it does not start with it. *)
Definition TrimPrefix (s prefix : string) : string :=
  match strip prefix s with
  | Some r => r
  | None => s
  end.

(** [strings.Split(s, sep)] for a one-byte separator, the only kind the
    file uses: the pieces between the separators, so one more piece than
    there are separators (a single empty piece for the empty string). *)
Fixpoint Split (s : string) (sep : ascii) : list string :=
  match s with
  | EmptyString => [EmptyString]
  | String c r =>
      if Ascii.eqb c sep then EmptyString :: Split r sep
      else match Split r sep with
           | h :: t => String c h :: t
           | [] => [String c EmptyString]
           end
  end.

End strings.

(** ** Errors *)

(** [sql.ErrNoRows] is a sentinel compared by identity; every other error
    the file meets is known by its message only. *)
Inductive error : Type :=
| ErrNoRows
| errors_New (msg : string).

Definition Error (e : error) : string :=
  match e with
  | ErrNoRows => "sql: no rows in result set"
  | errors_New msg => msg
  end.

Definition is_ErrNoRows (e : error) : bool :=
  match e with ErrNoRows => true | errors_New _ => false end.

(** ** gtsmodel: the rows the resolvers read and build *)

Module gtsmodel.

(** Modelled from the spec: the gtsmodel package is not part of the
    sources at hand; the records carry the columns the queries name and
    the fields the resolvers assign. A null [domain] marks a local
    account. *)
Record Account : Type := mkAccount {
  AccountID : string;
  Username : string;
  Domain : option string;
  URI : string;
  URL : string
}.

Record Mention : Type := mkMention {
  StatusID : string;
  OriginAccountID : string;
  OriginAccountURI : string;
  TargetAccountID : string;
  NameString : string;
  TargetAccountURI : string;
  TargetAccountURL : string;
  OriginAccount : option Account
}.

Record Tag : Type := mkTag {
  TagID : string;
  TagURL : string;
  Name : string;
  FirstSeenFromAccountID : string;
  CreatedAt : Z;
  UpdatedAt : Z;
  Useable : bool;
  Listable : bool;
  LastStatusAt : Z
}.

Record Emoji : Type := mkEmoji {
  EmojiID : string;
  Shortcode : string;
  VisibleInPicker : bool;
  Disabled : bool
}.

Definition set_LastStatusAt (t : Tag) (now : Z) : Tag :=
  mkTag (TagID t) (TagURL t) (Name t) (FirstSeenFromAccountID t)
        (CreatedAt t) (UpdatedAt t) (Useable t) (Listable t) now.

End gtsmodel.
Import gtsmodel.

(** ** The world outside the process *)

Inductive level : Type := DebugLevel | InfoLevel | WarnLevel.

(** What an observer of the process can see it do. *)
Inductive event : Type :=
| Logged (lvl : level) (msg : string)
| OpenDB (driver : string) (host : string) (port : Z)
| SetMaxOpenConns (n : Z)
| SetMaxIdleConns (n : Z)
| Ping.

(** A row of the migration bookkeeping table. *)
Record AppliedMigration : Type := mkApplied {
  AppliedName : string;
  AppliedGroup : Z;
  AppliedAt : Z
}.

Record World : Type := mkWorld {
  accounts : list Account;
  tags : list Tag;
  emojis : list Emoji;
  (** DDL statements the schema was built by, oldest first *)
  schema : list string;
  (** the bookkeeping table, [None] until it is created *)
  bun_migrations : option (list AppliedMigration);
  (** what the driver will answer to the coming round trips:
      [Some msg] is a failure (lost connection, cancelled context);
      past the end of the plan every round trip goes through *)
  faults : list (option string);
  (** what the entropy source will give the coming ULIDs; [None], and
      the end of the plan, is a failed read *)
  entropy : list (option string);
  (** the wall clock, in ticks *)
  clock : Z;
  (** everything observed so far, oldest first *)
  trace : list event
}.

Definition with_faults (fs : list (option string)) (w : World) : World :=
  mkWorld (accounts w) (tags w) (emojis w) (schema w) (bun_migrations w)
          fs (entropy w) (clock w) (trace w).

Definition with_entropy (en : list (option string)) (w : World) : World :=
  mkWorld (accounts w) (tags w) (emojis w) (schema w) (bun_migrations w)
          (faults w) en (clock w) (trace w).

Definition with_clock (c : Z) (w : World) : World :=
  mkWorld (accounts w) (tags w) (emojis w) (schema w) (bun_migrations w)
          (faults w) (entropy w) c (trace w).

Definition with_trace (tr : list event) (w : World) : World :=
  mkWorld (accounts w) (tags w) (emojis w) (schema w) (bun_migrations w)
          (faults w) (entropy w) (clock w) tr.

Definition with_schema (sc : list string) (w : World) : World :=
  mkWorld (accounts w) (tags w) (emojis w) sc (bun_migrations w)
          (faults w) (entropy w) (clock w) (trace w).

Definition with_bun_migrations (t : option (list AppliedMigration))
    (w : World) : World :=
  mkWorld (accounts w) (tags w) (emojis w) (schema w) t
          (faults w) (entropy w) (clock w) (trace w).

Definition with_tags (ts : list Tag) (w : World) : World :=
  mkWorld (accounts w) ts (emojis w) (schema w) (bun_migrations w)
          (faults w) (entropy w) (clock w) (trace w).

(** ** A state monad over the world *)

Definition M (A : Type) : Type := World -> A * World.

Definition ret {A} (a : A) : M A := fun w => (a, w).

Definition bind {A B} (m : M A) (k : A -> M B) : M B :=
  fun w => let (a, w') := m w in k a w'.

Notation "'let*' x ':=' m 'in' k" := (bind m (fun x => k))
  (at level 10, x name, m at level 100, k at level 200, only parsing).
Notation "'let*' ' p ':=' m 'in' k" :=
  (bind m (fun x => let 'p := x in k))
  (at level 10, p pattern, m at level 100, k at level 200, only parsing).

Definition gets {A} (f : World -> A) : M A := fun w => (f w, w).

Definition modify (f : World -> World) : M unit := fun w => (tt, f w).

(** One round trip to the database: the next entry of the fault plan
    decides whether it goes through. *)
Definition round_trip : M (option error) :=
  fun w =>
    match faults w with
    | [] => (None, w)
    | None :: fs => (None, with_faults fs w)
    | Some msg :: fs => (Some (errors_New msg), with_faults fs w)
    end.

Definition log (lvl : level) (msg : string) : M unit :=
  fun w => (tt, with_trace (trace w ++ [Logged lvl msg]) w).

Definition emit (e : event) : M unit :=
  fun w => (tt, with_trace (trace w ++ [e]) w).

(** [time.Now()]: the clock is read and moves on. *)
Definition time_Now : M Z :=
  fun w => (clock w, with_clock (clock w + 1) w).

(** Modelled from the spec: [id.NewRandomULID] (package internal/id, not
    part of the sources at hand) yields a new identifier, or the error of
    the entropy source. *)
Definition NewRandomULID : M (string * option error) :=
  fun w =>
    match entropy w with
    | Some u :: en => ((u, None), with_entropy en w)
    | None :: en =>
        (("", Some (errors_New "ulid: entropy source failed")),
         with_entropy en w)
    | [] => (("", Some (errors_New "ulid: entropy source failed")), w)
    end.

(** ** Queries: [NewSelect().Model(row).Where(..).Where(..).Scan(ctx)] *)

Module query.

(** A [Where] clause as the test it puts on a row. A comparison with a
    null column is never true. *)
Definition cond (A : Type) : Type := A -> bool.

(** SQL's [LOWER], as the built-in of SQLite: it folds the ASCII letters
    only, which is also what Postgres does on ASCII text. *)
Definition LOWER : string -> string := ascii_case.lower.

(** ["LOWER(col) = LOWER(?)"] *)
Definition lower_eq {A} (col : A -> option string) (v : string) : cond A :=
  fun r =>
    match col r with
    | Some x => String.eqb (LOWER x) (LOWER v)
    | None => false
    end.

(** ["col IS NULL"] *)
Definition is_null {A} (col : A -> option string) : cond A :=
  fun r => match col r with None => true | Some _ => false end.

(** ["col = ?"] on a text column *)
Definition eq_text {A} (col : A -> option string) (v : string) : cond A :=
  fun r =>
    match col r with
    | Some x => String.eqb x v
    | None => false
    end.

(** ["col = true"], ["col = false"] *)
Definition eq_bool {A} (col : A -> bool) (v : bool) : cond A :=
  fun r => Bool.eqb (col r) v.

Definition holds {A} (conds : list (cond A)) (r : A) : bool :=
  forallb (fun c => c r) conds.

(** The rows a [SELECT] with these clauses returns, in table order. *)
Definition rows {A} (table : list A) (conds : list (cond A)) : list A :=
  filter (fun r => holds conds r = true) table.

(** [Scan] into a single struct keeps the first row returned and reports
    [sql.ErrNoRows] when there is none, leaving the struct as it was; a
    failed round trip is reported as the driver's error. *)
Definition Scan {A} (table : World -> list A) (conds : list (cond A))
  : M (A + error) :=
  let* failed := round_trip in
  match failed with
  | Some err => ret (inr err)
  | None =>
      fun w =>
        match rows (table w) conds with
        | r :: _ => (inl r, w)
        | [] => (inr ErrNoRows, w)
        end
  end.

End query.

(** ** Configuration *)

(** The process-wide viper store, as the values the file reads from it:
    [viper.GetString] of an unset key is the empty string, [viper.GetInt]
    of an unset key is zero. *)
Record Config : Type := mkConfig {
  DbType : string;
  DbPort : Z;
  DbAddress : string;
  DbUser : string;
  DbPassword : string;
  DbDatabase : string;
  DbTLSMode : string;
  DbTLSCACert : string;
  ApplicationName : string;
  Protocol : string;
  Host : string
}.

(** ** Types of the libraries the connection set-up talks to *)

Module x509.
(** A parsed certificate, known by the DER bytes it was parsed from. *)
Record Certificate : Type := mkCertificate { Raw : string }.
Definition CertPool : Type := list Certificate.
End x509.

Module tls.
Definition VersionTLS12 : Z := 771.

Record Config : Type := mkConfig {
  InsecureSkipVerify : bool;
  ServerName : string;
  MinVersion : Z;
  RootCAs : option x509.CertPool
}.

Definition set_RootCAs (c : Config) (pool : x509.CertPool) : Config :=
  mkConfig (InsecureSkipVerify c) (ServerName c) (MinVersion c) (Some pool).
End tls.

Module pgx.
Record ConnConfig : Type := mkConnConfig {
  Host : string;
  Port : Z;
  User : string;
  Password : string;
  TLSConfig : option tls.Config;
  Database : string;
  PreferSimpleProtocol : bool;
  RuntimeParams : gmap string string
}.
End pgx.

(** What a Go call leaves behind: its results, or a run-time panic. *)
Inductive outcome (A : Type) : Type :=
| Returned (a : A)
| Panicked (msg : string).
Arguments Returned {A} a.
Arguments Panicked {A} msg.

(** What the machine the process runs on answers. *)
Record Platform : Type := mkPlatform {
  (** [x509.SystemCertPool()] *)
  SystemCertPool : x509.CertPool + error;
  (** [os.ReadFile(path)] *)
  ReadFile : string -> string + error;
  (** [pgx.ParseConfig(connString)], which also reads the PG* variables
      of the environment *)
  ParseConfig : string -> pgx.ConnConfig + error;
  (** [runtime.GOMAXPROCS(0)] *)
  GOMAXPROCS : Z
}.

(** The wrapped connection handed to the repositories. *)
Record DBConn : Type := mkDBConn {
  dialect : string;
  options : pgx.ConnConfig
}.

(** ** Migrations *)

Module migrate.

(** A registered migration: its name and what running it does to the
    schema. *)
Record Migration : Type := mkMigration {
  MigrationName : string;
  Up : list string -> list string + error
}.

Record MigrationGroup : Type := mkGroup {
  ID : Z;
  Migrations : list string
}.

Definition join_names (names : list string) : string :=
  match names with
  | [] => ""
  | n :: rest => fold_left (fun acc x => acc +:+ ", " +:+ x) rest n
  end.

Definition groupString (g : MigrationGroup) : string :=
  if (ID g =? 0) && Nat.eqb (length (Migrations g)) 0 then "nil"
  else "group #" +:+ pretty (ID g) +:+ " (" +:+ join_names (Migrations g)
       +:+ ")".

Definition isApplied (applied : list AppliedMigration) (m : Migration)
  : bool :=
  existsb (fun r => String.eqb (AppliedName r) (MigrationName m)) applied.

(** The registered migrations that the bookkeeping table does not
    record, in their registered order. *)
Definition unapplied (ms : list Migration)
    (applied : list AppliedMigration) : list Migration :=
  filter (fun m => isApplied applied m = false) ms.

Definition lastGroupID (applied : list AppliedMigration) : Z :=
  fold_right Z.max 0 (map AppliedGroup applied).

(** What [doMigration] asks of a migrator: its two methods. [Migrate]
    hands back the group it applied, or an error. *)
Record Migrator : Type := mkMigrator {
  Init : M (option error);
  Migrate : M (MigrationGroup + error)
}.

(** Modelled from the spec: the migrator is the bun/migrate library,
    outside the sources at hand. Its [Init] creates the bookkeeping table
    if absent and is idempotent. *)
Definition bunInit : M (option error) :=
  let* failed := round_trip in
  match failed with
  | Some err => ret (Some err)
  | None =>
      let* _ := modify (fun w =>
        match bun_migrations w with
        | Some _ => w
        | None => with_bun_migrations (Some []) w
        end) in
      ret None
  end.

(** Modelled from the spec: the steps of one group, in order. A step
    that fails changes nothing itself and aborts the run with its error;
    a step that succeeds is recorded under the group with its
    timestamp. *)
Fixpoint runGroup (group : Z) (pending : list Migration)
    (done : list string) : M (MigrationGroup + error) :=
  match pending with
  | [] => ret (inl (mkGroup group done))
  | m :: rest =>
      let* failed := round_trip in
      match failed with
      | Some err => ret (inr err)
      | None =>
          let* sc := gets schema in
          match Up m sc with
          | inr err => ret (inr err)
          | inl sc' =>
              let* _ := modify (with_schema sc') in
              let* now := time_Now in
              let* _ := modify (fun w =>
                with_bun_migrations
                  (Some (default [] (bun_migrations w) ++
                         [mkApplied (MigrationName m) group now])) w) in
              runGroup group rest (done ++ [MigrationName m])
          end
      end
  end.

(** Modelled from the spec: its [Migrate] finds the highest applied group
    and applies every migration after it as one new group. No registered
    migration at all is an error of its own; nothing pending is the zero
    group and no error. *)
Definition bunMigrate (ms : list Migration) : M (MigrationGroup + error) :=
  match ms with
  | [] => ret (inr (errors_New "migrate: there are no any migrations"))
  | _ :: _ =>
      let* failed := round_trip in
      match failed with
      | Some err => ret (inr err)
      | None =>
          let* table := gets bun_migrations in
          match table with
          | None =>
              ret (inr (errors_New "migrate: bun_migrations does not exist"))
          | Some applied =>
              match unapplied ms applied with
              | [] => ret (inl (mkGroup 0 []))
              | pending => runGroup (lastGroupID applied + 1) pending []
              end
          end
      end
  end.

(** Modelled from the spec: [migrate.NewMigrator(db, migrations)]. *)
Definition NewMigrator (ms : list Migration) : Migrator :=
  {| Init := bunInit; Migrate := bunMigrate ms |}.

End migrate.

(** ** The service *)

Module bundb.

Import query.

Definition dbTypePostgres : string := "postgres".
Definition dbTypeSqlite : string := "sqlite".
Definition dbTLSModeDisable : string := "disable".
Definition dbTLSModeEnable : string := "enable".
Definition dbTLSModeRequire : string := "require".
Definition dbTLSModeUnset : string := "".

(** *** Start-up *)

(** The body of [doMigration], for the migrator it has made. *)
Definition migrateWith (migrator : migrate.Migrator) : M (option error) :=
  let* failed := migrate.Init migrator in
  match failed with
  | Some err => ret (Some err)
  | None =>
      let* migrated := migrate.Migrate migrator in
      match migrated with
      | inr err =>
          if String.eqb (Error err) "migrate: there are no any migrations"
          then ret None
          else ret (Some err)
      | inl group =>
          if migrate.ID group =? 0 then
            let* _ := log InfoLevel "there are no new migrations to run" in
            ret None
          else
            let* _ := log InfoLevel
              ("MIGRATED DATABASE TO " +:+ migrate.groupString group) in
            ret None
      end
  end.

(** [Migrations] stands for the registry [migrations.Migrations]. *)
Definition doMigration (Migrations : list migrate.Migration)
  : M (option error) :=
  let migrator := migrate.NewMigrator Migrations in
  migrateWith migrator.

Section Postgres.

(** [strings.ToUpper] and the two decoders of the Go standard library,
    and the constant [db.DBTypePostgres] of package internal/db. *)
Variable strings_ToUpper : string -> string.
Variable DBTypePostgres : string.
Variable pem_Decode : string -> option string.
Variable x509_ParseCertificate : string -> x509.Certificate + error.

(** The TLS configuration the mode asks for, before any CA file. *)
Definition tlsConfigOf (viper : Config) : option tls.Config :=
  let tlsMode := DbTLSMode viper in
  if String.eqb tlsMode dbTLSModeDisable
     || String.eqb tlsMode dbTLSModeUnset then None
  else if String.eqb tlsMode dbTLSModeEnable then
    Some {| tls.InsecureSkipVerify := true;
            tls.ServerName := "";
            tls.MinVersion := 0;
            tls.RootCAs := None |}
  else if String.eqb tlsMode dbTLSModeRequire then
    Some {| tls.InsecureSkipVerify := false;
            tls.ServerName := DbAddress viper;
            tls.MinVersion := tls.VersionTLS12;
            tls.RootCAs := None |}
  else None.

(** The block guarded by [tlsConfig != nil && caCertPath != ""]. *)
Definition loadCACert (os : Platform) (caCertPath : string)
    (tlsConfig : option tls.Config) : option tls.Config + error :=
  match tlsConfig with
  | None => inl None
  | Some tc =>
      if String.eqb caCertPath "" then inl (Some tc)
      else
        match SystemCertPool os with
        | inr err =>
            inr (errors_New ("error fetching system CA cert pool: "
                             +:+ Error err))
        | inl certPool =>
            match ReadFile os caCertPath with
            | inr err =>
                inr (errors_New ("error opening CA certificate at "
                                 +:+ caCertPath +:+ ": " +:+ Error err))
            | inl caCertBytes =>
                if Nat.eqb (String.length caCertBytes) 0 then
                  inr (errors_New ("ca cert at " +:+ caCertPath
                                   +:+ " was empty"))
                else
                  match pem_Decode caCertBytes with
                  | None =>
                      inr (errors_New ("could not parse cert at "
                                       +:+ caCertPath +:+ " into PEM"))
                  | Some caPemBytes =>
                      match x509_ParseCertificate caPemBytes with
                      | inr err =>
                          inr (errors_New
                            ("could not parse cert at " +:+ caCertPath
                             +:+ " into x509 certificate: "
                             +:+ Error err))
                      | inl caCert =>
                          inl (Some (tls.set_RootCAs tc
                                       (certPool ++ [caCert])))
                      end
                  end
            end
        end
  end.

Definition deriveBunDBPGOptions (viper : Config) (os : Platform)
  : outcome (option pgx.ConnConfig * option error) :=
  if negb (String.eqb (strings_ToUpper (DbType viper)) DBTypePostgres)
  then Returned (None, Some (errors_New
         ("expected db type of " +:+ DBTypePostgres +:+ " but got "
          +:+ DbType viper)))
  else
  (* validate port *)
  let port := DbPort viper in
  if port =? 0 then Returned (None, Some (errors_New "no port set"))
  else
  (* validate address *)
  let address := DbAddress viper in
  if String.eqb address "" then
    Returned (None, Some (errors_New "no address set"))
  else
  (* validate username *)
  let username := DbUser viper in
  if String.eqb username "" then
    Returned (None, Some (errors_New "no user set"))
  else
  (* validate that there's a password *)
  let password := DbPassword viper in
  if String.eqb password "" then
    Returned (None, Some (errors_New "no password set"))
  else
  (* validate database *)
  let database := DbDatabase viper in
  if String.eqb database "" then
    Returned (None, Some (errors_New "no database set"))
  else
  match loadCACert os (DbTLSCACert viper) (tlsConfigOf viper) with
  | inr err => Returned (None, Some err)
  | inl tlsConfig =>
      match ParseConfig os "" with
      | inr _ =>
          (* the error is dropped and the nil config written to *)
          Panicked "invalid memory address or nil pointer dereference"
      | inl cfg =>
          Returned
            (Some {| pgx.Host := address;
                     pgx.Port := port mod 65536;
                     pgx.User := username;
                     pgx.Password := password;
                     pgx.TLSConfig := tlsConfig;
                     pgx.Database := database;
                     pgx.PreferSimpleProtocol := true;
                     pgx.RuntimeParams :=
                       <["application_name" := ApplicationName viper]>
                         (pgx.RuntimeParams cfg) |},
             None)
      end
  end.

Definition tweakConnectionValues (os : Platform) : M unit :=
  let maxOpenConns := 4 * GOMAXPROCS os in
  let* _ := emit (SetMaxOpenConns maxOpenConns) in
  emit (SetMaxIdleConns maxOpenConns).

Definition pgConn (viper : Config) (os : Platform)
  : M (outcome (option DBConn * option error)) :=
  match deriveBunDBPGOptions viper os with
  | Panicked msg => ret (Panicked msg)
  | Returned (_, Some err) =>
      ret (Returned (None, Some (errors_New
        ("could not create bundb postgres options: " +:+ Error err))))
  | Returned (None, None) =>
      ret (Panicked "invalid memory address or nil pointer dereference")
  | Returned (Some opts, None) =>
      let* _ := emit (OpenDB "pgx" (pgx.Host opts) (pgx.Port opts)) in
      let* _ := tweakConnectionValues os in
      (* ping to check the db is there and listening *)
      let* _ := emit Ping in
      let* failed := round_trip in
      match failed with
      | Some err =>
          ret (Returned (None, Some (errors_New
            ("postgres ping: " +:+ Error err))))
      | None =>
          let* _ := log InfoLevel "connected to POSTGRES database" in
          ret (Returned (Some (mkDBConn "pg" opts), None))
      end
  end.

End Postgres.

(** *** Conversion functions *)

(** Columns of the account table. *)
Definition col_id (a : Account) : option string := Some (AccountID a).
Definition col_username (a : Account) : option string := Some (Username a).
Definition col_domain (a : Account) : option string := Domain a.

(** Steps 1 to 4 of the loop body: what a token says about the account
    it names, as [(local, username, domain)], or the error that aborts
    the batch. *)
Definition parseTarget (a : string) : (bool * string * string) + error :=
  (* 1. trim off the first @ *)
  let t := strings.TrimPrefix a "@" in
  (* 2. split the username and domain *)
  let s := strings.Split t "@" in
  (* 3. length 1 is local, length 2 is remote, anything else is wrong *)
  match length s with
  | 1%nat | 2%nat =>
      let local := Nat.eqb (length s) 1 in
      let username := nth 0 s "" in
      let domain := if local then "" else nth 1 s "" in
      (* 4. check we now have a proper username and domain *)
      if String.eqb username "" || (negb local && String.eqb domain "")
      then inr (errors_New
             ("username or domain for '" +:+ a +:+ "' was nil"))
      else inl (local, username, domain)
  | _ =>
      inr (errors_New
        ("mentioned account format '" +:+ a +:+ "' was not valid"))
  end.

(** The [Where] clauses of the account look-up: a local user should have
    a null domain, a remote user has its domain defined. *)
Definition mentionedAccountWhere (local : bool) (username domain : string)
  : list (cond Account) :=
  if local
  then [lower_eq col_username username; is_null col_domain]
  else [lower_eq col_username username; lower_eq col_domain domain].

(** The loop over [targetAccounts], with the mentions collected so
    far. *)
Fixpoint mentionLoop (ogAccount : Account) (statusID : string)
    (targetAccounts : list string) (menchies : list Mention)
  : M (list Mention * option error) :=
  match targetAccounts with
  | [] => ret (menchies, None)
  | a :: rest =>
      match parseTarget a with
      | inr err => ret ([], Some err)
      | inl (local, username, domain) =>
          let* found :=
            Scan accounts (mentionedAccountWhere local username domain) in
          match found with
          | inr err =>
              if is_ErrNoRows err then
                (* no result found for this username/domain so just
                   don't include it and carry on *)
                let* _ := log DebugLevel
                  ("no account found with username '" +:+ username +:+
                   "' and domain '" +:+ domain +:+ "', skipping it") in
                mentionLoop ogAccount statusID rest menchies
              else
                (* a serious error has happened so bail *)
                ret ([], Some (errors_New
                  ("error getting account with username '" +:+ username
                   +:+ "' and domain '" +:+ domain +:+ "': "
                   +:+ Error err)))
          | inl mentionedAccount =>
              mentionLoop ogAccount statusID rest
                (menchies ++
                 [ {| StatusID := statusID;
                      OriginAccountID := AccountID ogAccount;
                      OriginAccountURI := URI ogAccount;
                      TargetAccountID := AccountID mentionedAccount;
                      NameString := a;
                      TargetAccountURI := URI mentionedAccount;
                      TargetAccountURL := URL mentionedAccount;
                      OriginAccount := Some mentionedAccount |} ])
          end
      end
  end.

Definition MentionStringsToMentions (targetAccounts : list string)
    (originAccountID statusID : string)
  : M (list Mention * option error) :=
  let* og := Scan accounts [eq_text col_id originAccountID] in
  match og with
  | inr err => ret ([], Some err)
  | inl ogAccount => mentionLoop ogAccount statusID targetAccounts []
  end.

(** Columns of the tag and emoji tables. *)
Definition col_name (t : Tag) : option string := Some (Name t).
Definition col_shortcode (e : Emoji) : option string := Some (Shortcode e).

(** The [Where] clauses of the tag and of the emoji look-up. *)
Definition tagWhere (t : string) : list (cond Tag) :=
  [lower_eq col_name t].

Definition emojiWhere (e : string) : list (cond Emoji) :=
  [eq_text col_shortcode e;
   eq_bool VisibleInPicker true;
   eq_bool Disabled false].

Fixpoint tagLoop (protocol host originAccountID : string)
    (tags_ : list string) (newTags : list Tag)
  : M (list Tag * option error) :=
  match tags_ with
  | [] => ret (newTags, None)
  | t :: rest =>
      let keep (tag : Tag) : M (list Tag * option error) :=
        (* bail already if the tag isn't useable *)
        if negb (Useable tag)
        then tagLoop protocol host originAccountID rest newTags
        else
          let* now := time_Now in
          tagLoop protocol host originAccountID rest
            (newTags ++ [set_LastStatusAt tag now]) in
      let* found := Scan tags (tagWhere t) in
      match found with
      | inl tag => keep tag
      | inr err =>
          if is_ErrNoRows err then
            (* tag doesn't exist yet so populate it *)
            let* '(newID, failed) := NewRandomULID in
            match failed with
            | Some err' => ret ([], Some err')
            | None =>
                let* created := time_Now in
                let* updated := time_Now in
                keep {| TagID := newID;
                        TagURL := protocol +:+ "://" +:+ host
                                  +:+ "/tags/" +:+ t;
                        Name := t;
                        FirstSeenFromAccountID := originAccountID;
                        CreatedAt := created;
                        UpdatedAt := updated;
                        Useable := true;
                        Listable := true;
                        LastStatusAt := 0 |}
            end
          else
            ret ([], Some (errors_New
              ("error getting tag with name " +:+ t +:+ ": "
               +:+ Error err)))
      end
  end.

Definition TagStringsToTags (viper : Config) (tags_ : list string)
    (originAccountID : string) : M (list Tag * option error) :=
  let protocol := Protocol viper in
  let host := Host viper in
  tagLoop protocol host originAccountID tags_ [].

Fixpoint emojiLoop (emojis_ : list string) (newEmojis : list Emoji)
  : M (list Emoji * option error) :=
  match emojis_ with
  | [] => ret (newEmojis, None)
  | e :: rest =>
      let* found := Scan emojis (emojiWhere e) in
      match found with
      | inr err =>
          if is_ErrNoRows err then
            let* _ := log DebugLevel
              ("no emoji found with shortcode " +:+ e
               +:+ ", skipping it") in
            emojiLoop rest newEmojis
          else
            ret ([], Some (errors_New
              ("error getting emoji with shortcode " +:+ e +:+ ": "
               +:+ Error err)))
      | inl emoji => emojiLoop rest (newEmojis ++ [emoji])
      end
  end.

Definition EmojiStringsToEmojis (emojis_ : list string)
  : M (list Emoji * option error) :=
  emojiLoop emojis_ [].

(** *** The embedded engine and the service *)

(** The handle [sql.Open] gives for the embedded engine, with what the
    code sets on it: [ConnMaxLifetime] is [None] as long as
    [SetConnMaxLifetime] was not called. *)
Record SqliteConn : Type := mkSqliteConn {
  dataSourceName : string;
  ConnMaxLifetime : option Z
}.

(** The connection either arm of [NewBunDBService] ends with. *)
Inductive Conn : Type :=
| PostgresConn (c : DBConn)
| SqliteDBConn (c : SqliteConn).

(** The service: its connection, whether the query-logging hook was
    added, and the join tables registered on the connection. The
    repositories built around the connection belong to other files. *)
Record bunDBService : Type := mkService {
  conn : Conn;
  queryHook : bool;
  models : list string
}.

Definition registerTables : list string := ["StatusToEmoji"; "StatusToTag"].

(** [logrus.TraceLevel] *)
Definition TraceLevel : Z := 6.

(** The data source name [sqliteConn] opens: anything from the first "?"
    on is dropped, so is a leading "file:", and the code's own prefix and
    preferences are put around what is left. *)
Definition sqliteAddress (dbAddress : string) : string :=
  (* Drop anything fancy from DB address *)
  let dbAddress := nth 0 (strings.Split dbAddress "?") "" in
  let dbAddress := strings.TrimPrefix dbAddress "file:" in
  (* Append our own SQLite preferences *)
  "file:" +:+ dbAddress +:+ "?cache=shared".

Section Service.

(** As for postgres: the library functions and the constant that are
    not in the sources at hand; besides, [strings.ToLower], [sql.Open],
    the test of an error for being a [sqlite.Error] with the code it then
    gives, and the table [sqlite.ErrorCodeString] (a missing code reads
    as the empty string). *)
Variable strings_ToLower strings_ToUpper : string -> string.
Variable DBTypePostgres : string.
Variable pem_Decode : string -> option string.
Variable x509_ParseCertificate : string -> x509.Certificate + error.
Variable sql_Open : string -> string -> option error.
Variable sqliteErrorCode : error -> option Z.
Variable ErrorCodeString : Z -> string.

(** The error as the two failure paths of [sqliteConn] report it. *)
Definition readable (err : error) : error :=
  match sqliteErrorCode err with
  | Some code => errors_New (ErrorCodeString code)
  | None => err
  end.

Definition sqliteConn (viper : Config) (os : Platform)
  : M (option SqliteConn * option error) :=
  let dbAddress := sqliteAddress (DbAddress viper) in
  (* Open new DB instance *)
  match sql_Open "sqlite" dbAddress with
  | Some err =>
      ret (None, Some (errors_New
        ("could not open sqlite db: " +:+ Error (readable err))))
  | None =>
      let* _ := tweakConnectionValues os in
      let* lifetime :=
        (if String.eqb dbAddress "file::memory:?cache=shared" then
           let* _ := log WarnLevel
             "sqlite in-memory database should only be used for debugging" in
           (* don't close connections on disconnect *)
           ret (Some 0)
         else ret None) in
      (* ping to check the db is there and listening *)
      let* _ := emit Ping in
      let* failed := round_trip in
      match failed with
      | Some err =>
          ret (None, Some (errors_New
            ("sqlite ping: " +:+ Error (readable err))))
      | None =>
          let* _ := log InfoLevel "connected to SQLITE database" in
          ret (Some (mkSqliteConn dbAddress lifetime), None)
      end
  end.

(** The [switch dbType] of [NewBunDBService]: the connection, or the
    error the call returns at once. *)
Definition connect (viper : Config) (os : Platform)
  : M (outcome (Conn + error)) :=
  let dbType := strings_ToLower (DbType viper) in
  if String.eqb dbType dbTypePostgres then
    let* r := pgConn strings_ToUpper DBTypePostgres pem_Decode
      x509_ParseCertificate
                viper os in
    match r with
    | Panicked msg => ret (Panicked msg)
    | Returned (_, Some err) => ret (Returned (inr err))
    | Returned (Some c, None) => ret (Returned (inl (PostgresConn c)))
    | Returned (None, None) =>
        ret (Panicked "invalid memory address or nil pointer dereference")
    end
  else if String.eqb dbType dbTypeSqlite then
    let* r := sqliteConn viper os in
    match r with
    | (_, Some err) => ret (Returned (inr err))
    | (Some c, None) => ret (Returned (inl (SqliteDBConn c)))
    | (None, None) =>
        ret (Panicked "invalid memory address or nil pointer dereference")
    end
  else
    ret (Returned (inr (errors_New
      ("database type " +:+ dbType +:+ " not supported for bundb")))).

(** [logLevel] is [logrus.GetLevel()], [Migrations] the registry
    [migrations.Migrations]. *)
Definition NewBunDBService (viper : Config) (os : Platform)
    (logLevel : Z) (Migrations : list migrate.Migration)
  : M (outcome (option bunDBService * option error)) :=
  let* connected := connect viper os in
  match connected with
  | Panicked msg => ret (Panicked msg)
  | Returned (inr err) => ret (Returned (None, Some err))
  | Returned (inl c) =>
      (* add a hook to just log queries and the time they take *)
      let hooked := TraceLevel <=? logLevel in
      (* perform any pending database migrations *)
      let* failed := doMigration Migrations in
      match failed with
      | Some err =>
          ret (Returned (None, Some (errors_New
            ("db migration error: " +:+ Error err))))
      | None =>
          (* we can confidently return this useable service now *)
          ret (Returned (Some (mkService c hooked registerTables), None))
      end
  end.

End Service.

End bundb.

(** * What the statements speak about *)

Import query bundb.

(** ** What the calls leave alone *)

(** The rows of every table, the schema and the bookkeeping are the same
    in both worlds. *)
Definition same_data (w w' : World) : Prop :=
  accounts w' = accounts w /\ tags w' = tags w /\ emojis w' = emojis w /\
  schema w' = schema w /\ bun_migrations w' = bun_migrations w.

(** No failure is planned for any coming round trip. *)
Definition healthy (w : World) : Prop :=
  Forall (fun f => f = None) (faults w).

(** ** Mentions: the vocabulary of the statements *)

(** The byte occurs in the string. *)
Fixpoint has_byte (c : ascii) (s : string) : bool :=
  match s with
  | EmptyString => false
  | String d r => Ascii.eqb d c || has_byte c r
  end.

(** The pattern the specification gives for a token: [@user], or
    [@user@domain], with non-empty parts. *)
Definition mention_pattern (a : string) : bool :=
  match a with
  | String c r =>
      Ascii.eqb c "@" &&
      match strings.Split r "@" with
      | [user] => negb (String.eqb user "")
      | [user; domain] =>
          negb (String.eqb user "") && negb (String.eqb domain "")
      | _ => false
      end
  | EmptyString => false
  end.

(** A user or domain name as a token carries it: not empty, and without
    an "@" of its own. *)
Definition namePart (s : string) : Prop :=
  s <> "" /\ has_byte "@" s = false.

(** The token that mentions a local account, and the one that mentions
    an account of another instance. *)
Definition localToken (user : string) : string := "@" +:+ user.

Definition remoteToken (user domain : string) : string :=
  "@" +:+ user +:+ "@" +:+ domain.

(** The tokens [parseTarget] lets through. *)
Definition accepted (a : string) : bool :=
  match parseTarget a with inl _ => true | inr _ => false end.

(** The account a token resolves to in a table, if any: the first row its
    look-up returns. *)
Definition mentionedAccount (table : list Account) (a : string)
  : option Account :=
  match parseTarget a with
  | inl (local, username, domain) =>
      head (rows table (mentionedAccountWhere local username domain))
  | inr _ => None
  end.

(** The tokens that resolve, each with its account, in input order. *)
Definition resolvedTargets (table : list Account) (tokens : list string)
  : list (string * Account) :=
  flat_map (fun a => match mentionedAccount table a with
                     | Some r => [(a, r)]
                     | None => []
                     end) tokens.

(** The record the loop appends for token [a] resolved to [r]. *)
Definition builtMention (og : Account) (statusID : string)
    (p : string * Account) : Mention :=
  {| StatusID := statusID;
     OriginAccountID := AccountID og;
     OriginAccountURI := URI og;
     TargetAccountID := AccountID (snd p);
     NameString := fst p;
     TargetAccountURI := URI (snd p);
     TargetAccountURL := URL (snd p);
     OriginAccount := Some (snd p) |}.

(** [r] is the first element of [l] that satisfies [P]. *)
Definition first_such {A} (P : A -> Prop) (l : list A) (r : A) : Prop :=
  exists pre post, l = pre ++ r :: post /\ P r /\ forall x, In x pre -> ~ P x.

(** What the two look-ups ask of a row. *)
Definition isLocalAccount (username : string) (r : Account) : Prop :=
  query.LOWER (Username r) = query.LOWER username /\
  Domain r = None.

Definition isRemoteAccount (username domain : string) (r : Account) : Prop :=
  query.LOWER (Username r) = query.LOWER username /\
  exists d, Domain r = Some d /\
            query.LOWER d = query.LOWER domain.

(** ** Emoji *)

(** What the emoji look-up asks of a row. *)
Definition usableEmoji (shortcode : string) (r : Emoji) : Prop :=
  Shortcode r = shortcode /\ VisibleInPicker r = true /\ Disabled r = false.

(** Some emoji of the table can answer the shortcode. *)
Definition hasUsableEmoji (table : list Emoji) (shortcode : string) : bool :=
  existsb (fun r => String.eqb (Shortcode r) shortcode
                    && VisibleInPicker r && negb (Disabled r)) table.

(** The emoji a shortcode resolves to in a table, if any. *)
Definition emojiFor (table : list Emoji) (shortcode : string)
  : option Emoji :=
  head (rows table (emojiWhere shortcode)).

(** ** Connection set-up *)

Definition with_DbTLSMode (mode : string) (v : Config) : Config :=
  {| DbType := DbType v; DbPort := DbPort v; DbAddress := DbAddress v;
     DbUser := DbUser v; DbPassword := DbPassword v;
     DbDatabase := DbDatabase v; DbTLSMode := mode;
     DbTLSCACert := DbTLSCACert v; ApplicationName := ApplicationName v;
     Protocol := Protocol v; Host := Host v |}.

(** What is known of [strings.ToLower] and [strings.ToUpper] without the
    tables of Unicode: on a string of ASCII bytes they fold the letters
    A-Z, a-z and leave every other byte alone. *)
Definition foldASCII (ToLower ToUpper : string -> string) : Prop :=
  forall s,
    ascii_case.isASCII s = true ->
    ToLower s = ascii_case.lower s /\ ToUpper s = ascii_case.upper s.



(** ** Migrations *)

(** The bookkeeping table exists and records every registered migration:
    the schema is already migrated. *)
Definition nothingPending (ms : list migrate.Migration) (w : World) : Prop :=
  exists applied,
    bun_migrations w = Some applied /\ migrate.unapplied ms applied = [].

(** ** Sample data *)

Module Sample.

Definition zork : Account :=
  mkAccount "01ZORK" "the_mighty_zork" None
            "http://localhost:8080/users/the_mighty_zork"
            "http://localhost:8080/@the_mighty_zork".

Definition alice : Account :=
  mkAccount "01ALICE" "Alice" None
            "http://localhost:8080/users/alice"
            "http://localhost:8080/@alice".

Definition carol : Account :=
  mkAccount "01CAROL" "carol" (Some "Remote.Example")
            "https://remote.example/users/carol"
            "https://remote.example/@carol".

Definition rainbow : Emoji := mkEmoji "01RAINBOW" "rainbow" true false.
Definition hidden : Emoji := mkEmoji "01HIDDEN" "hidden" false false.
Definition retired : Emoji := mkEmoji "01RETIRED" "retired" true true.

Definition world : World :=
  {| accounts := [zork; alice; carol];
     tags := [];
     emojis := [hidden; retired; rainbow];
     schema := [];
     bun_migrations := None;
     faults := [None; None];
     entropy := [Some "01TAGAAAA"; Some "01TAGBBBB"];
     clock := 1000;
     trace := [] |}.

Definition viper : Config :=
  {| DbType := "postgres";
     DbPort := 5432;
     DbAddress := "db.internal";
     DbUser := "gotosocial";
     DbPassword := "hunter2";
     DbDatabase := "gotosocial";
     DbTLSMode := "disable";
     DbTLSCACert := "";
     ApplicationName := "gotosocial";
     Protocol := "https";
     Host := "example.org" |}.

End Sample.

Module SampleHost.

(** Stand-ins for [strings.ToLower] and [strings.ToUpper]: on the ASCII
    settings of the samples Go's functions fold the letters A-Z, a-z and
    nothing else. *)
Definition strings_ToLower : string -> string := ascii_case.lower.
Definition strings_ToUpper : string -> string := ascii_case.upper.

Definition DBTypePostgres : string := "POSTGRES".

(** A stand-in decoder: a block is whatever follows the BEGIN line. *)
Definition pem_Decode (bytes : string) : option string :=
  strings.strip "-----BEGIN CERTIFICATE-----" bytes.

Definition x509_ParseCertificate (der : string)
  : x509.Certificate + error :=
  if Nat.eqb (String.length der) 0
  then inr (errors_New "x509: malformed certificate")
  else inl (x509.mkCertificate der).

Definition os : Platform :=
  {| SystemCertPool := inl [];
     ReadFile := fun path =>
       if String.eqb path "/etc/gotosocial/empty.pem" then inl ""
       else if String.eqb path "/etc/gotosocial/ca.pem"
       then inl "-----BEGIN CERTIFICATE-----MIIB"
       else inr (errors_New ("open " +:+ path
                             +:+ ": no such file or directory"));
     ParseConfig := fun _ =>
       inl (pgx.mkConnConfig "" 5432 "" "" None "" false ∅);
     GOMAXPROCS := 8 |}.

Definition setting (password tlsMode caCert : string) : Config :=
  {| DbType := "postgres";
     DbPort := 5432;
     DbAddress := "db.internal";
     DbUser := "gotosocial";
     DbPassword := password;
     DbDatabase := "gotosocial";
     DbTLSMode := tlsMode;
     DbTLSCACert := caCert;
     ApplicationName := "gotosocial";
     Protocol := "https";
     Host := "example.org" |}.

End SampleHost.

Module SampleMigrations.

Definition createTables : migrate.Migration :=
  migrate.mkMigration "20211113114307_init"
    (fun sc => inl (sc ++ ["CREATE TABLE accounts"; "CREATE TABLE tags"])).

Definition addIndex : migrate.Migration :=
  migrate.mkMigration "20220214175650_media_cleanup"
    (fun sc => inl (sc ++ ["CREATE INDEX media_cached_idx"])).

Definition Migrations : list migrate.Migration := [createTables; addIndex].

(** The sample world after its first start-up. *)
Definition migrated : World := snd (doMigration Migrations Sample.world).

End SampleMigrations.

(** ** The embedded engine's address *)

Module SampleSqlite.

(** A driver that knows the embedded engine only. *)
Definition sql_Open (driver dsn : string) : option error :=
  if String.eqb driver "sqlite" then None
  else Some (errors_New ("sql: unknown driver " +:+ driver)).

(** The engine's errors, told by their text: "database is locked" is
    code 5, "unable to open database file" code 14. *)
Definition sqliteErrorCode (err : error) : option Z :=
  if String.eqb (Error err) "database is locked (5) (SQLITE_BUSY)"
  then Some 5
  else if String.eqb (Error err) "unable to open database file (14)"
  then Some 14
  else None.

Definition ErrorCodeString (code : Z) : string :=
  if code =? 5 then "Error code 5: The database file is locked"
  else if code =? 14 then "Error code 14: Unable to open the database file"
  else "".

Definition setting (dbType address : string) : Config :=
  {| DbType := dbType;
     DbPort := 0;
     DbAddress := address;
     DbUser := "";
     DbPassword := "";
     DbDatabase := "";
     DbTLSMode := "";
     DbTLSCACert := "";
     ApplicationName := "gotosocial";
     Protocol := "https";
     Host := "example.org" |}.

(** A world whose first round trip fails with the engine's error. *)
Definition locked : World :=
  with_faults [Some "database is locked (5) (SQLITE_BUSY)"] Sample.world.

End SampleSqlite.

Definition with_DbTLSCACert (path : string) (v : Config) : Config :=
  {| DbType := DbType v; DbPort := DbPort v; DbAddress := DbAddress v;
     DbUser := DbUser v; DbPassword := DbPassword v;
     DbDatabase := DbDatabase v; DbTLSMode := DbTLSMode v;
     DbTLSCACert := path; ApplicationName := ApplicationName v;
     Protocol := Protocol v; Host := Host v |}.

Definition with_DbPort (port : Z) (v : Config) : Config :=
  {| DbType := DbType v; DbPort := port; DbAddress := DbAddress v;
     DbUser := DbUser v; DbPassword := DbPassword v;
     DbDatabase := DbDatabase v; DbTLSMode := DbTLSMode v;
     DbTLSCACert := DbTLSCACert v; ApplicationName := ApplicationName v;
     Protocol := Protocol v; Host := Host v |}.

(** A machine on which [pgx.ParseConfig] fails, as it does when a PG*
    variable of the environment is malformed. *)
Definition with_ParseConfig_failing (os : Platform) : Platform :=
  {| SystemCertPool := SystemCertPool os;
     ReadFile := ReadFile os;
     ParseConfig := fun _ =>
       inr (errors_New "cannot parse ``: invalid port (PGPORT)");
     GOMAXPROCS := GOMAXPROCS os |}.

(** What every tag of a result has: it is useable, its name is one of the
    names asked for up to letter case, and its last-used time was read
    from the clock during the call. *)
Definition keptTag (names : list string) (before after : Z) (t : Tag)
  : Prop :=
  Useable t = true /\
  (exists name, In name names /\
                query.LOWER (Name t) = query.LOWER name) /\
  before <= LastStatusAt t < after.

(** * Proofs *)

Lemma same_data_refl w : same_data w w.
Proof. repeat split. Qed.

Lemma same_data_trans w1 w2 w3 :
  same_data w1 w2 -> same_data w2 w3 -> same_data w1 w3.
Proof.
  unfold same_data. intros (a1 & t1 & e1 & s1 & b1) (a2 & t2 & e2 & s2 & b2).
  repeat split; congruence.
Qed.

Lemma round_trip_frame w r w' :
  round_trip w = (r, w') ->
  same_data w w' /\ entropy w' = entropy w /\ clock w' = clock w /\
  trace w' = trace w.
Proof.
  unfold round_trip. destruct w as [ac tg em sc bm fs en ck tr]; simpl.
  destruct fs as [|[msg|] fs]; intros [= <- <-]; repeat split.
Qed.

Lemma round_trip_healthy w :
  healthy w -> exists w', round_trip w = (None, w') /\ healthy w'.
Proof.
  unfold healthy, round_trip.
  destruct w as [ac tg em sc bm fs en ck tr]; simpl. intros H.
  destruct fs as [|f fs].
  - eexists. split; [reflexivity | constructor].
  - inversion H as [|? ? Hf Hfs]; subst. eexists. split; [reflexivity | exact Hfs].
Qed.

Lemma log_frame lvl msg w :
  exists w', log lvl msg w = (tt, w') /\ same_data w w' /\
             faults w' = faults w /\ entropy w' = entropy w /\
             clock w' = clock w.
Proof. eexists. split; [reflexivity|]. repeat split. Qed.

(** ** What [Scan] returns *)

Section ScanFacts.

Context {A : Type}.
Variable table : World -> list A.
Hypothesis table_data : forall w w', same_data w w' -> table w' = table w.
Variable conds : list (cond A).

Lemma Scan_frame w r w' :
  Scan table conds w = (r, w') ->
  same_data w w' /\ entropy w' = entropy w /\ clock w' = clock w /\
  trace w' = trace w.
Proof.
  unfold Scan, bind. destruct (round_trip w) as [failed w1] eqn:Hrt.
  apply round_trip_frame in Hrt. destruct failed as [err|].
  - intros [= <- <-]. exact Hrt.
  - destruct (rows (table w1) conds); intros [= <- <-]; exact Hrt.
Qed.

Lemma Scan_found w r w' :
  Scan table conds w = (inl r, w') ->
  exists others, rows (table w) conds = r :: others.
Proof.
  unfold Scan, bind. destruct (round_trip w) as [failed w1] eqn:Hrt.
  apply round_trip_frame in Hrt. destruct Hrt as [Hd _].
  destruct failed as [err|]; simpl.
  - intros [= ].
  - rewrite (table_data _ _ Hd).
    destruct (rows (table w) conds) as [|r0 others]; intros [= <- <-].
    exists others. reflexivity.
Qed.

Lemma Scan_no_rows w w' :
  Scan table conds w = (inr ErrNoRows, w') -> rows (table w) conds = [].
Proof.
  unfold Scan, bind. destruct (round_trip w) as [failed w1] eqn:Hrt.
  pose proof Hrt as Hrt'.
  apply round_trip_frame in Hrt. destruct Hrt as [Hd _].
  destruct failed as [err|]; simpl.
  - unfold round_trip in Hrt'.
    destruct (faults w) as [|[msg|] fs]; inversion Hrt'; subst.
    intros [= ].
  - rewrite (table_data _ _ Hd).
    destruct (rows (table w) conds) as [|r0 others]; [reflexivity|].
    intros [= ].
Qed.

Lemma Scan_healthy w :
  healthy w ->
  exists w',
    Scan table conds w =
      (match rows (table w) conds with
       | r :: _ => inl r
       | [] => inr ErrNoRows
       end, w') /\
    healthy w' /\ same_data w w' /\ entropy w' = entropy w /\
    clock w' = clock w /\ trace w' = trace w.
Proof.
  intros Hh. destruct (round_trip_healthy w Hh) as (w1 & Hrt & Hh1).
  pose proof (round_trip_frame _ _ _ Hrt) as Hfr.
  destruct Hfr as [Hd Hrest].
  exists w1. unfold Scan, bind. rewrite Hrt. simpl.
  rewrite (table_data _ _ Hd).
  destruct (rows (table w) conds); (split; [reflexivity|]); tauto.
Qed.

End ScanFacts.

Lemma accounts_data w w' : same_data w w' -> accounts w' = accounts w.
Proof. unfold same_data. tauto. Qed.

Lemma tags_data w w' : same_data w w' -> tags w' = tags w.
Proof. unfold same_data. tauto. Qed.

Lemma emojis_data w w' : same_data w w' -> emojis w' = emojis w.
Proof. unfold same_data. tauto. Qed.

(** ** Mentions *)

Lemma accepted_pattern a :
  accepted a = mention_pattern (String "@" (strings.TrimPrefix a "@")).
Proof.
  unfold accepted, parseTarget, mention_pattern.
  change (Ascii.eqb "@" "@") with true. cbv beta iota. simpl andb.
  destruct (strings.Split (strings.TrimPrefix a "@") "@")
    as [|u [|d [|x rest]]]; simpl; try reflexivity.
  - destruct (String.eqb u ""); reflexivity.
  - destruct (String.eqb u ""); simpl; [reflexivity|].
    destruct (String.eqb d ""); reflexivity.
Qed.

Lemma pattern_accepted a : mention_pattern a = true -> accepted a = true.
Proof.
  intros H. rewrite accepted_pattern.
  destruct a as [|c r]; [discriminate|].
  unfold mention_pattern in H. apply andb_prop in H. destruct H as [Hc Hr].
  apply Ascii.eqb_eq in Hc. subst c.
  unfold strings.TrimPrefix. simpl strings.strip.
  unfold mention_pattern. change (Ascii.eqb "@" "@") with true.
  exact Hr.
Qed.

Local Arguments parseTarget : simpl never.
Local Arguments Scan : simpl never.
Local Arguments mentionedAccountWhere : simpl never.
Local Arguments String.append : simpl never.

(** The loop never touches the tables. *)
Lemma mentionLoop_frame og s tokens :
  forall acc w r w',
    mentionLoop og s tokens acc w = (r, w') ->
    same_data w w' /\ entropy w' = entropy w /\ clock w' = clock w.
Proof.
  induction tokens as [|a rest IH]; intros acc w r w' H; simpl in H.
  - inversion H; subst. repeat split.
  - destruct (parseTarget a) as [[[l u] d]|e].
    + unfold bind in H.
      destruct (Scan accounts (mentionedAccountWhere l u d) w)
        as [found w1] eqn:HS.
      apply Scan_frame in HS. destruct HS as (Hd & He & Hc & _).
      destruct found as [m|[|msg]]; simpl in H.
      * apply IH in H. destruct H as (Hd' & He' & Hc').
        split; [eapply same_data_trans; eauto|]. split; congruence.
      * unfold bind, log in H. apply IH in H.
        destruct H as (Hd' & He' & Hc'). simpl in He', Hc'.
        split; [eapply same_data_trans; [exact Hd | exact Hd']|].
        split; congruence.
      * inversion H; subst. tauto.
    + inversion H; subst. repeat split.
Qed.

(** A call that returns no error returns one record for every token that
    resolves, built from that token and its account, in input order. *)
Lemma mentionLoop_returns og s tokens :
  forall acc w ms w',
    mentionLoop og s tokens acc w = ((ms, None), w') ->
    ms = acc ++ map (builtMention og s) (resolvedTargets (accounts w) tokens).
Proof.
  induction tokens as [|a rest IH]; intros acc w ms w' H; simpl in H.
  - inversion H; subst. simpl. rewrite app_nil_r. reflexivity.
  - unfold resolvedTargets. simpl flat_map. unfold mentionedAccount at 1.
    fold (resolvedTargets (accounts w) rest).
    destruct (parseTarget a) as [[[l u] d]|e]; [|discriminate H].
    unfold bind in H.
    destruct (Scan accounts (mentionedAccountWhere l u d) w)
      as [found w1] eqn:HS.
    pose proof (Scan_frame _ _ _ _ _ HS) as (Hd & _).
    apply accounts_data in Hd.
    destruct found as [m|[|msg]]; simpl in H.
    + apply (Scan_found accounts accounts_data) in HS.
      destruct HS as [others HS]. rewrite HS. simpl.
      apply IH in H. rewrite Hd in H. rewrite H, <- app_assoc.
      reflexivity.
    + apply (Scan_no_rows accounts accounts_data) in HS.
      rewrite HS. simpl. unfold bind, log in H. apply IH in H.
      simpl in H. rewrite Hd in H. exact H.
    + discriminate H.
Qed.

(** In a healthy world every accepted token is looked up and none aborts
    the batch. *)
Lemma mentionLoop_healthy og s tokens :
  forall acc w,
    healthy w ->
    Forall (fun a => accepted a = true) tokens ->
    exists w',
      mentionLoop og s tokens acc w =
        ((acc ++ map (builtMention og s)
                   (resolvedTargets (accounts w) tokens), None), w') /\
      healthy w' /\ same_data w w'.
Proof.
  induction tokens as [|a rest IH]; intros acc w Hh Hall; simpl.
  - exists w. rewrite app_nil_r. repeat split. exact Hh.
  - inversion Hall as [|? ? Ha Hrest]; subst.
    unfold resolvedTargets. simpl flat_map. unfold mentionedAccount at 1.
    fold (resolvedTargets (accounts w) rest).
    unfold accepted in Ha.
    destruct (parseTarget a) as [[[l u] d]|e]; [|discriminate Ha].
    destruct (Scan_healthy accounts accounts_data
                (mentionedAccountWhere l u d) w Hh)
      as (w1 & HS & Hh1 & Hd1 & _).
    unfold bind. rewrite HS.
    destruct (rows (accounts w) (mentionedAccountWhere l u d))
      as [|r others]; simpl.
    + unfold log.
      destruct (IH acc (with_trace
                  (trace w1 ++
                   [Logged DebugLevel
                      ("no account found with username '" +:+ u +:+
                       "' and domain '" +:+ d +:+ "', skipping it")]) w1))
        as (w' & HL & Hh' & Hd'); [exact Hh1 | exact Hrest |].
      exists w'. simpl in HL. rewrite (accounts_data _ _ Hd1) in HL.
      split; [exact HL|]. split; [exact Hh'|].
      eapply same_data_trans; [exact Hd1 | exact Hd'].
    + destruct (IH (acc ++ [builtMention og s (a, r)]) w1 Hh1 Hrest)
        as (w' & HL & Hh' & Hd').
      exists w'. rewrite (accounts_data _ _ Hd1) in HL.
      rewrite <- app_assoc in HL.
      split; [exact HL|]. split; [exact Hh'|].
      eapply same_data_trans; [exact Hd1 | exact Hd'].
Qed.

(** A token that [parseTarget] refuses makes the loop return an error
    and no mentions, whatever comes before or after it. *)
Lemma mentionLoop_refused og s tokens :
  Exists (fun a => accepted a = false) tokens ->
  forall acc w,
    exists e w', mentionLoop og s tokens acc w = (([], Some e), w').
Proof.
  induction tokens as [|a rest IH]; intros Hex acc w.
  - inversion Hex.
  - simpl. unfold accepted in Hex.
    destruct (parseTarget a) as [[[l u] d]|e] eqn:Hp.
    + assert (Hrest : Exists (fun a => accepted a = false) rest).
      { inversion Hex as [? ? Ha|? ? Hr]; subst.
        - rewrite Hp in Ha. discriminate Ha.
        - exact Hr. }
      unfold bind.
      destruct (Scan accounts (mentionedAccountWhere l u d) w)
        as [[m|[|msg]] w1]; simpl.
      * apply IH. exact Hrest.
      * unfold log. apply IH. exact Hrest.
      * eexists. eexists. reflexivity.
    + eexists. eexists. reflexivity.
Qed.

Lemma MentionStringsToMentions_returns tokens o s w ms w' :
  MentionStringsToMentions tokens o s w = ((ms, None), w') ->
  exists og others,
    rows (accounts w) [eq_text col_id o] = og :: others /\
    ms = map (builtMention og s) (resolvedTargets (accounts w) tokens).
Proof.
  unfold MentionStringsToMentions, bind. intros H.
  destruct (Scan accounts [eq_text col_id o] w) as [[og|err] w1] eqn:HS;
    [|discriminate H].
  pose proof (Scan_frame _ _ _ _ _ HS) as (Hd & _).
  apply (Scan_found accounts accounts_data) in HS.
  destruct HS as [others HS]. exists og, others. split; [exact HS|].
  apply mentionLoop_returns in H. rewrite (accounts_data _ _ Hd) in H.
  exact H.
Qed.

Lemma MentionStringsToMentions_healthy tokens o s w og others :
  healthy w ->
  rows (accounts w) [eq_text col_id o] = og :: others ->
  Forall (fun a => accepted a = true) tokens ->
  exists w',
    MentionStringsToMentions tokens o s w =
      ((map (builtMention og s) (resolvedTargets (accounts w) tokens),
        None), w') /\
    healthy w' /\ same_data w w'.
Proof.
  intros Hh Hog Hall. unfold MentionStringsToMentions, bind.
  destruct (Scan_healthy accounts accounts_data
              [eq_text col_id o] w Hh) as (w1 & HS & Hh1 & Hd1 & _).
  rewrite HS, Hog.
  destruct (mentionLoop_healthy og s tokens [] w1 Hh1 Hall)
    as (w' & HL & Hh' & Hd').
  exists w'. rewrite (accounts_data _ _ Hd1) in HL.
  split; [exact HL|]. split; [exact Hh'|].
  eapply same_data_trans; [exact Hd1 | exact Hd'].
Qed.

Lemma MentionStringsToMentions_refused tokens o s w :
  Exists (fun a => accepted a = false) tokens ->
  exists e w', MentionStringsToMentions tokens o s w = (([], Some e), w').
Proof.
  intros Hex. unfold MentionStringsToMentions, bind.
  destruct (Scan accounts [eq_text col_id o] w) as [[og|err] w1].
  - apply mentionLoop_refused. exact Hex.
  - eexists. eexists. reflexivity.
Qed.

(** ** Rows and the clauses that select them *)

Lemma rows_cons {A} (conds : list (cond A)) x table :
  rows (x :: table) conds =
    if holds conds x then x :: rows table conds else rows table conds.
Proof.
  unfold rows. rewrite filter_cons.
  destruct (holds conds x); case_decide; congruence.
Qed.

Lemma rows_head {A} (conds : list (cond A)) table r :
  (exists others, rows table conds = r :: others) <->
  first_such (fun x => holds conds x = true) table r.
Proof.
  induction table as [|x table IH]; split.
  - intros [others H]. discriminate H.
  - intros (pre & post & H & _). destruct pre; discriminate H.
  - intros [others H]. rewrite rows_cons in H.
    destruct (holds conds x) eqn:Hx.
    + inversion H; subst. exists [], table.
      repeat split; auto; intros y [].
    + destruct (proj1 IH (ex_intro _ others H)) as (pre & post & E & Hr & Hp).
      exists (x :: pre), post. subst table. repeat split; auto.
      intros y [<-|Hy]; [congruence | auto].
  - intros (pre & post & E & Hr & Hp). rewrite rows_cons.
    destruct pre as [|y pre]; simpl in E; inversion E; subst.
    + rewrite Hr. eauto.
    + destruct (holds conds y) eqn:Hy.
      * exfalso. apply (Hp y); [left; reflexivity | exact Hy].
      * apply IH. exists pre, post. repeat split; auto.
        intros z Hz. apply Hp. right. exact Hz.
Qed.

Lemma rows_none {A} (conds : list (cond A)) table :
  rows table conds = [] <-> forall x, In x table -> holds conds x <> true.
Proof.
  induction table as [|x table IH]; simpl.
  - split; [intros _ y [] | reflexivity].
  - rewrite rows_cons. destruct (holds conds x) eqn:Hx; split.
    + intros H. discriminate H.
    + intros H. exfalso. apply (H x); auto.
    + intros H y [<-|Hy]; [congruence | apply IH; auto].
    + intros H. apply IH. intros y Hy. apply H. right. exact Hy.
Qed.

Lemma holds_local username domain r :
  holds (mentionedAccountWhere true username domain) r = true <->
  isLocalAccount username r.
Proof.
  unfold holds, mentionedAccountWhere, isLocalAccount, lower_eq, is_null,
    col_username, col_domain. simpl.
  rewrite andb_true_r, andb_true_iff, String.eqb_eq.
  destruct (Domain r); intuition congruence.
Qed.

Lemma holds_remote username domain r :
  holds (mentionedAccountWhere false username domain) r = true <->
  isRemoteAccount username domain r.
Proof.
  unfold holds, mentionedAccountWhere, isRemoteAccount, lower_eq,
    col_username, col_domain. simpl.
  rewrite andb_true_r, andb_true_iff, String.eqb_eq.
  destruct (Domain r) as [d|].
  - rewrite String.eqb_eq. split.
    + intros [Hu Hd]. split; [exact Hu|]. exists d. auto.
    + intros [Hu (d' & [= <-] & Hd)]. auto.
  - split; [intros [_ H]; discriminate H|].
    intros [_ (d' & H & _)]. discriminate H.
Qed.

Lemma holds_id o r :
  holds [eq_text col_id o] r = true <-> AccountID r = o.
Proof.
  unfold holds, eq_text, col_id. simpl.
  rewrite andb_true_r. apply String.eqb_eq.
Qed.

Lemma first_such_iff {A} (P Q : A -> Prop) l r :
  (forall x, P x <-> Q x) -> first_such P l r <-> first_such Q l r.
Proof.
  intros H. unfold first_such.
  split; intros (pre & post & E & Hr & Hp); exists pre, post;
    (split; [exact E|]); (split; [apply H; exact Hr|]);
    intros x Hx Hq; apply (Hp x Hx); apply H; exact Hq.
Qed.

Lemma first_such_in {A} (P : A -> Prop) l r :
  first_such P l r -> In r l /\ P r.
Proof.
  intros (pre & post & -> & Hr & _). split; [|exact Hr].
  apply in_or_app. right. left. reflexivity.
Qed.

Lemma first_such_exists {A} (P : A -> Prop) l :
  (forall x, {P x} + {~ P x}) ->
  (exists r, In r l /\ P r) -> exists r, first_such P l r.
Proof.
  intros dec. induction l as [|x l IH]; intros (r & Hin & Hr).
  - destruct Hin.
  - destruct (dec x) as [Hx|Hx].
    + exists x, [], l. repeat split; auto; intros y [].
    + destruct Hin as [<-|Hin]; [contradiction|].
      destruct IH as (r' & pre & post & -> & Hr' & Hp); [eauto|].
      exists r', (x :: pre), post. repeat split; auto.
      intros y [<-|Hy]; auto.
Qed.

Lemma Scan_goes_through {A} (table : World -> list A)
    (table_data : forall w w', same_data w w' -> table w' = table w)
    (conds : list (cond A)) w :
  fst (round_trip w) = None ->
  fst (Scan table conds w) =
    match rows (table w) conds with
    | r :: _ => inl r
    | [] => inr ErrNoRows
    end.
Proof.
  unfold Scan, bind. destruct (round_trip w) as [failed w1] eqn:Hrt.
  simpl. intros ->. apply round_trip_frame in Hrt. destruct Hrt as [Hd _].
  rewrite (table_data _ _ Hd). destruct (rows (table w) conds); reflexivity.
Qed.

Lemma origin_row w o :
  (exists og, In og (accounts w) /\ AccountID og = o) ->
  exists og others,
    rows (accounts w) [eq_text col_id o] = og :: others /\
    In og (accounts w) /\ AccountID og = o.
Proof.
  intros Hex.
  destruct (first_such_exists (fun r => AccountID r = o) (accounts w))
    as [og Hog]; [intros x; apply string_dec | exact Hex |].
  pose proof (first_such_in _ _ _ Hog) as [Hin Hid].
  apply (first_such_iff _ _ _ _ (holds_id o)) in Hog.
  apply rows_head in Hog. destruct Hog as [others Hrows].
  exists og, others. auto.
Qed.

Lemma resolved_names og s table tokens :
  map NameString (map (builtMention og s) (resolvedTargets table tokens)) =
  filter (fun a => is_Some (mentionedAccount table a)) tokens.
Proof.
  unfold resolvedTargets.
  induction tokens as [|a rest IH]; [reflexivity|].
  simpl flat_map. destruct (mentionedAccount table a) as [r|] eqn:Hr.
  - rewrite filter_cons_True by (rewrite Hr; eauto).
    simpl. rewrite IH. reflexivity.
  - rewrite filter_cons_False by (rewrite Hr; intros [x Hx]; discriminate).
    simpl. exact IH.
Qed.

Lemma built_fields og s (l : list (string * Account)) :
  Forall2 (fun p m =>
             NameString m = fst p /\
             TargetAccountID m = AccountID (snd p) /\
             TargetAccountURI m = URI (snd p) /\
             TargetAccountURL m = URL (snd p) /\
             OriginAccount m = Some (snd p) /\
             OriginAccountID m = AccountID og /\
             OriginAccountURI m = URI og /\
             StatusID m = s)
          l (map (builtMention og s) l).
Proof.
  induction l as [|p l IH]; simpl; constructor; [|exact IH].
  repeat split.
Qed.

Lemma sample_world_healthy : healthy Sample.world.
Proof. repeat constructor. Qed.

(** ** Claims about [MentionStringsToMentions] *)

(** C1 (as amended). A token that, once its leading "@" is put back if it
    was missing, does not match [@user] or [@user@domain] makes the whole
    call return an error and no Mentions, wherever it stands in the batch.
    (A token that only lacks the leading "@" is not refused: it is read as
    a user name.) *)
Theorem C1_refused_token_aborts_batch
    (tokens : list string) (originAccountID statusID : string) (w : World) :
  Exists (fun a =>
            mention_pattern (String "@" (strings.TrimPrefix a "@")) = false)
         tokens ->
  exists e,
    fst (MentionStringsToMentions tokens originAccountID statusID w)
    = ([], Some e).
Proof.
  intros Hex.
  destruct (MentionStringsToMentions_refused tokens originAccountID
              statusID w) as (e & w' & H).
  - eapply Exists_impl; [exact Hex|]. intros a Ha.
    rewrite accepted_pattern. exact Ha.
  - exists e. rewrite H. reflexivity.
Qed.

Lemma C1_refused_token_witness :
  exists e,
    fst (MentionStringsToMentions ["@alice"; "@a@b@c"; "@carol"]
           "01ZORK" "01STATUS" Sample.world)
    = ([], Some e).
Proof.
  apply C1_refused_token_aborts_batch.
  apply Exists_cons_tl. apply Exists_cons_hd. reflexivity.
Defined.

(** C1 as stated fails: "not-a-valid-token" does not match the pattern,
    yet the call looks it up as a local user name and, finding nobody,
    returns an empty list and no error. *)
Lemma C1_not_a_valid_token_counterexample :
  mention_pattern "not-a-valid-token" = false /\
  fst (MentionStringsToMentions ["not-a-valid-token"]
         "01ZORK" "01STATUS" Sample.world)
  = ([], None).
Proof. split; reflexivity. Qed.

(** C3. In a healthy world where the origin account exists, a batch of
    well-formed tokens never fails: the call returns no error and the
    mentions of exactly the tokens that resolve, in order, the others
    being left out. In particular, for ["@alice"; "@bob@remote.example"]
    with a local alice and no bob at remote.example, it returns exactly
    one Mention, for alice, and no error. *)
Theorem C3_unresolved_mention_is_skipped
    (w : World) (originAccountID statusID : string) :
  healthy w ->
  (exists og, In og (accounts w) /\ AccountID og = originAccountID) ->
  (forall tokens,
     Forall (fun a => mention_pattern a = true) tokens ->
     exists ms,
       fst (MentionStringsToMentions tokens originAccountID statusID w)
       = (ms, None) /\
       map NameString ms
       = filter (fun a => is_Some (mentionedAccount (accounts w) a)) tokens)
  /\
  ((exists r, In r (accounts w) /\ isLocalAccount "alice" r) ->
   (forall r, In r (accounts w) ->
              ~ isRemoteAccount "bob" "remote.example" r) ->
   exists m r,
     fst (MentionStringsToMentions ["@alice"; "@bob@remote.example"]
            originAccountID statusID w)
     = ([m], None) /\
     In r (accounts w) /\ isLocalAccount "alice" r /\
     NameString m = "@alice" /\ TargetAccountID m = AccountID r).
Proof.
  intros Hh Ho.
  destruct (origin_row w originAccountID Ho) as (og & others & Hog & _).
  split.
  - intros tokens Hall.
    destruct (MentionStringsToMentions_healthy tokens originAccountID
                statusID w og others Hh Hog) as (w' & H & _).
    + eapply Forall_impl; [exact Hall|]. intros a. apply pattern_accepted.
    + eexists. rewrite H. split; [reflexivity|]. apply resolved_names.
  - intros Halice Hbob.
    destruct (MentionStringsToMentions_healthy
                ["@alice"; "@bob@remote.example"] originAccountID
                statusID w og others Hh Hog) as (w' & H & _).
    + repeat constructor.
    + destruct (first_such_exists (isLocalAccount "alice") (accounts w))
        as [r Hr]; [|exact Halice|].
      { intros x. unfold isLocalAccount.
        destruct (string_dec (query.LOWER (Username x))
                             (query.LOWER "alice"));
          destruct (Domain x); intuition congruence. }
      pose proof (first_such_in _ _ _ Hr) as [Hin Hloc].
      apply (first_such_iff _ _ _ _
               (fun x => iff_sym (holds_local "alice" "" x))) in Hr.
      apply rows_head in Hr. destruct Hr as [more Hrows].
      assert (Hnone : rows (accounts w)
                (mentionedAccountWhere false "bob" "remote.example") = []).
      { apply rows_none. intros x Hx Hholds.
        apply (Hbob x Hx). apply holds_remote. exact Hholds. }
      assert (Hres : resolvedTargets (accounts w)
                       ["@alice"; "@bob@remote.example"] = [("@alice", r)]).
      { unfold resolvedTargets, mentionedAccount. simpl flat_map.
        change (parseTarget "@alice") with
          (@inl (bool * string * string) error (true, "alice", "")).
        change (parseTarget "@bob@remote.example") with
          (@inl (bool * string * string) error
                (false, "bob", "remote.example")).
        cbv beta iota. rewrite Hrows, Hnone. reflexivity. }
      rewrite Hres in H. exists (builtMention og statusID ("@alice", r)), r.
      rewrite H. simpl.
      split; [reflexivity|]. split; [exact Hin|]. split; [exact Hloc|].
      split; reflexivity.
Qed.

Lemma C3_unresolved_mention_witness :
  exists m,
    fst (MentionStringsToMentions ["@alice"; "@bob@remote.example"]
           "01ZORK" "01STATUS" Sample.world)
    = ([m], None) /\
    NameString m = "@alice".
Proof.
  destruct (C3_unresolved_mention_is_skipped Sample.world "01ZORK"
              "01STATUS" sample_world_healthy) as [_ H].
  - exists Sample.zork. split; [left; reflexivity | reflexivity].
  - destruct H as (m & r & Hm & _ & _ & Hn & _).
    + exists Sample.alice. split; [right; left; reflexivity|].
      split; reflexivity.
    + intros r Hin [Hu _].
      destruct Hin as [<-|[<-|[<-|[]]]]; vm_compute in Hu; discriminate Hu.
    + exists m. split; [exact Hm | exact Hn].
Defined.

(** C4. When the call returns without error, its result holds exactly one
    Mention for every token whose account look-up succeeded, in input
    order, and that record's TargetAccountID, TargetAccountURI and
    TargetAccountURL are those of the account found, its NameString the
    token as it was given. *)
Theorem C4_one_mention_per_resolved_token
    (tokens : list string) (originAccountID statusID : string)
    (w w' : World) (ms : list Mention) :
  MentionStringsToMentions tokens originAccountID statusID w
  = ((ms, None), w') ->
  Forall2 (fun p m =>
             NameString m = fst p /\
             TargetAccountID m = AccountID (snd p) /\
             TargetAccountURI m = URI (snd p) /\
             TargetAccountURL m = URL (snd p))
          (resolvedTargets (accounts w) tokens) ms.
Proof.
  intros H. apply MentionStringsToMentions_returns in H.
  destruct H as (og & others & _ & ->).
  eapply Forall2_impl; [apply (built_fields og statusID)|].
  simpl. intros p m. tauto.
Qed.

Lemma C4_one_mention_witness :
  Forall2 (fun p m =>
             NameString m = fst p /\
             TargetAccountID m = AccountID (snd p) /\
             TargetAccountURI m = URI (snd p) /\
             TargetAccountURL m = URL (snd p))
          [("@ALICE", Sample.alice);
           ("@Carol@remote.example", Sample.carol)]
          (fst (fst (MentionStringsToMentions
                       ["@ALICE"; "@nobody"; "@Carol@remote.example"]
                       "01ZORK" "01STATUS" Sample.world))).
Proof.
  apply (C4_one_mention_per_resolved_token
           ["@ALICE"; "@nobody"; "@Carol@remote.example"]
           "01ZORK" "01STATUS" Sample.world
           (snd (MentionStringsToMentions
                   ["@ALICE"; "@nobody"; "@Carol@remote.example"]
                   "01ZORK" "01STATUS" Sample.world))).
  reflexivity.
Defined.

Lemma Split_clean sep s :
  has_byte sep s = false -> strings.Split s sep = [s].
Proof.
  induction s as [|c s IH]; simpl; intros H; [reflexivity|].
  apply orb_false_elim in H. destruct H as [Hc Hs].
  rewrite Hc, (IH Hs). reflexivity.
Qed.

Lemma Split_app sep p r :
  has_byte sep p = false ->
  strings.Split (p +:+ String sep r) sep = p :: strings.Split r sep.
Proof.
  induction p as [|c p IH]; intros H.
  - change ("" +:+ String sep r) with (String sep r). simpl.
    rewrite Ascii.eqb_refl. reflexivity.
  - change (String c p +:+ String sep r)
      with (String c (p +:+ String sep r)).
    simpl in H. apply orb_false_elim in H. destruct H as [Hc Hp].
    simpl. rewrite Hc, (IH Hp). reflexivity.
Qed.

Lemma Split_inv sep s :
  forall first others,
    strings.Split s sep = first :: others ->
    has_byte sep first = false /\
    match others with
    | [] => s = first
    | _ :: _ =>
        exists r, s = first +:+ String sep r /\ strings.Split r sep = others
    end.
Proof.
  induction s as [|c s IH]; intros first others H; simpl in H.
  - inversion H; subst. auto.
  - destruct (Ascii.eqb c sep) eqn:Hc.
    + apply Ascii.eqb_eq in Hc. subst c. inversion H; subst.
      split; [reflexivity|].
      destruct (strings.Split s sep) as [|o os] eqn:E.
      * destruct s; simpl in E; [discriminate E|].
        destruct (Ascii.eqb a sep); [discriminate E|].
        destruct (strings.Split s sep); discriminate E.
      * exists s. split; [reflexivity | exact E].
    + destruct (strings.Split s sep) as [|h t] eqn:E.
      * inversion H; subst. simpl. rewrite Hc.
        destruct s; simpl in E; [discriminate E|].
        destruct (Ascii.eqb a sep); [discriminate E|].
        destruct (strings.Split s sep); discriminate E.
      * inversion H; subst. destruct (IH h others eq_refl) as [Hh Ho].
        split; [simpl; rewrite Hc; exact Hh|].
        destruct others as [|o os].
        -- subst s. reflexivity.
        -- destruct Ho as (r & -> & Hr). exists r.
           split; [reflexivity | exact Hr].
Qed.

Lemma parseTarget_local user :
  namePart user -> parseTarget (localToken user) = inl (true, user, "").
Proof.
  intros [Hne Hcl]. unfold parseTarget, localToken.
  change ("@" +:+ user) with (String "@" user).
  change (strings.TrimPrefix (String "@" user) "@") with user.
  rewrite (Split_clean _ _ Hcl). simpl.
  destruct (String.eqb user "") eqn:E; [|reflexivity].
  apply String.eqb_eq in E. contradiction.
Qed.

Lemma parseTarget_remote user domain :
  namePart user -> namePart domain ->
  parseTarget (remoteToken user domain) = inl (false, user, domain).
Proof.
  intros [Hne Hcl] [Hne' Hcl']. unfold parseTarget, remoteToken.
  change ("@" +:+ user +:+ "@" +:+ domain)
    with (String "@" (user +:+ String "@" domain)).
  change (strings.TrimPrefix (String "@" (user +:+ String "@" domain)) "@")
    with (user +:+ String "@" domain).
  rewrite (Split_app _ _ _ Hcl), (Split_clean _ _ Hcl'). simpl.
  destruct (String.eqb user "") eqn:E;
    [apply String.eqb_eq in E; contradiction|].
  destruct (String.eqb domain "") eqn:E';
    [apply String.eqb_eq in E'; contradiction|].
  reflexivity.
Qed.

(** A token of the pattern is a local or a remote token, and of one kind
    only. *)
Lemma pattern_shape a :
  mention_pattern a = true ->
  (exists user, namePart user /\ a = localToken user) \/
  (exists user domain,
     namePart user /\ namePart domain /\ a = remoteToken user domain).
Proof.
  destruct a as [|c r]; [discriminate|].
  unfold mention_pattern. intros H. apply andb_prop in H.
  destruct H as [Hc Hr]. apply Ascii.eqb_eq in Hc. subst c.
  destruct (strings.Split r "@") as [|u [|d [|x rest]]] eqn:E;
    try discriminate Hr.
  - destruct (Split_inv _ _ _ _ E) as [Hu ->].
    left. exists u. split; [|reflexivity]. split; [|exact Hu].
    intros ->. discriminate Hr.
  - destruct (Split_inv _ _ _ _ E) as [Hu (r' & -> & E')].
    destruct (Split_inv _ _ _ _ E') as [Hd ->].
    apply andb_prop in Hr. destruct Hr as [Hu' Hd'].
    right. exists u, d. split; [|split; [|reflexivity]].
    + split; [|exact Hu]. intros ->. discriminate Hu'.
    + split; [|exact Hd]. intros ->. discriminate Hd'.
Qed.

Lemma head_rows {A} (conds : list (cond A)) table r :
  head (rows table conds) = Some r ->
  In r table /\ holds conds r = true.
Proof.
  intros H.
  destruct (rows table conds) as [|r0 others] eqn:Hrows; [discriminate H|].
  simpl in H. inversion H; subst r0.
  apply (first_such_in (fun x => holds conds x = true)).
  apply rows_head. eauto.
Qed.

Lemma head_rows_some {A} (conds : list (cond A)) table :
  is_Some (head (rows table conds)) <->
  exists r, In r table /\ holds conds r = true.
Proof.
  split.
  - intros [r H]. exists r. apply head_rows. exact H.
  - intros (r & Hin & Hh).
    destruct (rows table conds) as [|r0 others] eqn:Hrows.
    + exfalso. apply (proj1 (rows_none conds table) Hrows r Hin Hh).
    + simpl. eauto.
Qed.

Lemma mentioned_local table user :
  namePart user ->
  is_Some (mentionedAccount table (localToken user)) <->
  exists r, In r table /\ isLocalAccount user r.
Proof.
  intros Hu. unfold mentionedAccount. rewrite (parseTarget_local _ Hu).
  rewrite head_rows_some. split; intros (r & Hin & H); exists r;
    (split; [exact Hin | apply (holds_local user "" r); exact H]).
Qed.

Lemma mentioned_remote table user domain :
  namePart user -> namePart domain ->
  is_Some (mentionedAccount table (remoteToken user domain)) <->
  exists r, In r table /\ isRemoteAccount user domain r.
Proof.
  intros Hu Hd. unfold mentionedAccount.
  rewrite (parseTarget_remote _ _ Hu Hd).
  rewrite head_rows_some. split; intros (r & Hin & H); exists r;
    (split; [exact Hin | apply (holds_remote user domain r); exact H]).
Qed.

Lemma resolved_Forall table tokens (Q : string * Account -> Prop) :
  (forall a r,
     In a tokens -> mentionedAccount table a = Some r -> Q (a, r)) ->
  Forall Q (resolvedTargets table tokens).
Proof.
  induction tokens as [|a rest IH]; intros H; simpl; [constructor|].
  destruct (mentionedAccount table a) as [r|] eqn:E; simpl.
  - constructor; [apply H; [left; reflexivity | exact E]|].
    apply IH. intros a' r' Hin. apply H. right. exact Hin.
  - apply IH. intros a' r' Hin. apply H. right. exact Hin.
Qed.

Lemma Forall_built {A B} (f : A -> B) (P : B -> Prop) l :
  Forall (fun x => P (f x)) l -> Forall P (map f l).
Proof.
  induction 1; simpl; constructor; assumption.
Qed.

(** C5. In a healthy world where the origin account exists, and for a
    batch of tokens of the pattern: a local token [@user] of the batch is
    answered with a Mention exactly when some account has that username
    up to letter case and a null domain; a remote token [@user@domain]
    exactly when some account has that username and that domain, both up
    to letter case; and every Mention returned is for such an account of
    its token: the account's domain is null for a local token, and equal
    to the token's up to letter case for a remote one. *)
Theorem C5_account_lookup
    (tokens : list string) (originAccountID statusID : string) (w : World) :
  healthy w ->
  (exists og, In og (accounts w) /\ AccountID og = originAccountID) ->
  Forall (fun a => mention_pattern a = true) tokens ->
  exists ms,
    fst (MentionStringsToMentions tokens originAccountID statusID w)
    = (ms, None) /\
    (forall user,
       namePart user ->
       (In (localToken user) (map NameString ms) <->
        In (localToken user) tokens /\
        exists r, In r (accounts w) /\ isLocalAccount user r)) /\
    (forall user domain,
       namePart user -> namePart domain ->
       (In (remoteToken user domain) (map NameString ms) <->
        In (remoteToken user domain) tokens /\
        exists r, In r (accounts w) /\ isRemoteAccount user domain r)) /\
    Forall (fun m =>
              exists r,
                In r (accounts w) /\ OriginAccount m = Some r /\
                TargetAccountID m = AccountID r /\
                ((exists user,
                    namePart user /\ NameString m = localToken user /\
                    isLocalAccount user r) \/
                 (exists user domain,
                    namePart user /\ namePart domain /\
                    NameString m = remoteToken user domain /\
                    isRemoteAccount user domain r))) ms.
Proof.
  intros Hh Hog Hpat.
  destruct (origin_row w originAccountID Hog) as (og & others & Hrow & _).
  assert (Hacc : Forall (fun a => accepted a = true) tokens).
  { eapply Forall_impl; [exact Hpat|]. intros a. apply pattern_accepted. }
  destruct (MentionStringsToMentions_healthy tokens originAccountID
              statusID w og others Hh Hrow Hacc) as (w' & H & _).
  rewrite H. simpl. eexists. split; [reflexivity|].
  assert (Hnames : forall a,
            In a (map NameString
                    (map (builtMention og statusID)
                       (resolvedTargets (accounts w) tokens))) <->
            In a tokens /\ is_Some (mentionedAccount (accounts w) a)).
  { intros a. rewrite resolved_names, <- !list_elem_of_In.
    rewrite list_elem_of_filter. tauto. }
  split; [|split].
  - intros user Hu. rewrite Hnames, (mentioned_local _ _ Hu). tauto.
  - intros user domain Hu Hd.
    rewrite Hnames, (mentioned_remote _ _ _ Hu Hd). tauto.
  - apply Forall_built. apply resolved_Forall. intros a r Hin Hm.
    exists r. simpl.
    assert (Hpa : mention_pattern a = true).
    { rewrite Forall_forall in Hpat. apply Hpat.
      apply list_elem_of_In. exact Hin. }
    unfold mentionedAccount in Hm.
    destruct (pattern_shape a Hpa)
      as [(user & Hu & ->) | (user & domain & Hu & Hd & ->)].
    + rewrite (parseTarget_local _ Hu) in Hm.
      apply head_rows in Hm. destruct Hm as [Hr Hl].
      apply holds_local in Hl.
      split; [exact Hr|]. split; [reflexivity|]. split; [reflexivity|].
      left. exists user. auto.
    + rewrite (parseTarget_remote _ _ Hu Hd) in Hm.
      apply head_rows in Hm. destruct Hm as [Hr Hl].
      apply holds_remote in Hl.
      split; [exact Hr|]. split; [reflexivity|]. split; [reflexivity|].
      right. exists user, domain. auto.
Qed.

Lemma C5_account_lookup_witness :
  exists ms,
    fst (MentionStringsToMentions
           ["@ALICE"; "@carol"; "@CAROL@REMOTE.example";
            "@alice@remote.example"]
           "01ZORK" "01STATUS" Sample.world)
    = (ms, None) /\
    map NameString ms = ["@ALICE"; "@CAROL@REMOTE.example"] /\
    map TargetAccountID ms = ["01ALICE"; "01CAROL"].
Proof.
  destruct (C5_account_lookup
              ["@ALICE"; "@carol"; "@CAROL@REMOTE.example";
               "@alice@remote.example"]
              "01ZORK" "01STATUS" Sample.world sample_world_healthy)
    as (ms & H & _).
  - exists Sample.zork. split; [left; reflexivity | reflexivity].
  - repeat constructor.
  - exists ms. split; [exact H|].
    vm_compute in H. inversion H. split; reflexivity.
Defined.

(** C10. Every Mention the call returns carries, as its embedded
    OriginAccount, the account that was mentioned (the one its
    TargetAccountID names), while its OriginAccountID and OriginAccountURI
    are those of the account found under [originAccountID]. *)
Theorem C10_origin_account_is_the_target
    (tokens : list string) (originAccountID statusID : string)
    (w w' : World) (ms : list Mention) :
  MentionStringsToMentions tokens originAccountID statusID w
  = ((ms, None), w') ->
  exists og,
    first_such (fun r => AccountID r = originAccountID) (accounts w) og /\
    Forall2 (fun p m =>
               OriginAccount m = Some (snd p) /\
               AccountID (snd p) = TargetAccountID m /\
               OriginAccountID m = AccountID og /\
               OriginAccountURI m = URI og)
            (resolvedTargets (accounts w) tokens) ms.
Proof.
  intros H. apply MentionStringsToMentions_returns in H.
  destruct H as (og & others & Hog & ->). exists og. split.
  - apply (first_such_iff _ _ _ _ (holds_id originAccountID)).
    apply rows_head. eauto.
  - eapply Forall2_impl; [apply (built_fields og statusID)|].
    simpl. intros p m. intuition congruence.
Qed.

Lemma C10_origin_account_witness :
  exists og,
    first_such (fun r => AccountID r = "01ZORK")
               (accounts Sample.world) og /\
    Forall2 (fun p m =>
               OriginAccount m = Some (snd p) /\
               AccountID (snd p) = TargetAccountID m /\
               OriginAccountID m = AccountID og /\
               OriginAccountURI m = URI og)
            [("@alice", Sample.alice)]
            (fst (fst (MentionStringsToMentions ["@alice"]
                         "01ZORK" "01STATUS" Sample.world))).
Proof.
  apply (C10_origin_account_is_the_target ["@alice"] "01ZORK" "01STATUS"
           Sample.world
           (snd (MentionStringsToMentions ["@alice"] "01ZORK" "01STATUS"
                   Sample.world))).
  reflexivity.
Defined.

(** ** Emoji *)

Lemma holds_emoji shortcode r :
  holds (emojiWhere shortcode) r = true <-> usableEmoji shortcode r.
Proof.
  unfold holds, emojiWhere, usableEmoji, eq_text, eq_bool, col_shortcode.
  simpl. rewrite andb_true_r, !andb_true_iff, String.eqb_eq.
  destruct (VisibleInPicker r), (Disabled r); simpl; intuition congruence.
Qed.

Local Arguments emojiWhere : simpl never.

Lemma emojiLoop_frame tokens :
  forall acc w r w', emojiLoop tokens acc w = (r, w') -> same_data w w'.
Proof.
  induction tokens as [|e rest IH]; intros acc w r w' H; simpl in H.
  - inversion H; subst. apply same_data_refl.
  - unfold bind in H.
    destruct (Scan emojis (emojiWhere e) w) as [found w1] eqn:HS.
    apply Scan_frame in HS. destruct HS as (Hd & _).
    destruct found as [m|[|msg]]; simpl in H.
    + eapply same_data_trans; [exact Hd | eapply IH; exact H].
    + unfold bind, log in H. apply IH in H.
      eapply same_data_trans; [exact Hd | exact H].
    + inversion H; subst. exact Hd.
Qed.

Lemma emojiLoop_returns tokens :
  forall acc w es w',
    emojiLoop tokens acc w = ((es, None), w') ->
    es = acc ++ omap (emojiFor (emojis w)) tokens.
Proof.
  induction tokens as [|e rest IH]; intros acc w es w' H; simpl in H.
  - inversion H; subst. simpl. rewrite app_nil_r. reflexivity.
  - unfold bind in H.
    destruct (Scan emojis (emojiWhere e) w) as [found w1] eqn:HS.
    pose proof (Scan_frame _ _ _ _ _ HS) as (Hd & _).
    apply emojis_data in Hd. simpl omap. unfold emojiFor at 1.
    destruct found as [m|[|msg]]; simpl in H.
    + apply (Scan_found emojis emojis_data) in HS.
      destruct HS as [others HS]. rewrite HS. simpl.
      apply IH in H. rewrite Hd in H. rewrite H, <- app_assoc.
      reflexivity.
    + apply (Scan_no_rows emojis emojis_data) in HS. rewrite HS. simpl.
      unfold bind, log in H. apply IH in H. simpl in H.
      rewrite Hd in H. exact H.
    + discriminate H.
Qed.

Lemma emojiLoop_healthy tokens :
  forall acc w,
    healthy w ->
    exists w',
      emojiLoop tokens acc w
      = ((acc ++ omap (emojiFor (emojis w)) tokens, None), w').
Proof.
  induction tokens as [|e rest IH]; intros acc w Hh; simpl.
  - exists w. rewrite app_nil_r. reflexivity.
  - destruct (Scan_healthy emojis emojis_data (emojiWhere e) w Hh)
      as (w1 & HS & Hh1 & Hd1 & _).
    unfold bind. rewrite HS. unfold emojiFor at 1.
    destruct (rows (emojis w) (emojiWhere e)) as [|r others]; simpl.
    + unfold log.
      destruct (IH acc (with_trace
                  (trace w1 ++
                   [Logged DebugLevel
                      ("no emoji found with shortcode " +:+ e +:+
                       ", skipping it")]) w1) Hh1) as (w' & HL).
      exists w'. simpl in HL. rewrite (emojis_data _ _ Hd1) in HL.
      exact HL.
    + destruct (IH (acc ++ [r]) w1 Hh1) as (w' & HL).
      exists w'. rewrite (emojis_data _ _ Hd1) in HL.
      rewrite <- app_assoc in HL. exact HL.
Qed.

Lemma emojiFor_usable table shortcode r :
  emojiFor table shortcode = Some r ->
  In r table /\ usableEmoji shortcode r.
Proof.
  unfold emojiFor. intros H.
  destruct (rows table (emojiWhere shortcode)) as [|r0 others] eqn:Hrows;
    [discriminate H|].
  simpl in H. inversion H; subst r0.
  assert (Hf : first_such (fun x => holds (emojiWhere shortcode) x = true)
                 table r) by (apply rows_head; eauto).
  apply first_such_in in Hf. destruct Hf as [Hin Hh].
  split; [exact Hin | apply holds_emoji; exact Hh].
Qed.

Lemma in_omap {A B} (f : A -> option B) l y :
  In y (omap f l) -> exists x, In x l /\ f x = Some y.
Proof.
  induction l as [|x l IH]; simpl; [intros []|].
  destruct (f x) as [b|] eqn:Hfx.
  - intros [<-|Hin]; [eauto|].
    destruct (IH Hin) as (x' & Hx' & E). eauto.
  - intros Hin. destruct (IH Hin) as (x' & Hx' & E). eauto.
Qed.

Lemma hasUsableEmoji_iff table shortcode :
  hasUsableEmoji table shortcode = true <->
  exists r, In r table /\ usableEmoji shortcode r.
Proof.
  unfold hasUsableEmoji, usableEmoji. rewrite existsb_exists.
  split; intros (r & Hin & H); exists r; (split; [exact Hin|]).
  - apply andb_prop in H. destruct H as [H Hd].
    apply andb_prop in H. destruct H as [Hs Hv].
    apply String.eqb_eq in Hs. apply negb_true_iff in Hd. auto.
  - destruct H as (Hs & Hv & Hd). rewrite Hv, Hd.
    apply String.eqb_eq in Hs. rewrite Hs. reflexivity.
Qed.

Lemma emojiFor_some table shortcode :
  is_Some (emojiFor table shortcode) <->
  hasUsableEmoji table shortcode = true.
Proof.
  unfold emojiFor. rewrite head_rows_some, hasUsableEmoji_iff.
  split; intros (r & Hin & H); exists r;
    (split; [exact Hin | apply holds_emoji; exact H]).
Qed.

Lemma omap_answers table shortcodes :
  Forall2 (fun shortcode r => In r table /\ usableEmoji shortcode r)
    (filter (fun e => hasUsableEmoji table e = true) shortcodes)
    (omap (emojiFor table) shortcodes).
Proof.
  induction shortcodes as [|e rest IH]; [constructor|].
  simpl omap. destruct (emojiFor table e) as [r|] eqn:Hr.
  - rewrite filter_cons_True by (apply emojiFor_some; rewrite Hr; eauto).
    constructor; [apply emojiFor_usable; exact Hr | exact IH].
  - rewrite filter_cons_False; [exact IH|].
    intros H. apply emojiFor_some in H. rewrite Hr in H.
    destruct H as [x Hx]. discriminate Hx.
Qed.

(** C6. [EmojiStringsToEmojis] leaves every table as it found it, so it
    never creates an emoji; what it returns are rows of the emoji table
    that carry one of the shortcodes asked for, are visible in the picker
    and are not disabled. With no driver failure it returns no error and
    answers the shortcodes one by one, in input order: each shortcode
    that some visible, enabled emoji carries is answered by such an
    emoji, and each of the others is skipped. For ["doesnotexist"], with
    no such usable emoji, it returns an empty list and no error. *)
Theorem C6_emoji_lookup_only (emojis_ : list string) (w : World) :
  same_data w (snd (EmojiStringsToEmojis emojis_ w)) /\
  (forall es,
     fst (EmojiStringsToEmojis emojis_ w) = (es, None) ->
     Forall (fun r => In r (emojis w) /\ In (Shortcode r) emojis_ /\
                      VisibleInPicker r = true /\ Disabled r = false) es) /\
  (healthy w ->
   exists es,
     fst (EmojiStringsToEmojis emojis_ w) = (es, None) /\
     Forall2 (fun shortcode r =>
                In r (emojis w) /\ usableEmoji shortcode r)
       (filter (fun e => hasUsableEmoji (emojis w) e = true) emojis_)
       es) /\
  (healthy w ->
   (forall r, In r (emojis w) -> ~ usableEmoji "doesnotexist" r) ->
   fst (EmojiStringsToEmojis ["doesnotexist"] w) = ([], None)).
Proof.
  unfold EmojiStringsToEmojis. repeat split.
  1-5: destruct (emojiLoop emojis_ [] w) as [r w'] eqn:H;
       apply emojiLoop_frame in H; unfold same_data in H; simpl; tauto.
  - intros es H.
    destruct (emojiLoop emojis_ [] w) as [r w'] eqn:HL. simpl in H.
    subst r. apply emojiLoop_returns in HL. simpl in HL. subst es.
    apply Forall_forall. intros r Hr. apply list_elem_of_In in Hr.
    apply in_omap in Hr. destruct Hr as (e & He & Hf).
    apply emojiFor_usable in Hf. destruct Hf as (Hin & Hs & Hv & Hd).
    subst e. auto.
  - intros Hh. destruct (emojiLoop_healthy emojis_ [] w Hh) as (w' & H).
    eexists. rewrite H. split; [reflexivity|]. apply omap_answers.
  - intros Hh Hnone.
    destruct (emojiLoop_healthy ["doesnotexist"] [] w Hh) as (w' & H).
    rewrite H. simpl. unfold emojiFor.
    replace (rows (emojis w) (emojiWhere "doesnotexist")) with (@nil Emoji);
      [reflexivity|].
    symmetry. apply rows_none. intros x Hx Hh'.
    apply (Hnone x Hx). apply holds_emoji. exact Hh'.
Qed.

Lemma C6_emoji_lookup_witness :
  fst (EmojiStringsToEmojis ["doesnotexist"] Sample.world) = ([], None) /\
  fst (EmojiStringsToEmojis
         ["hidden"; "rainbow"; "retired"; "doesnotexist"] Sample.world)
  = ([Sample.rainbow], None).
Proof.
  split.
  - apply (C6_emoji_lookup_only [] Sample.world).
    + exact sample_world_healthy.
    + intros r [<-|[<-|[<-|[]]]] [Hs _]; vm_compute in Hs; discriminate Hs.
  - destruct (C6_emoji_lookup_only
                ["hidden"; "rainbow"; "retired"; "doesnotexist"]
                Sample.world) as (_ & _ & Hall & _).
    destruct (Hall sample_world_healthy) as (es & H & Hes).
    rewrite H. f_equal.
    assert (E : filter (fun e => hasUsableEmoji (emojis Sample.world) e
                                 = true)
                  ["hidden"; "rainbow"; "retired"; "doesnotexist"]
                = ["rainbow"]) by (vm_compute; reflexivity).
    rewrite E in Hes.
    inversion Hes as [|e r l l' [Hin Hus] Hrest]; subst.
    inversion Hrest; subst.
    destruct Hin as [<-|[<-|[<-|[]]]]; destruct Hus as (Hs & Hv & Hd);
      first [reflexivity | discriminate].
Defined.

(** ** Tags *)

Lemma Scan_ok {A} (table : World -> list A)
    (table_data : forall w w', same_data w w' -> table w' = table w)
    (conds : list (cond A)) w :
  fst (round_trip w) = None ->
  exists w1,
    Scan table conds w =
      (match rows (table w) conds with
       | r :: _ => inl r
       | [] => inr ErrNoRows
       end, w1) /\
    same_data w w1 /\ entropy w1 = entropy w /\ clock w1 = clock w.
Proof.
  unfold Scan, bind. destruct (round_trip w) as [failed w1] eqn:Hrt.
  simpl. intros ->. apply round_trip_frame in Hrt.
  destruct Hrt as (Hd & He & Hc & _). exists w1.
  rewrite (table_data _ _ Hd).
  destruct (rows (table w) conds); auto.
Qed.

Lemma holds_tag t r :
  holds (tagWhere t) r = true <->
  query.LOWER (Name r) = query.LOWER t.
Proof.
  unfold holds, tagWhere, lower_eq, col_name. simpl.
  rewrite andb_true_r. apply String.eqb_eq.
Qed.

Lemma tagWhere_spelling t t' :
  query.LOWER t' = query.LOWER t -> tagWhere t' = tagWhere t.
Proof. unfold tagWhere, lower_eq. intros ->. reflexivity. Qed.

Local Arguments tagWhere : simpl never.

(** A tag that is in the table only once it has been appended to it is
    what its name selects, under any spelling. *)
Lemma rows_stored_tag table tag t :
  (forall r, In r table -> query.LOWER (Name r) <> query.LOWER t) ->
  query.LOWER (Name tag) = query.LOWER t ->
  rows (table ++ [tag]) (tagWhere t) = [tag].
Proof.
  intros Hnone Htag. unfold rows. rewrite filter_app.
  replace (filter (fun r => holds (tagWhere t) r = true) table)
    with (@nil Tag).
  - simpl. rewrite filter_cons_True by (apply holds_tag; exact Htag).
    reflexivity.
  - symmetry. apply (rows_none (tagWhere t) table).
    intros x Hx Hh. apply (Hnone x Hx). apply holds_tag. exact Hh.
Qed.

(** The first call for a name nobody has used builds the tag; the call
    that finds it stored hands the stored row back. *)
Lemma tag_created viper t o newID w :
  fst (round_trip w) = None ->
  rows (tags w) (tagWhere t) = [] ->
  head (entropy w) = Some (Some newID) ->
  exists w1,
    TagStringsToTags viper [t] o w =
      (([ {| TagID := newID;
             TagURL := Protocol viper +:+ "://" +:+ Host viper
                       +:+ "/tags/" +:+ t;
             Name := t;
             FirstSeenFromAccountID := o;
             CreatedAt := clock w;
             UpdatedAt := clock w + 1;
             Useable := true;
             Listable := true;
             LastStatusAt := clock w + 2 |} ], None), w1).
Proof.
  intros Hrt Hrows Hen.
  destruct (Scan_ok tags tags_data (tagWhere t) w Hrt)
    as (w1 & HS & _ & He1 & Hc1).
  rewrite Hrows in HS.
  unfold TagStringsToTags. simpl tagLoop. unfold bind. rewrite HS.
  unfold NewRandomULID. cbn [is_ErrNoRows]. cbv beta iota. rewrite He1.
  destruct (entropy w) as [|[u|] en]; try discriminate Hen.
  inversion Hen; subst u. simpl. rewrite Hc1. eexists.
  unfold set_LastStatusAt. simpl.
  replace (clock w + 1 + 1) with (clock w + 2) by lia. reflexivity.
Qed.

Lemma tag_reused viper t o stored others w :
  fst (round_trip w) = None ->
  rows (tags w) (tagWhere t) = stored :: others ->
  Useable stored = true ->
  exists w1,
    TagStringsToTags viper [t] o w =
      (([set_LastStatusAt stored (clock w)], None), w1) /\
    entropy w1 = entropy w /\ same_data w w1.
Proof.
  intros Hrt Hrows Hu.
  destruct (Scan_ok tags tags_data (tagWhere t) w Hrt)
    as (w1 & HS & Hd1 & He1 & Hc1).
  rewrite Hrows in HS.
  unfold TagStringsToTags. simpl tagLoop. unfold bind. rewrite HS.
  rewrite Hu. simpl. rewrite Hc1. eexists.
  split; [reflexivity|]. split; [exact He1 | exact Hd1].
Qed.

(** C2 (as amended). The first call for a name no stored tag carries, in
    any letter case, returns one new Tag with a fresh identifier, whose
    name is the token exactly as given ("News" stays "News": the name is
    not case-folded), with Useable and Listable true. Once that Tag is in
    the tag table, a call for the same name in any spelling returns that
    stored Tag, same identifier, with only LastStatusAt of the returned
    record refreshed, draws no new identifier and leaves the table as it
    is. *)
Theorem C2_tag_created_then_reused
    (viper : Config) (t originAccountID newID : string) (w : World) :
  fst (round_trip w) = None ->
  (forall r, In r (tags w) ->
             query.LOWER (Name r) <> query.LOWER t) ->
  head (entropy w) = Some (Some newID) ->
  exists tag,
    fst (TagStringsToTags viper [t] originAccountID w) = ([tag], None) /\
    TagID tag = newID /\ Name tag = t /\
    Useable tag = true /\ Listable tag = true /\
    FirstSeenFromAccountID tag = originAccountID /\
    TagURL tag
    = Protocol viper +:+ "://" +:+ Host viper +:+ "/tags/" +:+ t /\
    forall (w2 : World) (t' o' : string),
      tags w2 = tags w ++ [tag] ->
      fst (round_trip w2) = None ->
      query.LOWER t' = query.LOWER t ->
      exists w3,
        TagStringsToTags viper [t'] o' w2
        = (([set_LastStatusAt tag (clock w2)], None), w3) /\
        entropy w3 = entropy w2 /\ tags w3 = tags w2.
Proof.
  intros Hrt Hnone Hen.
  assert (Hrows : rows (tags w) (tagWhere t) = []).
  { apply rows_none. intros x Hx Hh. apply (Hnone x Hx).
    apply holds_tag. exact Hh. }
  destruct (tag_created viper t originAccountID newID w Hrt Hrows Hen)
    as (w1 & H1).
  eexists. rewrite H1. simpl.
  repeat (split; [reflexivity|]).
  intros w2 t' o' Htags Hrt2 Hspell.
  destruct (tag_reused viper t' o'
              {| TagID := newID;
                 TagURL := Protocol viper +:+ "://" +:+ Host viper
                           +:+ "/tags/" +:+ t;
                 Name := t;
                 FirstSeenFromAccountID := originAccountID;
                 CreatedAt := clock w;
                 UpdatedAt := clock w + 1;
                 Useable := true;
                 Listable := true;
                 LastStatusAt := clock w + 2 |} [] w2 Hrt2)
    as (w3 & H3 & He3 & Hd3).
  - rewrite Htags, (tagWhere_spelling _ _ Hspell).
    apply rows_stored_tag; [exact Hnone | reflexivity].
  - reflexivity.
  - exists w3. split; [exact H3|]. split; [exact He3|].
    apply tags_data. exact Hd3.
Qed.

Lemma C2_tag_created_then_reused_witness :
  exists tag,
    fst (TagStringsToTags Sample.viper ["News"] "01ZORK" Sample.world)
    = ([tag], None) /\
    TagID tag = "01TAGAAAA" /\ Name tag = "News" /\
    map TagID
      (fst (fst (TagStringsToTags Sample.viper ["NEWS"] "01ALICE"
                   (with_tags [tag] Sample.world))))
    = ["01TAGAAAA"].
Proof.
  destruct (C2_tag_created_then_reused Sample.viper "News" "01ZORK"
              "01TAGAAAA" Sample.world)
    as (tag & H1 & Hid & Hn & _ & _ & _ & _ & Hagain).
  - reflexivity.
  - intros r [].
  - reflexivity.
  - exists tag. split; [exact H1|]. split; [exact Hid|].
    split; [exact Hn|].
    destruct (Hagain (with_tags [tag] Sample.world) "NEWS" "01ALICE")
      as (w3 & H3 & _).
    + reflexivity.
    + reflexivity.
    + reflexivity.
    + rewrite H3. simpl. rewrite Hid. reflexivity.
Defined.

(** C2 as stated fails: the Tag built for "News" is named "News", not
    "news"; and the call stores nothing itself, so a second call made
    before anybody stored the first Tag builds another one under another
    identifier. *)
Lemma C2_tag_name_not_folded_counterexample :
  let first :=
    TagStringsToTags Sample.viper ["News"] "01ZORK" Sample.world in
  let second :=
    TagStringsToTags Sample.viper ["News"] "01ZORK" (snd first) in
  map Name (fst (fst first)) = ["News"] /\
  map Name (fst (fst first)) <> ["news"] /\
  map TagID (fst (fst first)) = ["01TAGAAAA"] /\
  map TagID (fst (fst second)) = ["01TAGBBBB"].
Proof.
  cbv zeta. split; [reflexivity|]. split; [|split; reflexivity].
  intros H. vm_compute in H. discriminate H.
Qed.

(** ** Connection set-up *)

Lemma eqb_empty s : String.eqb s "" = true <-> s = "".
Proof. apply String.eqb_eq. Qed.

Lemma length_empty s : Nat.eqb (String.length s) 0 = true <-> s = "".
Proof.
  destruct s; simpl; split; intros H; try reflexivity; discriminate H.
Qed.

Section PostgresFacts.

Variable strings_ToUpper : string -> string.
Variable DBTypePostgres : string.
Variable pem_Decode : string -> option string.
Variable x509_ParseCertificate : string -> x509.Certificate + error.

Let connect := pgConn strings_ToUpper DBTypePostgres pem_Decode
  x509_ParseCertificate.


Lemma tlsConfigOf_plain viper :
  DbTLSMode viper <> dbTLSModeEnable ->
  DbTLSMode viper <> dbTLSModeRequire ->
  tlsConfigOf viper = None.
Proof.
  unfold tlsConfigOf. intros He Hr.
  destruct (String.eqb (DbTLSMode viper) dbTLSModeDisable
            || String.eqb (DbTLSMode viper) dbTLSModeUnset);
    [reflexivity|].
  destruct (String.eqb (DbTLSMode viper) dbTLSModeEnable) eqn:E1.
  { apply String.eqb_eq in E1. contradiction. }
  destruct (String.eqb (DbTLSMode viper) dbTLSModeRequire) eqn:E2.
  { apply String.eqb_eq in E2. contradiction. }
  reflexivity.
Qed.





End PostgresFacts.





(** C9. A TLS mode other than "enable" and "require" (the empty string,
    "disable", or any value the switch does not know) is never an error:
    the call returns what it returns for "disable", and the options it
    returns have no TLS configuration (a plaintext connection). With the
    other settings in order it does return options. *)
Theorem C9_other_tls_modes_mean_plaintext
    (strings_ToUpper : string -> string)
    (DBTypePostgres : string) (pem_Decode : string -> option string)
    (x509_ParseCertificate : string -> x509.Certificate + error)
    (viper : Config) (os : Platform) :
  DbTLSMode viper <> "enable" ->
  DbTLSMode viper <> "require" ->
  deriveBunDBPGOptions strings_ToUpper DBTypePostgres pem_Decode
    x509_ParseCertificate
    viper os
  = deriveBunDBPGOptions strings_ToUpper DBTypePostgres pem_Decode
    x509_ParseCertificate
      (with_DbTLSMode "disable" viper) os /\
  (forall cfg,
     deriveBunDBPGOptions strings_ToUpper DBTypePostgres pem_Decode
       x509_ParseCertificate
       viper os = Returned (Some cfg, None) ->
     pgx.TLSConfig cfg = None) /\
  (strings_ToUpper (DbType viper) = DBTypePostgres ->
   DbPort viper <> 0 -> DbAddress viper <> "" -> DbUser viper <> "" ->
   DbPassword viper <> "" -> DbDatabase viper <> "" ->
   (exists base, ParseConfig os "" = inl base) ->
   exists cfg,
     deriveBunDBPGOptions strings_ToUpper DBTypePostgres pem_Decode
       x509_ParseCertificate
       viper os = Returned (Some cfg, None) /\
     pgx.TLSConfig cfg = None).
Proof.
  intros He Hr.
  pose proof (tlsConfigOf_plain viper He Hr) as Hplain.
  unfold deriveBunDBPGOptions. rewrite Hplain.
  change (tlsConfigOf (with_DbTLSMode "disable" viper)) with (@None tls.Config).
  simpl loadCACert. split; [reflexivity|]. split.
  - intros cfg.
    destruct (negb _); [intros H; discriminate H|].
    destruct (DbPort viper =? 0); [intros H; discriminate H|].
    destruct (String.eqb (DbAddress viper) ""); [intros H; discriminate H|].
    destruct (String.eqb (DbUser viper) ""); [intros H; discriminate H|].
    destruct (String.eqb (DbPassword viper) "");
      [intros H; discriminate H|].
    destruct (String.eqb (DbDatabase viper) "");
      [intros H; discriminate H|].
    destruct (ParseConfig os ""); intros H; inversion H; subst. reflexivity.
  - intros Hsel Hport Haddr Huser Hpass Hdb [base Hbase].
    rewrite Hsel, String.eqb_refl. simpl negb. cbv iota.
    destruct (DbPort viper =? 0) eqn:E1.
    { apply Z.eqb_eq in E1. contradiction. }
    destruct (String.eqb (DbAddress viper) "") eqn:E2.
    { apply eqb_empty in E2. contradiction. }
    destruct (String.eqb (DbUser viper) "") eqn:E3.
    { apply eqb_empty in E3. contradiction. }
    destruct (String.eqb (DbPassword viper) "") eqn:E4.
    { apply eqb_empty in E4. contradiction. }
    destruct (String.eqb (DbDatabase viper) "") eqn:E5.
    { apply eqb_empty in E5. contradiction. }
    rewrite Hbase. eexists. split; reflexivity.
Qed.

Lemma C9_other_tls_modes_witness :
  exists cfg,
    deriveBunDBPGOptions SampleHost.strings_ToUpper SampleHost.DBTypePostgres
      SampleHost.pem_Decode
      SampleHost.x509_ParseCertificate
      (SampleHost.setting "hunter2" "verify-full" "/etc/gotosocial/ca.pem")
      SampleHost.os
    = Returned (Some cfg, None) /\
    pgx.TLSConfig cfg = None.
Proof.
  apply C9_other_tls_modes_mean_plaintext;
    try discriminate; try reflexivity.
  eexists. reflexivity.
Defined.

(** ** Migrations *)

Lemma round_trip_ok w :
  healthy w ->
  exists w',
    round_trip w = (None, w') /\ healthy w' /\ same_data w w' /\
    trace w' = trace w.
Proof.
  intros Hh. destruct (round_trip_healthy w Hh) as (w' & Hrt & Hh').
  exists w'. pose proof (round_trip_frame _ _ _ Hrt). tauto.
Qed.

Lemma Init_healthy w :
  healthy w ->
  exists w',
    migrate.bunInit w = (None, w') /\ healthy w' /\
    accounts w' = accounts w /\ tags w' = tags w /\ emojis w' = emojis w /\
    schema w' = schema w /\ trace w' = trace w /\
    bun_migrations w' = Some (default [] (bun_migrations w)).
Proof.
  intros Hh. destruct (round_trip_ok w Hh) as (w1 & Hrt & Hh1 & Hd & Ht).
  destruct Hd as (Ha & Htg & Hem & Hsc & Hbm).
  unfold migrate.bunInit, bind. rewrite Hrt. unfold modify, ret. rewrite Hbm.
  destruct (bun_migrations w) as [applied|] eqn:E.
  - exists w1. repeat split; auto.
  - eexists. split; [reflexivity|]. repeat split; auto.
Qed.

Lemma Migrate_nothing_pending m ms applied w :
  healthy w ->
  bun_migrations w = Some applied ->
  migrate.unapplied (m :: ms) applied = [] ->
  exists w',
    migrate.bunMigrate (m :: ms) w = (inl (migrate.mkGroup 0 []), w') /\
    healthy w' /\ same_data w w' /\ trace w' = trace w.
Proof.
  intros Hh Hbm Hnone.
  destruct (round_trip_ok w Hh) as (w1 & Hrt & Hh1 & Hd & Ht).
  exists w1. unfold migrate.bunMigrate, bind. rewrite Hrt. unfold gets.
  destruct Hd as (Ha & Htg & Hem & Hsc & Hbm1).
  rewrite Hbm1, Hbm, Hnone. unfold same_data. auto 10.
Qed.

(** C8. [doMigration] returns no error both when its migrator reports
    the zero group (nothing pending: the already-migrated steady state),
    in which case it logs that there are no new migrations to run, and
    when its migrator reports that there are no migrations at all, in
    which case it logs nothing: the two cases are told apart. With a
    healthy connection the first is what happens on an already-migrated
    schema, where the run changes neither the schema nor the bookkeeping
    and leaves the schema already migrated; the second is what happens
    when no migration is registered. *)
Theorem C8_doMigration_steady_state
    (Migrations : list migrate.Migration) (w : World) :
  (forall migrator w1 w2 group,
     migrate.Init migrator w = (None, w1) ->
     migrate.Migrate migrator w1 = (inl group, w2) ->
     migrate.ID group = 0 ->
     migrateWith migrator w
     = (None,
        with_trace
          (trace w2 ++ [Logged InfoLevel "there are no new migrations to run"])
          w2)) /\
  (forall migrator w1 w2 err,
     migrate.Init migrator w = (None, w1) ->
     migrate.Migrate migrator w1 = (inr err, w2) ->
     Error err = "migrate: there are no any migrations" ->
     migrateWith migrator w = (None, w2)) /\
  (healthy w ->
   (Migrations = [] ->
    exists w',
      doMigration Migrations w = (None, w') /\
      trace w' = trace w /\ schema w' = schema w) /\
   (Migrations <> [] -> nothingPending Migrations w ->
    exists w',
      doMigration Migrations w = (None, w') /\
      trace w'
      = trace w ++ [Logged InfoLevel "there are no new migrations to run"] /\
      schema w' = schema w /\
      bun_migrations w' = bun_migrations w /\
      healthy w' /\ nothingPending Migrations w')).
Proof.
  split; [|split].
  - intros migrator w1 w2 group HI HM Hid.
    unfold migrateWith, bind. rewrite HI, HM, Hid. reflexivity.
  - intros migrator w1 w2 err HI HM Hmsg.
    unfold migrateWith, bind. rewrite HI, HM, Hmsg. reflexivity.
  - intros Hh.
    destruct (Init_healthy w Hh)
      as (w1 & HI & Hh1 & _ & _ & _ & Hsc1 & Htr1 & Hbm1).
    split.
    + intros ->. exists w1.
      unfold doMigration, migrateWith, migrate.NewMigrator, bind.
      cbn [migrate.Init migrate.Migrate]. rewrite HI. simpl. auto.
    + intros Hne (applied & Hbm & Hnone).
      destruct Migrations as [|m ms]; [contradiction|].
      rewrite Hbm in Hbm1. simpl in Hbm1.
      destruct (Migrate_nothing_pending m ms applied w1 Hh1 Hbm1 Hnone)
        as (w2 & HM & Hh2 & Hd2 & Htr2).
      destruct Hd2 as (_ & _ & _ & Hsc2 & Hbm2).
      eexists. unfold doMigration, migrateWith, migrate.NewMigrator, bind.
      cbn [migrate.Init migrate.Migrate]. rewrite HI, HM. simpl.
      split; [reflexivity|]. simpl.
      split; [congruence|]. split; [congruence|]. split; [congruence|].
      split; [exact Hh2|]. exists applied. simpl.
      split; [congruence | exact Hnone].
Qed.

(** A group that runs to its end records each of its steps. *)
Lemma runGroup_records group pending :
  forall done w applied g w',
    bun_migrations w = Some applied ->
    migrate.runGroup group pending done w = (inl g, w') ->
    exists recs,
      bun_migrations w' = Some (applied ++ recs) /\
      map AppliedName recs = map migrate.MigrationName pending.
Proof.
  induction pending as [|m rest IH]; intros done w applied g w' Hbm H;
    simpl in H.
  - inversion H; subst. exists []. rewrite app_nil_r. auto.
  - unfold bind in H. destruct (round_trip w) as [failed w1] eqn:Hrt.
    apply round_trip_frame in Hrt.
    destruct Hrt as ((_ & _ & _ & _ & Hbm1) & _).
    destruct failed as [err|]; [discriminate H|].
    unfold gets in H.
    destruct (migrate.Up m (schema w1)) as [sc'|err]; [|discriminate H].
    unfold modify, time_Now in H. simpl in H.
    apply (IH _ _ (applied ++
                     [mkApplied (migrate.MigrationName m) group (clock w1)]))
      in H.
    + destruct H as (recs & Hrecs & Hnames).
      exists (mkApplied (migrate.MigrationName m) group (clock w1) :: recs).
      rewrite Hrecs. split.
      * rewrite <- app_assoc. reflexivity.
      * simpl. rewrite Hnames. reflexivity.
    + simpl. rewrite Hbm1, Hbm. reflexivity.
Qed.

Lemma isApplied_app applied recs m :
  migrate.isApplied (applied ++ recs) m
  = migrate.isApplied applied m || migrate.isApplied recs m.
Proof. unfold migrate.isApplied. apply existsb_app. Qed.

Lemma isApplied_named recs m :
  In (migrate.MigrationName m) (map AppliedName recs) ->
  migrate.isApplied recs m = true.
Proof.
  intros Hin. apply in_map_iff in Hin. destruct Hin as (r & Hr & Hin).
  unfold migrate.isApplied. apply existsb_exists. exists r.
  split; [exact Hin | apply String.eqb_eq; exact Hr].
Qed.

Lemma filter_none {A} (P : A -> Prop) `{forall x, Decision (P x)} l :
  (forall x, In x l -> ~ P x) -> filter P l = [].
Proof.
  induction l as [|x l IH]; intros Hn; [reflexivity|].
  rewrite filter_cons_False by (apply Hn; left; reflexivity).
  apply IH. intros y Hy. apply Hn. right. exact Hy.
Qed.

(** Once [Migrate] has returned a group, nothing is pending. *)
Lemma Migrate_reaches_steady_state ms w g w' :
  migrate.bunMigrate ms w = (inl g, w') -> nothingPending ms w'.
Proof.
  unfold migrate.bunMigrate. destruct ms as [|m0 ms0]; [intros H; discriminate H|].
  set (ms := m0 :: ms0). unfold bind.
  destruct (round_trip w) as [failed w1] eqn:Hrt.
  destruct failed as [err|]; [intros H; discriminate H|].
  unfold gets. destruct (bun_migrations w1) as [applied|] eqn:Hbm;
    [|intros H; discriminate H].
  destruct (migrate.unapplied ms applied) as [|p pending] eqn:Hun.
  - intros H. inversion H; subst. exists applied. auto.
  - intros H. apply (runGroup_records _ _ _ _ applied) in H; [|exact Hbm].
    destruct H as (recs & Hrecs & Hnames). rewrite <- Hun in Hnames.
    exists (applied ++ recs). split; [exact Hrecs|].
    unfold migrate.unapplied. apply filter_none.
    intros m Hm. rewrite isApplied_app.
    destruct (migrate.isApplied applied m) eqn:Ha; [discriminate|].
    rewrite isApplied_named; [discriminate|].
    rewrite Hnames. apply in_map. unfold migrate.unapplied.
    apply list_elem_of_In. apply list_elem_of_filter.
    split; [exact Ha | apply list_elem_of_In; exact Hm].
Qed.

Lemma C8_doMigration_witness :
  fst (migrateWith (migrate.NewMigrator SampleMigrations.Migrations)
         SampleMigrations.migrated) = None /\
  migrateWith (migrate.NewMigrator []) Sample.world
  = (None, snd (migrate.bunInit Sample.world)) /\
  (exists w',
     doMigration [] Sample.world = (None, w') /\
     trace w' = trace Sample.world /\ schema w' = schema Sample.world) /\
  (exists w',
     doMigration SampleMigrations.Migrations SampleMigrations.migrated
     = (None, w') /\
     trace w'
     = trace SampleMigrations.migrated
       ++ [Logged InfoLevel "there are no new migrations to run"] /\
     schema w' = schema SampleMigrations.migrated /\
     bun_migrations w' = bun_migrations SampleMigrations.migrated /\
     healthy w' /\ nothingPending SampleMigrations.Migrations w').
Proof.
  destruct (C8_doMigration_steady_state SampleMigrations.Migrations
              SampleMigrations.migrated) as (Hzero & _ & Hrun).
  destruct (C8_doMigration_steady_state [] Sample.world)
    as (_ & Hnone & Hempty).
  split; [|split; [|split]].
  - rewrite (Hzero (migrate.NewMigrator SampleMigrations.Migrations)
               (snd (migrate.bunInit SampleMigrations.migrated))
               (snd (migrate.bunMigrate SampleMigrations.Migrations
                       (snd (migrate.bunInit SampleMigrations.migrated))))
               (migrate.mkGroup 0 []));
      vm_compute; reflexivity.
  - apply (Hnone (migrate.NewMigrator [])
             (snd (migrate.bunInit Sample.world))
             (snd (migrate.bunInit Sample.world))
             (errors_New "migrate: there are no any migrations"));
      vm_compute; reflexivity.
  - apply Hempty; [exact sample_world_healthy | reflexivity].
  - apply Hrun.
    + vm_compute. constructor.
    + discriminate.
    + eexists. split; vm_compute; reflexivity.
Defined.

(** * Further properties of the code *)

(** ** The embedded engine's address *)

Lemma append_assoc (a b c : string) : (a +:+ b) +:+ c = a +:+ (b +:+ c).
Proof.
  induction a as [|x a IH]; [reflexivity|].
  change (String x a +:+ b) with (String x (a +:+ b)).
  change (String x (a +:+ b) +:+ c) with (String x ((a +:+ b) +:+ c)).
  change (String x a +:+ (b +:+ c)) with (String x (a +:+ (b +:+ c))).
  rewrite IH. reflexivity.
Qed.

Lemma has_byte_app c a b :
  has_byte c (a +:+ b) = has_byte c a || has_byte c b.
Proof.
  induction a as [|d a IH]; [reflexivity|].
  change (String d a +:+ b) with (String d (a +:+ b)).
  simpl. rewrite IH. apply orb_assoc.
Qed.

Lemma strip_app p : forall s r, strings.strip p s = Some r -> s = p +:+ r.
Proof.
  induction p as [|a p IH]; intros s r H; simpl in H.
  - inversion H. reflexivity.
  - destruct s as [|b s]; [discriminate H|].
    destruct (Ascii.eqb a b) eqn:E; [|discriminate H].
    apply Ascii.eqb_eq in E. subst b. apply IH in H. subst s. reflexivity.
Qed.

Lemma strip_prefix p r : strings.strip p (p +:+ r) = Some r.
Proof.
  induction p as [|a p IH]; [reflexivity|].
  change (String a p +:+ r) with (String a (p +:+ r)).
  simpl. rewrite Ascii.eqb_refl. exact IH.
Qed.

Lemma TrimPrefix_clean c s p :
  has_byte c s = false -> has_byte c (strings.TrimPrefix s p) = false.
Proof.
  unfold strings.TrimPrefix. intros H.
  destruct (strings.strip p s) as [r|] eqn:E; [|exact H].
  apply strip_app in E. subst s. rewrite has_byte_app in H.
  apply orb_false_elim in H. tauto.
Qed.

(** [Split] always gives a first piece, and the separator is not in it. *)
Lemma Split_first s sep :
  exists first others,
    strings.Split s sep = first :: others /\ has_byte sep first = false.
Proof.
  induction s as [|c s (first & others & E & Hclean)]; simpl.
  - exists "", []. auto.
  - destruct (Ascii.eqb c sep) eqn:Hc.
    + exists "", (strings.Split s sep). auto.
    + rewrite E. exists (String c first), others. simpl. rewrite Hc. auto.
Qed.

(** Up to its first separator, a string is its first piece. *)
Lemma Split_first_app sep p r :
  has_byte sep p = false ->
  exists others, strings.Split (p +:+ String sep r) sep = p :: others.
Proof.
  induction p as [|c p IH]; intros H.
  - change ("" +:+ String sep r) with (String sep r). simpl.
    rewrite Ascii.eqb_refl. eauto.
  - change (String c p +:+ String sep r) with (String c (p +:+ String sep r)).
    simpl in H. apply orb_false_elim in H. destruct H as [Hc Hp].
    simpl. rewrite Hc. destruct (IH Hp) as [others ->]. eauto.
Qed.

Lemma sqliteAddress_shape a :
  exists path,
    sqliteAddress a = "file:" +:+ path +:+ "?cache=shared" /\
    path = strings.TrimPrefix (nth 0 (strings.Split a "?") "") "file:" /\
    has_byte "?" path = false.
Proof.
  unfold sqliteAddress. eexists. split; [reflexivity|]. split; [reflexivity|].
  destruct (Split_first a "?") as (first & others & -> & Hclean).
  simpl nth. apply TrimPrefix_clean. exact Hclean.
Qed.

(** X1. The data source name [sqliteConn] opens is "file:", a path with
    no "?" in it, and "?cache=shared": whatever parameters the configured
    address carried are gone. Giving that name back as the address yields
    the same name again. *)
Theorem X1_sqliteAddress_normal_form (a : string) :
  (exists path,
     sqliteAddress a = "file:" +:+ path +:+ "?cache=shared" /\
     has_byte "?" path = false) /\
  sqliteAddress (sqliteAddress a) = sqliteAddress a.
Proof.
  destruct (sqliteAddress_shape a) as (path & E & _ & Hclean).
  split; [eauto|].
  rewrite E. unfold sqliteAddress at 1.
  assert (Hp : has_byte "?" ("file:" +:+ path) = false).
  { rewrite has_byte_app, Hclean. reflexivity. }
  change ("file:" +:+ path +:+ "?cache=shared")
    with ("file:" +:+ (path +:+ String "?" "cache=shared")).
  rewrite <- (append_assoc "file:" path (String "?" "cache=shared")) at 1.
  destruct (Split_first_app "?" ("file:" +:+ path) "cache=shared" Hp)
    as [others ->].
  simpl nth. unfold strings.TrimPrefix. rewrite strip_prefix.
  reflexivity.
Qed.

Lemma Split_first_piece sep p r :
  has_byte sep p = false ->
  nth 0 (strings.Split (p +:+ String sep r) sep) "" = p.
Proof.
  intros H. destruct (Split_first_app sep p r H) as [others ->].
  reflexivity.
Qed.

(** The name opened is the in-memory one exactly for two spellings of the
    address before its first "?". *)
Lemma in_memory_address a :
  String.eqb (sqliteAddress a) "file::memory:?cache=shared" = true <->
  nth 0 (strings.Split a "?") "" = ":memory:" \/
  nth 0 (strings.Split a "?") "" = "file::memory:".
Proof.
  rewrite String.eqb_eq.
  destruct (sqliteAddress_shape a) as (path & E & Hpath & Hclean).
  rewrite E. split.
  - intros H.
    assert (Hp : path = ":memory:").
    { assert (F : nth 0 (strings.Split
                           (path +:+ String "?" "cache=shared") "?") ""
                  = nth 0 (strings.Split
                             (":memory:" +:+ String "?" "cache=shared") "?")
                          "").
      { f_equal. f_equal.
        change ("file:" +:+ path +:+ "?cache=shared")
          with ("file:" +:+ (path +:+ String "?" "cache=shared")) in H.
        change "file::memory:?cache=shared"
          with ("file:" +:+ (":memory:" +:+ String "?" "cache=shared")) in H.
        pose proof (strip_prefix "file:"
                      (path +:+ String "?" "cache=shared")) as S1.
        rewrite H, strip_prefix in S1. inversion S1. reflexivity. }
      rewrite (Split_first_piece "?" path "cache=shared" Hclean) in F.
      rewrite (Split_first_piece "?" ":memory:" "cache=shared" eq_refl) in F.
      exact F. }
    rewrite Hp in Hpath. unfold strings.TrimPrefix in Hpath.
    destruct (strings.strip "file:" (nth 0 (strings.Split a "?") ""))
      as [r|] eqn:S.
    + apply strip_app in S. right. rewrite S, <- Hpath. reflexivity.
    + left. symmetry. exact Hpath.
  - intros [H|H]; rewrite H in Hpath; subst path; reflexivity.
Qed.

(** X2. When [sqliteConn] returns a connection, it opened the normal form
    of the configured address; it set the pool limits, both to four times
    GOMAXPROCS, before pinging; and exactly for the in-memory addresses
    (":memory:" or "file::memory:" before the first "?") it logged the
    warning and set the connection lifetime to zero. *)
Theorem X2_sqliteConn_connection
    (sql_Open : string -> string -> option error)
    (sqliteErrorCode : error -> option Z) (ErrorCodeString : Z -> string)
    (viper : Config) (os : Platform) (w w' : World) (c : SqliteConn) :
  sqliteConn sql_Open sqliteErrorCode ErrorCodeString viper os w
  = ((Some c, None), w') ->
  dataSourceName c = sqliteAddress (DbAddress viper) /\
  (ConnMaxLifetime c = Some 0 <->
   nth 0 (strings.Split (DbAddress viper) "?") "" = ":memory:" \/
   nth 0 (strings.Split (DbAddress viper) "?") "" = "file::memory:") /\
  (ConnMaxLifetime c = Some 0 \/ ConnMaxLifetime c = None) /\
  trace w'
  = trace w
    ++ [SetMaxOpenConns (4 * GOMAXPROCS os);
        SetMaxIdleConns (4 * GOMAXPROCS os)]
    ++ match ConnMaxLifetime c with
       | Some _ =>
           [Logged WarnLevel
              "sqlite in-memory database should only be used for debugging"]
       | None => []
       end
    ++ [Ping; Logged InfoLevel "connected to SQLITE database"].
Proof.
  pose proof (in_memory_address (DbAddress viper)) as Hmem.
  unfold sqliteConn.
  destruct (sql_Open "sqlite" (sqliteAddress (DbAddress viper)));
    [intros H; discriminate H|].
  unfold tweakConnectionValues, bind, emit, log, ret, round_trip.
  destruct (String.eqb (sqliteAddress (DbAddress viper))
              "file::memory:?cache=shared") eqn:E;
    destruct w as [ac tg em sc bm fs en ck tr]; simpl;
    destruct fs as [|[msg|] fs]; simpl; intros H; inversion H; subst;
    simpl; rewrite <- ?app_assoc; simpl.
  all: split; [reflexivity|]; split;
    [|split; [auto|reflexivity]].
  all: split; intros H0; first [ apply Hmem; reflexivity
                              | reflexivity
                              | discriminate H0
                              | apply Hmem in H0; discriminate H0 ].
Qed.

Lemma X2_sqliteConn_connection_witness :
  exists c,
    fst (fst (sqliteConn SampleSqlite.sql_Open SampleSqlite.sqliteErrorCode
                SampleSqlite.ErrorCodeString
                (SampleSqlite.setting "sqlite"
                   "file::memory:?mode=memory&cache=private")
                SampleHost.os Sample.world)) = Some c /\
    dataSourceName c = "file::memory:?cache=shared" /\
    ConnMaxLifetime c = Some 0.
Proof.
  eexists. split; [reflexivity|].
  destruct (X2_sqliteConn_connection SampleSqlite.sql_Open
              SampleSqlite.sqliteErrorCode SampleSqlite.ErrorCodeString
              (SampleSqlite.setting "sqlite"
                 "file::memory:?mode=memory&cache=private")
              SampleHost.os Sample.world
              (snd (sqliteConn SampleSqlite.sql_Open
                      SampleSqlite.sqliteErrorCode
                      SampleSqlite.ErrorCodeString
                      (SampleSqlite.setting "sqlite"
                         "file::memory:?mode=memory&cache=private")
                      SampleHost.os Sample.world))
              (mkSqliteConn "file::memory:?cache=shared" (Some 0)) eq_refl)
    as (Hname & Hlife & _).
  split; [exact Hname|]. apply Hlife. right. reflexivity.
Defined.

(** X3. When [sql.Open] fails, [sqliteConn] returns "could not open sqlite
    db: ..." and does nothing else: no pool limit is set, nothing is
    pinged. When the ping fails it returns "sqlite ping: ..." and no
    connection, after the pool limits were set, and never logs that it
    connected. In both messages an error that carries an engine code is
    shown as the code's text from the table, any other error as its own
    text. *)
Theorem X3_sqliteConn_failures
    (sql_Open : string -> string -> option error)
    (sqliteErrorCode : error -> option Z) (ErrorCodeString : Z -> string)
    (viper : Config) (os : Platform) (w : World) :
  (forall err,
     sql_Open "sqlite" (sqliteAddress (DbAddress viper)) = Some err ->
     sqliteConn sql_Open sqliteErrorCode ErrorCodeString viper os w
     = ((None, Some (errors_New
          ("could not open sqlite db: " +:+
           match sqliteErrorCode err with
           | Some code => ErrorCodeString code
           | None => Error err
           end))), w)) /\
  (forall msg rest,
     sql_Open "sqlite" (sqliteAddress (DbAddress viper)) = None ->
     faults w = Some msg :: rest ->
     exists w',
       sqliteConn sql_Open sqliteErrorCode ErrorCodeString viper os w
       = ((None, Some (errors_New
            ("sqlite ping: " +:+
             match sqliteErrorCode (errors_New msg) with
             | Some code => ErrorCodeString code
             | None => msg
             end))), w') /\
       same_data w w' /\
       exists warned,
         trace w'
         = trace w
           ++ [SetMaxOpenConns (4 * GOMAXPROCS os);
               SetMaxIdleConns (4 * GOMAXPROCS os)]
           ++ warned ++ [Ping] /\
         ~ In (Logged InfoLevel "connected to SQLITE database") warned).
Proof.
  split.
  - intros err Hopen. unfold sqliteConn, readable. rewrite Hopen.
    destruct (sqliteErrorCode err); reflexivity.
  - intros msg rest Hopen Hfaults. unfold sqliteConn, readable.
    rewrite Hopen.
    unfold tweakConnectionValues, bind, emit, log, ret, round_trip.
    destruct (String.eqb (sqliteAddress (DbAddress viper))
                "file::memory:?cache=shared");
      destruct w as [ac tg em sc bm fs en ck tr]; simpl in *; subst fs;
      simpl; eexists;
      (split; [destruct (sqliteErrorCode (errors_New msg)); reflexivity|]);
      (split; [repeat split|]).
    + exists [Logged WarnLevel
                "sqlite in-memory database should only be used for debugging"].
      split; [rewrite <- !app_assoc; reflexivity|].
      intros [H|[]]. discriminate H.
    + exists []. split; [rewrite <- !app_assoc; reflexivity|]. intros [].
Qed.

Lemma X3_sqliteConn_failures_witness :
  (fst (sqliteConn SampleSqlite.sql_Open SampleSqlite.sqliteErrorCode
          SampleSqlite.ErrorCodeString
          (SampleSqlite.setting "sqlite" "/var/lib/gotosocial/sqlite.db")
          SampleHost.os SampleSqlite.locked)
   = (None, Some (errors_New
        "sqlite ping: Error code 5: The database file is locked"))) /\
  fst (sqliteConn (fun _ _ => Some (errors_New "unable to open database file (14)"))
         SampleSqlite.sqliteErrorCode SampleSqlite.ErrorCodeString
         (SampleSqlite.setting "sqlite" "/nowhere/sqlite.db")
         SampleHost.os Sample.world)
  = (None, Some (errors_New
       "could not open sqlite db: Error code 14: Unable to open the database file")).
Proof.
  split.
  - destruct (X3_sqliteConn_failures SampleSqlite.sql_Open
                SampleSqlite.sqliteErrorCode SampleSqlite.ErrorCodeString
                (SampleSqlite.setting "sqlite" "/var/lib/gotosocial/sqlite.db")
                SampleHost.os SampleSqlite.locked) as [_ Hping].
    destruct (Hping "database is locked (5) (SQLITE_BUSY)" [] eq_refl eq_refl)
      as (w' & H & _).
    rewrite H. reflexivity.
  - destruct (X3_sqliteConn_failures
                (fun _ _ => Some (errors_New "unable to open database file (14)"))
                SampleSqlite.sqliteErrorCode SampleSqlite.ErrorCodeString
                (SampleSqlite.setting "sqlite" "/nowhere/sqlite.db")
                SampleHost.os Sample.world) as [Hopen _].
    rewrite (Hopen _ eq_refl). reflexivity.
Defined.

(** ** Start-up of the service *)

Lemma upper_lower_byte c :
  ascii_case.upper_byte (ascii_case.lower_byte c) = ascii_case.upper_byte c.
Proof.
  destruct c as [[] [] [] [] [] [] [] []]; vm_compute; reflexivity.
Qed.

Lemma upper_lower s :
  ascii_case.upper (ascii_case.lower s) = ascii_case.upper s.
Proof.
  induction s as [|c s IH]; [reflexivity|].
  unfold ascii_case.upper, ascii_case.lower in *.
  cbn [ascii_case.map_bytes]. rewrite upper_lower_byte, IH. reflexivity.
Qed.

Lemma derive_returns_for_postgres
    strings_ToUpper DBTypePostgres pem_Decode x509_ParseCertificate viper os
      cfg :
  deriveBunDBPGOptions strings_ToUpper DBTypePostgres pem_Decode
    x509_ParseCertificate
    viper os = Returned (Some cfg, None) ->
  strings_ToUpper (DbType viper) = DBTypePostgres.
Proof.
  unfold deriveBunDBPGOptions.
  destruct (String.eqb (strings_ToUpper (DbType viper)) DBTypePostgres)
    eqn:E; simpl; [|intros H; discriminate H].
  intros _. apply String.eqb_eq. exact E.
Qed.

Lemma pgConn_frame
    strings_ToUpper DBTypePostgres pem_Decode x509_ParseCertificate viper os w
      r w' :
  pgConn strings_ToUpper DBTypePostgres pem_Decode x509_ParseCertificate viper
    os w
  = (r, w') ->
  same_data w w'.
Proof.
  unfold pgConn.
  destruct (deriveBunDBPGOptions _ _ _ _ viper os) as [[[opts|] [e|]]|msg];
    try (intros H; inversion H; subst; apply same_data_refl).
  unfold tweakConnectionValues, bind, emit, log, ret, round_trip.
  destruct w as [ac tg em sc bm fs en ck tr]; simpl.
  destruct fs as [|[m|] fs]; simpl; intros H; inversion H; subst;
    repeat split.
Qed.

Lemma pgConn_connected
    strings_ToUpper DBTypePostgres pem_Decode x509_ParseCertificate viper os w
      c w' :
  pgConn strings_ToUpper DBTypePostgres pem_Decode x509_ParseCertificate viper
    os w
  = (Returned (Some c, None), w') ->
  deriveBunDBPGOptions strings_ToUpper DBTypePostgres pem_Decode
    x509_ParseCertificate
    viper os = Returned (Some (options c), None).
Proof.
  unfold pgConn.
  destruct (deriveBunDBPGOptions _ _ _ _ viper os) as [[[opts|] [e|]]|msg];
    try (intros H; discriminate H).
  unfold tweakConnectionValues, bind, emit, log, ret, round_trip.
  destruct w as [ac tg em sc bm fs en ck tr]; simpl.
  destruct fs as [|[m|] fs]; simpl; intros H; inversion H; subst;
    reflexivity.
Qed.

Lemma sqliteConn_frame
    sql_Open sqliteErrorCode ErrorCodeString viper os w r w' :
  sqliteConn sql_Open sqliteErrorCode ErrorCodeString viper os w = (r, w') ->
  same_data w w'.
Proof.
  unfold sqliteConn.
  destruct (sql_Open "sqlite" (sqliteAddress (DbAddress viper)));
    [intros H; inversion H; subst; apply same_data_refl|].
  unfold tweakConnectionValues, bind, emit, log, ret, round_trip.
  destruct (String.eqb _ "file::memory:?cache=shared");
    destruct w as [ac tg em sc bm fs en ck tr]; simpl;
    destruct fs as [|[m|] fs]; simpl; intros H; inversion H; subst;
    repeat split.
Qed.

Lemma connect_frame
    strings_ToLower strings_ToUpper DBTypePostgres pem_Decode
      x509_ParseCertificate
    sql_Open sqliteErrorCode ErrorCodeString viper os w r w' :
  connect strings_ToLower strings_ToUpper DBTypePostgres pem_Decode
    x509_ParseCertificate
    sql_Open sqliteErrorCode ErrorCodeString viper os w = (r, w') ->
  same_data w w'.
Proof.
  unfold connect.
  destruct (String.eqb (strings_ToLower (DbType viper)) dbTypePostgres).
  - unfold bind.
    destruct (pgConn _ _ _ _ viper os w) as [pr w1] eqn:Hpg.
    apply pgConn_frame in Hpg.
    destruct pr as [[[c|] [e|]]|msg]; intros H; inversion H; subst;
      exact Hpg.
  - destruct (String.eqb (strings_ToLower (DbType viper)) dbTypeSqlite).
    + unfold bind.
      destruct (sqliteConn _ _ _ viper os w) as [sr w1] eqn:Hsq.
      apply sqliteConn_frame in Hsq.
      destruct sr as [[c|] [e|]]; intros H; inversion H; subst; exact Hsq.
    + intros H; inversion H; subst. apply same_data_refl.
Qed.

(** X4. When the connection cannot be made (the backend's own error, or
    an unsupported database type), [NewBunDBService] returns that very
    error and no service, and the migrations are not run: tables, schema
    and bookkeeping are as they were. *)
Theorem X4_failed_connection_stops_startup
    (strings_ToLower strings_ToUpper : string -> string)
    (DBTypePostgres : string) (pem_Decode : string -> option string)
    (x509_ParseCertificate : string -> x509.Certificate + error)
    (sql_Open : string -> string -> option error)
    (sqliteErrorCode : error -> option Z) (ErrorCodeString : Z -> string)
    (viper : Config) (os : Platform) (logLevel : Z)
    (Migrations : list migrate.Migration) (w w1 : World) (err : error) :
  connect strings_ToLower strings_ToUpper DBTypePostgres pem_Decode
    x509_ParseCertificate
    sql_Open sqliteErrorCode ErrorCodeString viper os w
  = (Returned (inr err), w1) ->
  NewBunDBService strings_ToLower strings_ToUpper DBTypePostgres pem_Decode
    x509_ParseCertificate
    sql_Open sqliteErrorCode ErrorCodeString viper os logLevel Migrations w
  = (Returned (None, Some err), w1) /\
  same_data w w1.
Proof.
  intros H. split.
  - unfold NewBunDBService, bind. rewrite H. reflexivity.
  - eapply connect_frame. exact H.
Qed.

Lemma X4_failed_connection_witness :
  NewBunDBService SampleHost.strings_ToLower SampleHost.strings_ToUpper
    SampleHost.DBTypePostgres SampleHost.pem_Decode
    SampleHost.x509_ParseCertificate SampleSqlite.sql_Open
    SampleSqlite.sqliteErrorCode SampleSqlite.ErrorCodeString
    (SampleSqlite.setting "SQLite" "sqlite.db") SampleHost.os 4
    SampleMigrations.Migrations SampleSqlite.locked
  = (Returned (None, Some (errors_New
       "sqlite ping: Error code 5: The database file is locked")),
     snd (connect SampleHost.strings_ToLower SampleHost.strings_ToUpper
       SampleHost.DBTypePostgres SampleHost.pem_Decode
            SampleHost.x509_ParseCertificate SampleSqlite.sql_Open
            SampleSqlite.sqliteErrorCode SampleSqlite.ErrorCodeString
            (SampleSqlite.setting "SQLite" "sqlite.db") SampleHost.os
            SampleSqlite.locked)) /\
  schema (snd (connect SampleHost.strings_ToLower SampleHost.strings_ToUpper
    SampleHost.DBTypePostgres SampleHost.pem_Decode
                 SampleHost.x509_ParseCertificate SampleSqlite.sql_Open
                 SampleSqlite.sqliteErrorCode SampleSqlite.ErrorCodeString
                 (SampleSqlite.setting "SQLite" "sqlite.db") SampleHost.os
                 SampleSqlite.locked)) = [].
Proof.
  destruct (X4_failed_connection_stops_startup
              SampleHost.strings_ToLower
              SampleHost.strings_ToUpper SampleHost.DBTypePostgres
                SampleHost.pem_Decode
              SampleHost.x509_ParseCertificate SampleSqlite.sql_Open
              SampleSqlite.sqliteErrorCode SampleSqlite.ErrorCodeString
              (SampleSqlite.setting "SQLite" "sqlite.db") SampleHost.os 4
              SampleMigrations.Migrations SampleSqlite.locked
              (snd (connect SampleHost.strings_ToLower
                SampleHost.strings_ToUpper SampleHost.DBTypePostgres
                SampleHost.pem_Decode
                      SampleHost.x509_ParseCertificate SampleSqlite.sql_Open
                      SampleSqlite.sqliteErrorCode
                      SampleSqlite.ErrorCodeString
                      (SampleSqlite.setting "SQLite" "sqlite.db")
                      SampleHost.os SampleSqlite.locked))
              (errors_New
                 "sqlite ping: Error code 5: The database file is locked")
              eq_refl) as [H Hd].
  split; [exact H|]. destruct Hd as (_ & _ & _ & Hs & _). exact Hs.
Defined.

Lemma NewBunDBService_returns
    strings_ToLower strings_ToUpper DBTypePostgres pem_Decode
      x509_ParseCertificate
    sql_Open sqliteErrorCode ErrorCodeString viper os logLevel Migrations
    w svc w' :
  NewBunDBService strings_ToLower strings_ToUpper DBTypePostgres pem_Decode
    x509_ParseCertificate
    sql_Open sqliteErrorCode ErrorCodeString viper os logLevel Migrations w
  = (Returned (Some svc, None), w') ->
  exists w1,
    connect strings_ToLower strings_ToUpper DBTypePostgres pem_Decode
      x509_ParseCertificate
      sql_Open sqliteErrorCode ErrorCodeString viper os w
    = (Returned (inl (conn svc)), w1) /\
    doMigration Migrations w1 = (None, w') /\
    svc = mkService (conn svc) (TraceLevel <=? logLevel) registerTables.
Proof.
  unfold NewBunDBService, bind.
  destruct (connect _ _ _ _ _ _ _ _ viper os w) as [[[c|e]|msg] w1];
    try (intros H; discriminate H).
  destruct (doMigration Migrations w1) as [[e|] w2] eqn:HM;
    intros H; inversion H; subst. simpl. eauto.
Qed.

(** X5. The backend follows [strings.ToLower] of the database type. A
    type whose lower-casing is neither "postgres" nor "sqlite" gives the
    error "database type ... not supported for bundb", which shows the
    lower-cased type, and nothing is done. A service over postgres is
    only ever returned when the type lower-cases to "postgres" and
    upper-cases to the constant [db.DBTypePostgres], the second test
    being the one of [deriveBunDBPGOptions]; for a type written in ASCII
    this leaves "POSTGRES" as the only value of the constant under which
    postgres can be used at all. A service over the embedded engine is
    only returned when the type lower-cases to "sqlite". *)
Theorem X5_backend_follows_db_type
    (strings_ToLower strings_ToUpper : string -> string)
    (DBTypePostgres : string) (pem_Decode : string -> option string)
    (x509_ParseCertificate : string -> x509.Certificate + error)
    (sql_Open : string -> string -> option error)
    (sqliteErrorCode : error -> option Z) (ErrorCodeString : Z -> string)
    (viper : Config) (os : Platform) (logLevel : Z)
    (Migrations : list migrate.Migration) (w : World) :
  (strings_ToLower (DbType viper) <> "postgres" ->
   strings_ToLower (DbType viper) <> "sqlite" ->
   NewBunDBService strings_ToLower strings_ToUpper DBTypePostgres
     pem_Decode x509_ParseCertificate
     sql_Open sqliteErrorCode ErrorCodeString viper os logLevel Migrations w
   = (Returned (None, Some (errors_New
        ("database type " +:+ strings_ToLower (DbType viper)
         +:+ " not supported for bundb"))), w)) /\
  (forall svc w',
     NewBunDBService strings_ToLower strings_ToUpper DBTypePostgres
       pem_Decode x509_ParseCertificate
       sql_Open sqliteErrorCode ErrorCodeString viper os logLevel
       Migrations w
     = (Returned (Some svc, None), w') ->
     match conn svc with
     | PostgresConn _ =>
         strings_ToLower (DbType viper) = "postgres" /\
         strings_ToUpper (DbType viper) = DBTypePostgres /\
         (foldASCII strings_ToLower strings_ToUpper ->
          ascii_case.isASCII (DbType viper) = true ->
          DBTypePostgres = "POSTGRES")
     | SqliteDBConn _ => strings_ToLower (DbType viper) = "sqlite"
     end).
Proof.
  split.
  - intros Hpg Hsq. unfold NewBunDBService, connect, bind.
    destruct (String.eqb (strings_ToLower (DbType viper)) dbTypePostgres)
      eqn:E1.
    { apply String.eqb_eq in E1. contradiction. }
    destruct (String.eqb (strings_ToLower (DbType viper)) dbTypeSqlite)
      eqn:E2.
    { apply String.eqb_eq in E2. contradiction. }
    reflexivity.
  - intros svc w' H. apply NewBunDBService_returns in H.
    destruct H as (w1 & Hc & _ & _). revert Hc. unfold connect.
    destruct (String.eqb (strings_ToLower (DbType viper)) dbTypePostgres)
      eqn:E1.
    + apply String.eqb_eq in E1. unfold bind.
      destruct (pgConn _ _ _ _ viper os w) as [pr w2] eqn:Hpg.
      destruct pr as [[[c|] [e|]]|msg]; intros H; inversion H; subst.
      apply pgConn_connected in Hpg.
      apply derive_returns_for_postgres in Hpg.
      split; [exact E1|]. split; [exact Hpg|].
      intros Hfold Hascii. destruct (Hfold _ Hascii) as [Hl Hu].
      rewrite <- Hpg, Hu, <- upper_lower, <- Hl, E1.
      vm_compute. reflexivity.
    + destruct (String.eqb (strings_ToLower (DbType viper)) dbTypeSqlite)
        eqn:E2.
      * apply String.eqb_eq in E2. unfold bind.
        destruct (sqliteConn _ _ _ viper os w) as [sr w2].
        destruct sr as [[c|] [e|]]; intros H; inversion H; subst.
        exact E2.
      * intros H. discriminate H.
Qed.

Lemma X5_backend_follows_db_type_witness :
  NewBunDBService SampleHost.strings_ToLower SampleHost.strings_ToUpper
    SampleHost.DBTypePostgres SampleHost.pem_Decode
    SampleHost.x509_ParseCertificate SampleSqlite.sql_Open
    SampleSqlite.sqliteErrorCode SampleSqlite.ErrorCodeString
    (SampleSqlite.setting "MySQL" "db.internal") SampleHost.os 4
    SampleMigrations.Migrations Sample.world
  = (Returned (None, Some (errors_New
       "database type mysql not supported for bundb")), Sample.world) /\
  SampleHost.DBTypePostgres = "POSTGRES".
Proof.
  destruct (X5_backend_follows_db_type
              SampleHost.strings_ToLower SampleHost.strings_ToUpper
              SampleHost.DBTypePostgres
              SampleHost.pem_Decode SampleHost.x509_ParseCertificate
              SampleSqlite.sql_Open SampleSqlite.sqliteErrorCode
              SampleSqlite.ErrorCodeString
              (SampleSqlite.setting "MySQL" "db.internal") SampleHost.os 4
              SampleMigrations.Migrations Sample.world) as [Hno _].
  destruct (X5_backend_follows_db_type
              SampleHost.strings_ToLower SampleHost.strings_ToUpper
              SampleHost.DBTypePostgres
              SampleHost.pem_Decode SampleHost.x509_ParseCertificate
              SampleSqlite.sql_Open SampleSqlite.sqliteErrorCode
              SampleSqlite.ErrorCodeString
              (SampleHost.setting "hunter2" "disable" "") SampleHost.os 4
              SampleMigrations.Migrations Sample.world) as [_ Hpg].
  split.
  - apply Hno; vm_compute; discriminate.
  - refine (proj2 (proj2
      (Hpg (mkService
              (PostgresConn
                 (mkDBConn "pg"
                    (pgx.mkConnConfig "db.internal" 5432 "gotosocial"
                       "hunter2" None "gotosocial" true
                       (<["application_name" := "gotosocial"]> ∅))))
              false registerTables)
           (snd (NewBunDBService
                   SampleHost.strings_ToLower SampleHost.strings_ToUpper
                   SampleHost.DBTypePostgres
                   SampleHost.pem_Decode SampleHost.x509_ParseCertificate
                   SampleSqlite.sql_Open SampleSqlite.sqliteErrorCode
                   SampleSqlite.ErrorCodeString
                   (SampleHost.setting "hunter2" "disable" "")
                   SampleHost.os 4 SampleMigrations.Migrations
                   Sample.world)) _)) _ _).
    + vm_compute. reflexivity.
    + intros s _. split; reflexivity.
    + reflexivity.
Defined.

(** X6. [NewBunDBService] hands back a service only once the connection
    is made and [doMigration] has returned no error on it; the service
    carries that connection and the two join tables, and the
    query-logging hook exactly at trace log level. When [doMigration]
    fails, the call returns "db migration error: ..." and no service. *)
Theorem X6_service_only_after_migration
    (strings_ToLower strings_ToUpper : string -> string)
    (DBTypePostgres : string) (pem_Decode : string -> option string)
    (x509_ParseCertificate : string -> x509.Certificate + error)
    (sql_Open : string -> string -> option error)
    (sqliteErrorCode : error -> option Z) (ErrorCodeString : Z -> string)
    (viper : Config) (os : Platform) (logLevel : Z)
    (Migrations : list migrate.Migration) (w : World) :
  (forall svc w',
     NewBunDBService strings_ToLower strings_ToUpper DBTypePostgres pem_Decode
       x509_ParseCertificate
       sql_Open sqliteErrorCode ErrorCodeString viper os logLevel
       Migrations w
     = (Returned (Some svc, None), w') ->
     exists w1,
       connect strings_ToLower strings_ToUpper DBTypePostgres pem_Decode
         x509_ParseCertificate
         sql_Open sqliteErrorCode ErrorCodeString viper os w
       = (Returned (inl (conn svc)), w1) /\
       doMigration Migrations w1 = (None, w') /\
       models svc = ["StatusToEmoji"; "StatusToTag"] /\
       (queryHook svc = true <-> 6 <= logLevel)) /\
  (forall c w1 err w2,
     connect strings_ToLower strings_ToUpper DBTypePostgres pem_Decode
       x509_ParseCertificate
       sql_Open sqliteErrorCode ErrorCodeString viper os w
     = (Returned (inl c), w1) ->
     doMigration Migrations w1 = (Some err, w2) ->
     NewBunDBService strings_ToLower strings_ToUpper DBTypePostgres pem_Decode
       x509_ParseCertificate
       sql_Open sqliteErrorCode ErrorCodeString viper os logLevel
       Migrations w
     = (Returned (None, Some (errors_New
          ("db migration error: " +:+ Error err))), w2)).
Proof.
  split.
  - intros svc w' H. apply NewBunDBService_returns in H.
    destruct H as (w1 & Hc & HM & Hsvc). exists w1.
    split; [exact Hc|]. split; [exact HM|]. rewrite Hsvc. simpl.
    split; [reflexivity|]. unfold TraceLevel. apply Z.leb_le.
  - intros c w1 err w2 Hc HM. unfold NewBunDBService, bind.
    rewrite Hc, HM. reflexivity.
Qed.

Lemma X6_service_only_after_migration_witness :
  (exists w1,
     connect SampleHost.strings_ToLower SampleHost.strings_ToUpper
       SampleHost.DBTypePostgres SampleHost.pem_Decode
       SampleHost.x509_ParseCertificate SampleSqlite.sql_Open
       SampleSqlite.sqliteErrorCode SampleSqlite.ErrorCodeString
       (SampleSqlite.setting "sqlite" ":memory:") SampleHost.os Sample.world
     = (Returned (inl (SqliteDBConn
                         (mkSqliteConn "file::memory:?cache=shared"
                            (Some 0)))), w1) /\
     schema (snd (doMigration SampleMigrations.Migrations w1))
     = ["CREATE TABLE accounts"; "CREATE TABLE tags";
        "CREATE INDEX media_cached_idx"]) /\
  fst (NewBunDBService SampleHost.strings_ToLower SampleHost.strings_ToUpper
    SampleHost.DBTypePostgres SampleHost.pem_Decode
         SampleHost.x509_ParseCertificate SampleSqlite.sql_Open
         SampleSqlite.sqliteErrorCode SampleSqlite.ErrorCodeString
         (SampleSqlite.setting "sqlite" ":memory:") SampleHost.os 6
         [migrate.mkMigration "20211113114307_init"
            (fun _ => inr (errors_New "no such table: accounts"))]
         Sample.world)
  = Returned (None, Some (errors_New
      "db migration error: no such table: accounts")).
Proof.
  split.
  - destruct (X6_service_only_after_migration
                SampleHost.strings_ToLower
              SampleHost.strings_ToUpper SampleHost.DBTypePostgres
                SampleHost.pem_Decode
                SampleHost.x509_ParseCertificate SampleSqlite.sql_Open
                SampleSqlite.sqliteErrorCode SampleSqlite.ErrorCodeString
                (SampleSqlite.setting "sqlite" ":memory:") SampleHost.os 6
                SampleMigrations.Migrations Sample.world) as [Hok _].
    destruct (Hok (mkService
                     (SqliteDBConn
                        (mkSqliteConn "file::memory:?cache=shared" (Some 0)))
                     true registerTables)
                  (snd (NewBunDBService SampleHost.strings_ToLower
                    SampleHost.strings_ToUpper SampleHost.DBTypePostgres
                          SampleHost.pem_Decode
                          SampleHost.x509_ParseCertificate
                          SampleSqlite.sql_Open SampleSqlite.sqliteErrorCode
                          SampleSqlite.ErrorCodeString
                          (SampleSqlite.setting "sqlite" ":memory:")
                          SampleHost.os 6 SampleMigrations.Migrations
                          Sample.world)))
      as (w1 & Hc & HM & _ & _).
    + vm_compute. reflexivity.
    + exists w1. split; [exact Hc|]. rewrite HM. vm_compute. reflexivity.
  - destruct (X6_service_only_after_migration
                SampleHost.strings_ToLower
              SampleHost.strings_ToUpper SampleHost.DBTypePostgres
                SampleHost.pem_Decode
                SampleHost.x509_ParseCertificate SampleSqlite.sql_Open
                SampleSqlite.sqliteErrorCode SampleSqlite.ErrorCodeString
                (SampleSqlite.setting "sqlite" ":memory:") SampleHost.os 6
                [migrate.mkMigration "20211113114307_init"
                   (fun _ => inr (errors_New "no such table: accounts"))]
                Sample.world) as [_ Hfail].
    rewrite (Hfail
               (SqliteDBConn
                  (mkSqliteConn "file::memory:?cache=shared" (Some 0)))
               (snd (connect SampleHost.strings_ToLower
                 SampleHost.strings_ToUpper SampleHost.DBTypePostgres
                 SampleHost.pem_Decode
                       SampleHost.x509_ParseCertificate SampleSqlite.sql_Open
                       SampleSqlite.sqliteErrorCode
                       SampleSqlite.ErrorCodeString
                       (SampleSqlite.setting "sqlite" ":memory:")
                       SampleHost.os Sample.world))
               (errors_New "no such table: accounts")
               (snd (doMigration
                       [migrate.mkMigration "20211113114307_init"
                          (fun _ => inr (errors_New "no such table: accounts"))]
                       (snd (connect SampleHost.strings_ToLower
                         SampleHost.strings_ToUpper SampleHost.DBTypePostgres
                               SampleHost.pem_Decode
                               SampleHost.x509_ParseCertificate
                               SampleSqlite.sql_Open
                               SampleSqlite.sqliteErrorCode
                               SampleSqlite.ErrorCodeString
                               (SampleSqlite.setting "sqlite" ":memory:")
                               SampleHost.os Sample.world)))));
      vm_compute; reflexivity.
Defined.

(** ** The postgres options *)

Lemma derive_returns
    strings_ToUpper DBTypePostgres pem_Decode x509_ParseCertificate viper os
      cfg :
  deriveBunDBPGOptions strings_ToUpper DBTypePostgres pem_Decode
    x509_ParseCertificate
    viper os = Returned (Some cfg, None) ->
  DbPort viper <> 0 /\
  exists tlsConfig base,
    loadCACert pem_Decode x509_ParseCertificate os (DbTLSCACert viper)
      (tlsConfigOf viper) = inl tlsConfig /\
    ParseConfig os "" = inl base /\
    cfg = {| pgx.Host := DbAddress viper;
             pgx.Port := DbPort viper mod 65536;
             pgx.User := DbUser viper;
             pgx.Password := DbPassword viper;
             pgx.TLSConfig := tlsConfig;
             pgx.Database := DbDatabase viper;
             pgx.PreferSimpleProtocol := true;
             pgx.RuntimeParams :=
               <["application_name" := ApplicationName viper]>
                 (pgx.RuntimeParams base) |}.
Proof.
  unfold deriveBunDBPGOptions.
  destruct (negb _); [intros H; discriminate H|].
  destruct (DbPort viper =? 0) eqn:E1; [intros H; discriminate H|].
  destruct (String.eqb (DbAddress viper) ""); [intros H; discriminate H|].
  destruct (String.eqb (DbUser viper) ""); [intros H; discriminate H|].
  destruct (String.eqb (DbPassword viper) ""); [intros H; discriminate H|].
  destruct (String.eqb (DbDatabase viper) ""); [intros H; discriminate H|].
  destruct (loadCACert _ _ os _ _) as [tlsConfig|e];
    [|intros H; discriminate H].
  destruct (ParseConfig os "") as [base|e]; intros H; inversion H; subst.
  split; [apply Z.eqb_neq; exact E1|]. eauto.
Qed.

(** X7. The options [deriveBunDBPGOptions] returns carry the configured
    address, user, password and database unchanged and ask for the simple
    protocol. The port is the configured one reduced modulo 65536: it
    lies in 0..65535 and equals the configured port when that is a valid
    port number, but a configured port outside 1..65535 passes the "no
    port set" check and is silently wrapped. The runtime parameter
    application_name is the configured application name, and every other
    runtime parameter is what [pgx.ParseConfig] gave. *)
Theorem X7_returned_options
    (strings_ToUpper : string -> string)
    (DBTypePostgres : string) (pem_Decode : string -> option string)
    (x509_ParseCertificate : string -> x509.Certificate + error)
    (viper : Config) (os : Platform) (cfg : pgx.ConnConfig) :
  deriveBunDBPGOptions strings_ToUpper DBTypePostgres pem_Decode
    x509_ParseCertificate
    viper os = Returned (Some cfg, None) ->
  pgx.Host cfg = DbAddress viper /\ pgx.User cfg = DbUser viper /\
  pgx.Password cfg = DbPassword viper /\
  pgx.Database cfg = DbDatabase viper /\
  pgx.PreferSimpleProtocol cfg = true /\
  pgx.Port cfg = DbPort viper mod 65536 /\
  0 <= pgx.Port cfg < 65536 /\
  (0 < DbPort viper < 65536 -> pgx.Port cfg = DbPort viper) /\
  pgx.RuntimeParams cfg !! "application_name"
  = Some (ApplicationName viper) /\
  exists base,
    ParseConfig os "" = inl base /\
    forall key, key <> "application_name" ->
      pgx.RuntimeParams cfg !! key = pgx.RuntimeParams base !! key.
Proof.
  intros H. apply derive_returns in H.
  destruct H as (_ & tlsConfig & base & _ & Hbase & ->). simpl.
  repeat (split; [reflexivity|]).
  split; [apply Z.mod_pos_bound; lia|].
  split; [intros Hp; apply Z.mod_small; lia|].
  split; [apply lookup_insert_eq|].
  exists base. split; [exact Hbase|].
  intros key Hkey. apply lookup_insert_ne. congruence.
Qed.

Lemma X7_returned_options_witness :
  exists cfg,
    deriveBunDBPGOptions SampleHost.strings_ToUpper SampleHost.DBTypePostgres
      SampleHost.pem_Decode
      SampleHost.x509_ParseCertificate
      (with_DbPort 65536 (SampleHost.setting "hunter2" "disable" ""))
      SampleHost.os = Returned (Some cfg, None) /\
    pgx.Port cfg = 0 /\ pgx.Host cfg = "db.internal".
Proof.
  eexists. split; [vm_compute; reflexivity|].
  destruct (X7_returned_options SampleHost.strings_ToUpper
              SampleHost.DBTypePostgres
              SampleHost.pem_Decode SampleHost.x509_ParseCertificate
              (with_DbPort 65536 (SampleHost.setting "hunter2" "disable" ""))
              SampleHost.os
              (pgx.mkConnConfig "db.internal" 0 "gotosocial" "hunter2" None
                 "gotosocial" true
                 (<["application_name" := "gotosocial"]> ∅)))
    as (Hhost & _ & _ & _ & _ & Hport & _).
  - vm_compute. reflexivity.
  - split; [exact Hport | exact Hhost].
Defined.

(** X8. With TLS off (any mode other than "enable" and "require") the CA
    certificate path plays no part: neither the system certificate pool
    nor any file is consulted, so the result is the same for every path
    and on every machine that answers [pgx.ParseConfig] alike. *)
Theorem X8_no_tls_no_ca_file
    (strings_ToUpper : string -> string)
    (DBTypePostgres : string) (pem_Decode : string -> option string)
    (x509_ParseCertificate : string -> x509.Certificate + error)
    (viper : Config) (os os' : Platform) (path : string) :
  DbTLSMode viper <> "enable" ->
  DbTLSMode viper <> "require" ->
  ParseConfig os' "" = ParseConfig os "" ->
  deriveBunDBPGOptions strings_ToUpper DBTypePostgres pem_Decode
    x509_ParseCertificate
    (with_DbTLSCACert path viper) os'
  = deriveBunDBPGOptions strings_ToUpper DBTypePostgres pem_Decode
    x509_ParseCertificate
      viper os.
Proof.
  intros He Hr Hparse.
  pose proof (tlsConfigOf_plain viper He Hr) as Hplain.
  pose proof (tlsConfigOf_plain (with_DbTLSCACert path viper) He Hr)
    as Hplain'.
  unfold deriveBunDBPGOptions. rewrite Hplain, Hplain', Hparse.
  reflexivity.
Qed.

Lemma X8_no_tls_no_ca_file_witness :
  deriveBunDBPGOptions SampleHost.strings_ToUpper SampleHost.DBTypePostgres
    SampleHost.pem_Decode
    SampleHost.x509_ParseCertificate
    (with_DbTLSCACert "/etc/gotosocial/empty.pem"
       (SampleHost.setting "hunter2" "disable" ""))
    (with_ParseConfig_failing SampleHost.os)
  = deriveBunDBPGOptions SampleHost.strings_ToUpper SampleHost.DBTypePostgres
    SampleHost.pem_Decode
      SampleHost.x509_ParseCertificate
      (SampleHost.setting "hunter2" "disable" "")
      (with_ParseConfig_failing SampleHost.os).
Proof.
  apply X8_no_tls_no_ca_file; [discriminate | discriminate | reflexivity].
Defined.

Lemma loadCACert_loaded pem_Decode x509_ParseCertificate os path tc r :
  loadCACert pem_Decode x509_ParseCertificate os path (Some tc) = inl r ->
  (path = "" /\ r = Some tc) \/
  (path <> "" /\
   exists pool bytes block cert,
     SystemCertPool os = inl pool /\ ReadFile os path = inl bytes /\
     bytes <> "" /\ pem_Decode bytes = Some block /\
     x509_ParseCertificate block = inl cert /\
     r = Some (tls.set_RootCAs tc (pool ++ [cert]))).
Proof.
  unfold loadCACert.
  destruct (String.eqb path "") eqn:E.
  { apply eqb_empty in E. intros H. inversion H. auto. }
  assert (Hp : path <> "").
  { intros ->. discriminate E. }
  destruct (SystemCertPool os) as [pool|e] eqn:Hsys;
    [|intros H; discriminate H].
  destruct (ReadFile os path) as [bytes|e] eqn:Hread;
    [|intros H; discriminate H].
  destruct (Nat.eqb (String.length bytes) 0) eqn:L;
    [intros H; discriminate H|].
  destruct (pem_Decode bytes) as [block|] eqn:Hpem;
    [|intros H; discriminate H].
  destruct (x509_ParseCertificate block) as [cert|e] eqn:Hx;
    intros H; inversion H; subst.
  right. split; [exact Hp|]. exists pool, bytes, block, cert.
  split; [reflexivity|]. split; [reflexivity|].
  split; [intros ->; discriminate L|].
  split; [exact Hpem|]. split; [exact Hx | reflexivity].
Qed.

(** X9. In the options returned under TLS mode "enable" the certificate
    is never verified (InsecureSkipVerify), even when a CA certificate is
    configured; under "require" it is verified against the configured
    address as server name, with TLS 1.2 as the lowest version. In either
    mode the root pool is left unset when no CA path is configured, and
    otherwise is the system pool followed by the certificate decoded from
    the (non-empty) file at that path. *)
Theorem X9_tls_configuration
    (strings_ToUpper : string -> string)
    (DBTypePostgres : string) (pem_Decode : string -> option string)
    (x509_ParseCertificate : string -> x509.Certificate + error)
    (viper : Config) (os : Platform) (cfg : pgx.ConnConfig) :
  deriveBunDBPGOptions strings_ToUpper DBTypePostgres pem_Decode
    x509_ParseCertificate
    viper os = Returned (Some cfg, None) ->
  DbTLSMode viper = "enable" \/ DbTLSMode viper = "require" ->
  exists tc,
    pgx.TLSConfig cfg = Some tc /\
    (DbTLSMode viper = "enable" ->
     tls.InsecureSkipVerify tc = true /\ tls.ServerName tc = "" /\
     tls.MinVersion tc = 0) /\
    (DbTLSMode viper = "require" ->
     tls.InsecureSkipVerify tc = false /\
     tls.ServerName tc = DbAddress viper /\
     tls.MinVersion tc = tls.VersionTLS12) /\
    (DbTLSCACert viper = "" -> tls.RootCAs tc = None) /\
    (DbTLSCACert viper <> "" ->
     exists pool bytes block cert,
       SystemCertPool os = inl pool /\
       ReadFile os (DbTLSCACert viper) = inl bytes /\ bytes <> "" /\
       pem_Decode bytes = Some block /\
       x509_ParseCertificate block = inl cert /\
       tls.RootCAs tc = Some (pool ++ [cert])).
Proof.
  intros H Hmode. apply derive_returns in H.
  destruct H as (_ & tlsConfig & base & Hca & _ & ->). simpl.
  assert (Hbase : exists tc0,
            tlsConfigOf viper = Some tc0 /\ tls.RootCAs tc0 = None /\
            (DbTLSMode viper = "enable" ->
             tls.InsecureSkipVerify tc0 = true /\ tls.ServerName tc0 = "" /\
             tls.MinVersion tc0 = 0) /\
            (DbTLSMode viper = "require" ->
             tls.InsecureSkipVerify tc0 = false /\
             tls.ServerName tc0 = DbAddress viper /\
             tls.MinVersion tc0 = tls.VersionTLS12)).
  { unfold tlsConfigOf.
    destruct Hmode as [E|E]; rewrite E; simpl; eexists;
      (split; [reflexivity|]); (split; [reflexivity|]);
      split; intros E'; try discriminate E'; repeat split. }
  destruct Hbase as (tc0 & Htc0 & Hroot & Hen & Hreq).
  rewrite Htc0 in Hca. apply loadCACert_loaded in Hca.
  destruct Hca as [[Hp ->] | (Hp & pool & bytes & block & cert & Hsys &
                              Hread & Hne & Hpem & Hx & ->)].
  - exists tc0. split; [reflexivity|]. split; [exact Hen|].
    split; [exact Hreq|]. split; [intros _; exact Hroot|].
    intros Hne. contradiction.
  - exists (tls.set_RootCAs tc0 (pool ++ [cert])).
    split; [reflexivity|]. split; [exact Hen|]. split; [exact Hreq|].
    split; [intros E; contradiction|].
    intros _. exists pool, bytes, block, cert. repeat split; assumption.
Qed.

Lemma X9_tls_configuration_witness :
  exists cfg tc,
    deriveBunDBPGOptions SampleHost.strings_ToUpper SampleHost.DBTypePostgres
      SampleHost.pem_Decode
      SampleHost.x509_ParseCertificate
      (SampleHost.setting "hunter2" "enable" "/etc/gotosocial/ca.pem")
      SampleHost.os = Returned (Some cfg, None) /\
    pgx.TLSConfig cfg = Some tc /\
    tls.InsecureSkipVerify tc = true /\
    tls.RootCAs tc = Some [x509.mkCertificate "MIIB"].
Proof.
  destruct (X9_tls_configuration SampleHost.strings_ToUpper
              SampleHost.DBTypePostgres
              SampleHost.pem_Decode SampleHost.x509_ParseCertificate
              (SampleHost.setting "hunter2" "enable" "/etc/gotosocial/ca.pem")
              SampleHost.os
              (pgx.mkConnConfig "db.internal" 5432 "gotosocial" "hunter2"
                 (Some (tls.mkConfig true "" 0
                          (Some [x509.mkCertificate "MIIB"])))
                 "gotosocial" true
                 (<["application_name" := "gotosocial"]> ∅)))
    as (tc & Htc & Hen & _ & _ & Hca).
  - vm_compute. reflexivity.
  - left. reflexivity.
  - eexists. exists tc. split; [vm_compute; reflexivity|].
    split; [exact Htc|]. split; [apply Hen; reflexivity|].
    simpl in Htc. inversion Htc. reflexivity.
Defined.

(** X10. [pgx.ParseConfig]'s error is dropped and its nil result written
    to: when it fails while every setting is in order and no CA file is
    to be loaded, [deriveBunDBPGOptions] does not return an error, it
    panics, and so does [pgConn], before opening or pinging anything. *)
Theorem X10_ParseConfig_failure_panics
    (strings_ToUpper : string -> string)
    (DBTypePostgres : string) (pem_Decode : string -> option string)
    (x509_ParseCertificate : string -> x509.Certificate + error)
    (viper : Config) (os : Platform) (w : World) :
  (exists e, ParseConfig os "" = inr e) ->
  strings_ToUpper (DbType viper) = DBTypePostgres ->
  DbPort viper <> 0 -> DbAddress viper <> "" -> DbUser viper <> "" ->
  DbPassword viper <> "" -> DbDatabase viper <> "" ->
  DbTLSCACert viper = "" ->
  deriveBunDBPGOptions strings_ToUpper DBTypePostgres pem_Decode
    x509_ParseCertificate
    viper os
  = Panicked "invalid memory address or nil pointer dereference" /\
  pgConn strings_ToUpper DBTypePostgres pem_Decode x509_ParseCertificate viper
    os w
  = (Panicked "invalid memory address or nil pointer dereference", w).
Proof.
  intros [e Hparse] Hsel Hport Haddr Huser Hpass Hdb Hca.
  assert (Hd : deriveBunDBPGOptions strings_ToUpper DBTypePostgres pem_Decode
                 x509_ParseCertificate viper os
               = Panicked "invalid memory address or nil pointer dereference").
  { unfold deriveBunDBPGOptions.
    rewrite Hsel, String.eqb_refl. simpl negb. cbv iota.
    destruct (DbPort viper =? 0) eqn:E1.
    { apply Z.eqb_eq in E1. contradiction. }
    destruct (String.eqb (DbAddress viper) "") eqn:E2.
    { apply eqb_empty in E2. contradiction. }
    destruct (String.eqb (DbUser viper) "") eqn:E3.
    { apply eqb_empty in E3. contradiction. }
    destruct (String.eqb (DbPassword viper) "") eqn:E4.
    { apply eqb_empty in E4. contradiction. }
    destruct (String.eqb (DbDatabase viper) "") eqn:E5.
    { apply eqb_empty in E5. contradiction. }
    rewrite Hca. unfold loadCACert.
    destruct (tlsConfigOf viper); simpl; rewrite Hparse; reflexivity. }
  split; [exact Hd|]. unfold pgConn. rewrite Hd. reflexivity.
Qed.

Lemma X10_ParseConfig_failure_witness :
  pgConn SampleHost.strings_ToUpper SampleHost.DBTypePostgres
    SampleHost.pem_Decode
    SampleHost.x509_ParseCertificate
    (SampleHost.setting "hunter2" "require" "")
    (with_ParseConfig_failing SampleHost.os) Sample.world
  = (Panicked "invalid memory address or nil pointer dereference",
     Sample.world).
Proof.
  apply X10_ParseConfig_failure_panics;
    try discriminate; try reflexivity.
  eexists. reflexivity.
Defined.

(** ** Migrations at start-up *)

(** X11. Whatever the migrator, [doMigration]'s body returns an error
    exactly when [Init] fails, or [Migrate] fails with an error whose text
    is not "migrate: there are no any migrations"; the error is then the
    migrator's own, unwrapped. In particular any failure of [Migrate] that
    carries that text is reported as success. When [Migrate] hands back a
    group with a non-zero ID, the body returns no error and logs
    "MIGRATED DATABASE TO" followed by the group. *)
Theorem X11_doMigration_errors (migrator : migrate.Migrator) (w : World) :
  (forall e,
     fst (migrateWith migrator w) = Some e <->
     fst (migrate.Init migrator w) = Some e \/
     exists w1,
       migrate.Init migrator w = (None, w1) /\
       fst (migrate.Migrate migrator w1) = inr e /\
       Error e <> "migrate: there are no any migrations") /\
  (forall w1 w2 group,
     migrate.Init migrator w = (None, w1) ->
     migrate.Migrate migrator w1 = (inl group, w2) ->
     migrate.ID group <> 0 ->
     migrateWith migrator w
     = (None,
        with_trace
          (trace w2 ++
           [Logged InfoLevel
              ("MIGRATED DATABASE TO " +:+ migrate.groupString group)])
          w2)).
Proof.
  split.
  - intros e. unfold migrateWith, bind.
    destruct (migrate.Init migrator w) as [[e0|] w1] eqn:HI; simpl.
    + split; [intros H; left; exact H|].
      intros [H|(w1' & H & _)]; [exact H | discriminate H].
    + destruct (migrate.Migrate migrator w1) as [[g|e1] w2] eqn:HM; simpl.
      * split.
        -- destruct (migrate.ID g =? 0); intros H; discriminate H.
        -- intros [H|(w1' & H & H' & _)]; [discriminate H|].
           inversion H; subst w1'. rewrite HM in H'. discriminate H'.
      * destruct (String.eqb (Error e1)
                    "migrate: there are no any migrations") eqn:Emsg; simpl.
        -- split; [intros H; discriminate H|].
           intros [H|(w1' & H & H' & Hne)]; [discriminate H|].
           inversion H; subst w1'. rewrite HM in H'. simpl in H'.
           inversion H'; subst e1. apply String.eqb_eq in Emsg.
           contradiction.
        -- split.
           ++ intros H. inversion H; subst e1. right. exists w1.
              split; [reflexivity|]. rewrite HM. split; [reflexivity|].
              intros Heq. apply String.eqb_eq in Heq. congruence.
           ++ intros [H|(w1' & H & H' & _)]; [discriminate H|].
              inversion H; subst w1'. rewrite HM in H'. simpl in H'.
              inversion H'. reflexivity.
  - intros w1 w2 group HI HM Hid. unfold migrateWith, bind.
    rewrite HI, HM. apply Z.eqb_neq in Hid. rewrite Hid. reflexivity.
Qed.

Lemma X11_doMigration_errors_witness :
  doMigration SampleMigrations.Migrations Sample.world
  = (None, SampleMigrations.migrated) /\
  trace SampleMigrations.migrated
  = [Logged InfoLevel
       "MIGRATED DATABASE TO group #1 (20211113114307_init, 20220214175650_media_cleanup)"].
Proof.
  destruct (X11_doMigration_errors
              (migrate.NewMigrator SampleMigrations.Migrations) Sample.world)
    as [_ Hlog].
  split.
  - unfold doMigration.
    rewrite (Hlog (snd (migrate.bunInit Sample.world))
               (snd (migrate.bunMigrate SampleMigrations.Migrations
                       (snd (migrate.bunInit Sample.world))))
               (migrate.mkGroup 1
                  ["20211113114307_init"; "20220214175650_media_cleanup"]));
      [ vm_compute; reflexivity | vm_compute; reflexivity
      | vm_compute; reflexivity | discriminate ].
  - vm_compute. reflexivity.
Defined.

(** ** Mentions, tags and emoji: failures and edges *)

Lemma Scan_fault {A} (table : World -> list A) (conds : list (cond A))
    w msg rest :
  faults w = Some msg :: rest ->
  Scan table conds w = (inr (errors_New msg), with_faults rest w).
Proof.
  intros H. unfold Scan, bind, round_trip. rewrite H. reflexivity.
Qed.

Lemma Scan_pass {A} (table : World -> list A)
    (table_data : forall w w', same_data w w' -> table w' = table w)
    (conds : list (cond A)) w rest :
  faults w = None :: rest ->
  Scan table conds w
  = (match rows (table w) conds with
     | r :: _ => inl r
     | [] => inr ErrNoRows
     end, with_faults rest w).
Proof.
  intros H. unfold Scan, bind, round_trip. rewrite H. unfold ret.
  rewrite (table_data w (with_faults rest w)) by repeat split.
  destruct (rows (table w) conds); reflexivity.
Qed.

(** X12. The origin account is looked up before any token is read: when
    no account has [originAccountID], the call returns [sql.ErrNoRows]
    itself, unwrapped, and no Mentions, whatever the tokens are (also for
    no tokens at all, and for tokens that would not parse), and logs
    nothing. *)
Theorem X12_unknown_origin_account
    (tokens : list string) (originAccountID statusID : string) (w : World) :
  fst (round_trip w) = None ->
  (forall r, In r (accounts w) -> AccountID r <> originAccountID) ->
  exists w',
    MentionStringsToMentions tokens originAccountID statusID w
    = (([], Some ErrNoRows), w') /\
    trace w' = trace w.
Proof.
  intros Hrt Hnone.
  assert (Hrows : rows (accounts w) [eq_text col_id originAccountID] = []).
  { apply rows_none. intros x Hx Hh. apply (Hnone x Hx).
    apply holds_id. exact Hh. }
  unfold MentionStringsToMentions, bind.
  destruct (Scan accounts [eq_text col_id originAccountID] w)
    as [r w1] eqn:HS.
  pose proof (Scan_frame _ _ _ _ _ HS) as (_ & _ & _ & Htr).
  pose proof (Scan_goes_through accounts accounts_data
                [eq_text col_id originAccountID] w Hrt) as Hres.
  rewrite HS, Hrows in Hres. simpl in Hres. subst r.
  exists w1. split; [reflexivity | exact Htr].
Qed.

Lemma X12_unknown_origin_account_witness :
  exists w',
    MentionStringsToMentions ["@alice"; "@a@b@c"] "01NOBODY" "01STATUS"
      Sample.world
    = (([], Some ErrNoRows), w') /\
    trace w' = trace Sample.world.
Proof.
  apply X12_unknown_origin_account.
  - reflexivity.
  - intros r [<-|[<-|[<-|[]]]]; discriminate.
Defined.

Lemma emojiLoop_fault msg rest emojis_ :
  forall k acc w,
    faults w = replicate k None ++ Some msg :: rest ->
    (k < length emojis_)%nat ->
    exists w',
      emojiLoop emojis_ acc w
      = (([], Some (errors_New
            ("error getting emoji with shortcode " +:+ nth k emojis_ ""
             +:+ ": " +:+ msg))), w') /\
      faults w' = rest.
Proof.
  induction emojis_ as [|e more IH]; intros k acc w Hf Hk;
    [simpl in Hk; lia|].
  simpl emojiLoop. unfold bind. destruct k as [|k]; simpl in Hf.
  - rewrite (Scan_fault emojis (emojiWhere e) w msg rest Hf). simpl.
    eexists. split; reflexivity.
  - rewrite (Scan_pass emojis emojis_data (emojiWhere e) w _ Hf).
    simpl in Hk.
    destruct (rows (emojis w) (emojiWhere e)) as [|r others]; simpl.
    + unfold log. apply IH; [reflexivity | lia].
    + apply IH; [reflexivity | lia].
Qed.

(** X13. A driver failure on the look-up of one shortcode aborts the whole
    emoji batch: when the first failing round trip is the one for the
    k-th shortcode, the call returns "error getting emoji with shortcode
    <that shortcode>: <driver error>" and no emoji, also those found
    before it; the shortcodes after it are not looked up. *)
Theorem X13_emoji_driver_failure
    (emojis_ : list string) (w : World) (k : nat) (msg : string)
    (rest : list (option string)) :
  faults w = replicate k None ++ Some msg :: rest ->
  (k < length emojis_)%nat ->
  exists w',
    EmojiStringsToEmojis emojis_ w
    = (([], Some (errors_New
          ("error getting emoji with shortcode " +:+ nth k emojis_ ""
           +:+ ": " +:+ msg))), w') /\
    faults w' = rest.
Proof.
  intros Hf Hk. unfold EmojiStringsToEmojis.
  apply emojiLoop_fault; assumption.
Qed.

Lemma X13_emoji_driver_failure_witness :
  exists w',
    EmojiStringsToEmojis ["rainbow"; "hidden"; "retired"]
      (with_faults [None; Some "driver: bad connection"; None] Sample.world)
    = (([], Some (errors_New
          "error getting emoji with shortcode hidden: driver: bad connection")),
       w') /\
    faults w' = [None].
Proof.
  apply (X13_emoji_driver_failure ["rainbow"; "hidden"; "retired"]
           (with_faults [None; Some "driver: bad connection"; None]
              Sample.world) 1 "driver: bad connection" [None]).
  - reflexivity.
  - simpl. lia.
Defined.

Lemma mentionLoop_fault og s msg rest tokens :
  forall k acc w l u d,
    faults w = replicate k None ++ Some msg :: rest ->
    (k < length tokens)%nat ->
    Forall (fun a => accepted a = true) (take k tokens) ->
    parseTarget (nth k tokens "") = inl (l, u, d) ->
    exists w',
      mentionLoop og s tokens acc w
      = (([], Some (errors_New
            ("error getting account with username '" +:+ u +:+
             "' and domain '" +:+ d +:+ "': " +:+ msg))), w') /\
      faults w' = rest.
Proof.
  induction tokens as [|a more IH]; intros k acc w l u d Hf Hk Hacc Hp;
    [simpl in Hk; lia|].
  simpl mentionLoop. destruct k as [|k]; simpl in Hf, Hp.
  - rewrite Hp. unfold bind.
    rewrite (Scan_fault accounts (mentionedAccountWhere l u d) w msg rest Hf).
    simpl. eexists. split; reflexivity.
  - simpl in Hacc. inversion Hacc as [|? ? Ha Hmore]; subst.
    unfold accepted in Ha.
    destruct (parseTarget a) as [[[l' u'] d']|e]; [|discriminate Ha].
    unfold bind.
    rewrite (Scan_pass accounts accounts_data
               (mentionedAccountWhere l' u' d') w _ Hf).
    simpl in Hk.
    destruct (rows (accounts w) (mentionedAccountWhere l' u' d'))
      as [|r others]; simpl.
    + unfold log. eapply IH; [reflexivity | lia | exact Hmore | exact Hp].
    + eapply IH; [reflexivity | lia | exact Hmore | exact Hp].
Qed.

(** X14. A driver failure on the look-up of one token aborts the whole
    mention batch: when the origin account is found, the tokens before
    the k-th parse, and the first failing round trip is the one for the
    k-th token, the call returns "error getting account with username
    '<user>' and domain '<domain>': <driver error>" for that token and no
    Mentions, also those built before it. *)
Theorem X14_mention_driver_failure
    (tokens : list string) (originAccountID statusID : string)
    (w : World) (k : nat) (msg : string) (rest : list (option string))
    (local : bool) (username domain : string) :
  faults w = None :: replicate k None ++ Some msg :: rest ->
  (exists og, In og (accounts w) /\ AccountID og = originAccountID) ->
  (k < length tokens)%nat ->
  Forall (fun a => accepted a = true) (take k tokens) ->
  parseTarget (nth k tokens "") = inl (local, username, domain) ->
  fst (MentionStringsToMentions tokens originAccountID statusID w)
  = ([], Some (errors_New
       ("error getting account with username '" +:+ username +:+
        "' and domain '" +:+ domain +:+ "': " +:+ msg))).
Proof.
  intros Hf Ho Hk Hacc Hp.
  destruct (origin_row w originAccountID Ho) as (og & others & Hog & _).
  unfold MentionStringsToMentions, bind.
  rewrite (Scan_pass accounts accounts_data
             [eq_text col_id originAccountID] w _ Hf), Hog.
  destruct (mentionLoop_fault og statusID msg rest tokens k []
              (with_faults (replicate k None ++ Some msg :: rest) w)
              local username domain eq_refl Hk Hacc Hp) as (w' & H & _).
  rewrite H. reflexivity.
Qed.

Lemma X14_mention_driver_failure_witness :
  fst (MentionStringsToMentions ["@alice"; "@Carol@remote.example"]
         "01ZORK" "01STATUS"
         (with_faults [None; None; Some "context deadline exceeded"]
            Sample.world))
  = ([], Some (errors_New
       "error getting account with username 'Carol' and domain 'remote.example': context deadline exceeded")).
Proof.
  apply (X14_mention_driver_failure ["@alice"; "@Carol@remote.example"]
           "01ZORK" "01STATUS"
           (with_faults [None; None; Some "context deadline exceeded"]
              Sample.world)
           1 "context deadline exceeded" [] false "Carol" "remote.example").
  - reflexivity.
  - exists Sample.zork. split; [left; reflexivity | reflexivity].
  - simpl. lia.
  - repeat constructor.
  - reflexivity.
Defined.

Lemma keptTag_wider names a before before' after t :
  before <= before' ->
  keptTag names before' after t -> keptTag (a :: names) before after t.
Proof.
  intros Hle (Hu & (name & Hin & Hname) & Hlo & Hhi).
  split; [exact Hu|]. split; [|lia].
  exists name. split; [right; exact Hin | exact Hname].
Qed.

Lemma tagLoop_kept protocol host o names :
  forall acc w ts w',
    tagLoop protocol host o names acc w = ((ts, None), w') ->
    clock w <= clock w' /\ same_data w w' /\
    exists new,
      ts = acc ++ new /\ (length new <= length names)%nat /\
      Forall (keptTag names (clock w) (clock w')) new.
Proof.
  induction names as [|a rest IH]; intros acc w ts w' H.
  - simpl in H. inversion H; subst. split; [lia|].
    split; [apply same_data_refl|]. exists []. rewrite app_nil_r.
    split; [reflexivity|]. split; [simpl; lia | constructor].
  - simpl tagLoop in H. unfold bind in H.
    destruct (Scan tags (tagWhere a) w) as [found w1] eqn:HS.
    pose proof (Scan_frame _ _ _ _ _ HS) as (Hd1 & _ & Hc1 & _).
    destruct found as [tag|[|m]].
    + apply (Scan_found tags tags_data) in HS.
      assert (Hname : query.LOWER (Name tag) = query.LOWER a).
      { apply holds_tag.
        apply (proj1 (rows_head (tagWhere a) (tags w) tag)) in HS.
        apply first_such_in in HS. tauto. }
      destruct (Useable tag) eqn:U; simpl in H.
      * apply IH in H. simpl in H.
        destruct H as (Hle & Hd & new & -> & Hlen & Hall).
        split; [lia|]. split; [eapply same_data_trans; eauto|].
        exists (set_LastStatusAt tag (clock w1) :: new).
        split; [rewrite <- app_assoc; reflexivity|].
        split; [simpl; lia|]. constructor.
        -- split; [exact U|]. split; [|simpl; lia].
           exists a. split; [left; reflexivity | exact Hname].
        -- eapply Forall_impl; [exact Hall|]. intros t Ht.
           eapply keptTag_wider; [|exact Ht]. lia.
      * apply IH in H. destruct H as (Hle & Hd & new & -> & Hlen & Hall).
        split; [lia|]. split; [eapply same_data_trans; eauto|].
        exists new. split; [reflexivity|]. split; [simpl; lia|].
        eapply Forall_impl; [exact Hall|]. intros t Ht.
        eapply keptTag_wider; [|exact Ht]. lia.
    + cbn [is_ErrNoRows] in H. cbv iota in H. unfold NewRandomULID in H.
      destruct (entropy w1) as [|[u|] en]; try discriminate H.
      simpl in H. apply IH in H. simpl in H.
      destruct H as (Hle & Hd & new & -> & Hlen & Hall).
      split; [lia|]. split; [eapply same_data_trans; eauto|].
      eexists (_ :: new).
      split; [rewrite <- app_assoc; reflexivity|].
      split; [simpl; lia|]. constructor.
      * split; [reflexivity|]. split; [|simpl; lia].
        exists a. split; [left; reflexivity | reflexivity].
      * eapply Forall_impl; [exact Hall|]. intros t Ht.
        eapply keptTag_wider; [|exact Ht]. lia.
    + discriminate H.
Qed.

(** X15. Every Tag that [TagStringsToTags] returns is useable (a stored
    tag that is not useable is left out), is named like one of the names
    asked for up to letter case, and has its last-used time set to a
    clock reading taken during the call; there are never more tags than
    names; and the call leaves every table as it found it, new tags
    included: storing them is left to the caller. *)
Theorem X15_returned_tags
    (viper : Config) (tags_ : list string) (originAccountID : string)
    (w w' : World) (ts : list Tag) :
  TagStringsToTags viper tags_ originAccountID w = ((ts, None), w') ->
  Forall (keptTag tags_ (clock w) (clock w')) ts /\
  (length ts <= length tags_)%nat /\
  same_data w w'.
Proof.
  unfold TagStringsToTags. intros H. apply tagLoop_kept in H.
  destruct H as (_ & Hd & new & -> & Hlen & Hall). simpl. tauto.
Qed.

Lemma X15_returned_tags_witness :
  Forall (keptTag ["News"; "hidden"; "news"] 1000 1006)
    (fst (fst (TagStringsToTags Sample.viper ["News"; "hidden"; "news"]
                 "01ZORK"
                 (with_tags
                    [mkTag "01HIDDENTAG" "https://example.org/tags/hidden"
                       "Hidden" "01ALICE" 10 10 false true 10]
                    Sample.world)))).
Proof.
  apply (X15_returned_tags Sample.viper ["News"; "hidden"; "news"] "01ZORK"
           (with_tags
              [mkTag "01HIDDENTAG" "https://example.org/tags/hidden"
                 "Hidden" "01ALICE" 10 10 false true 10]
              Sample.world)
           (snd (TagStringsToTags Sample.viper ["News"; "hidden"; "news"]
                   "01ZORK"
                   (with_tags
                      [mkTag "01HIDDENTAG" "https://example.org/tags/hidden"
                         "Hidden" "01ALICE" 10 10 false true 10]
                      Sample.world)))).
  vm_compute. reflexivity.
Defined.

(** One turn of the loop for a name that no stored tag carries. *)
Lemma tagLoop_absent protocol host o a rest acc w newID en :
  healthy w ->
  rows (tags w) (tagWhere a) = [] ->
  entropy w = Some newID :: en ->
  exists w2,
    tagLoop protocol host o (a :: rest) acc w
    = tagLoop protocol host o rest
        (acc ++ [ {| TagID := newID;
                     TagURL := protocol +:+ "://" +:+ host
                               +:+ "/tags/" +:+ a;
                     Name := a;
                     FirstSeenFromAccountID := o;
                     CreatedAt := clock w;
                     UpdatedAt := clock w + 1;
                     Useable := true;
                     Listable := true;
                     LastStatusAt := clock w + 2 |} ]) w2 /\
    healthy w2 /\ same_data w w2 /\ entropy w2 = en.
Proof.
  intros Hh Hrows Hen.
  destruct (Scan_healthy tags tags_data (tagWhere a) w Hh)
    as (w1 & HS & Hh1 & Hd1 & He1 & Hc1 & _).
  rewrite Hrows in HS.
  simpl tagLoop. unfold bind. rewrite HS.
  unfold NewRandomULID. cbn [is_ErrNoRows]. cbv beta iota.
  rewrite He1, Hen. simpl. rewrite Hc1. unfold set_LastStatusAt. simpl.
  replace (clock w + 1 + 1) with (clock w + 2) by lia.
  eexists. split; [reflexivity|].
  split; [exact Hh1|]. split; [exact Hd1 | reflexivity].
Qed.

(** X16. Because the call stores nothing, two names of one batch that no
    stored tag carries each get a new Tag with an identifier of its own,
    also when the two names are the same up to letter case (or exactly
    the same): one batch can hand back two Tags for one name. *)
Theorem X16_same_name_twice_in_a_batch
    (viper : Config) (t t' originAccountID id1 id2 : string)
    (en : list (option string)) (w : World) :
  healthy w ->
  (forall r, In r (tags w) ->
             query.LOWER (Name r) <> query.LOWER t) ->
  (forall r, In r (tags w) ->
             query.LOWER (Name r) <> query.LOWER t') ->
  entropy w = Some id1 :: Some id2 :: en ->
  exists tag1 tag2,
    fst (TagStringsToTags viper [t; t'] originAccountID w)
    = ([tag1; tag2], None) /\
    TagID tag1 = id1 /\ Name tag1 = t /\
    TagID tag2 = id2 /\ Name tag2 = t'.
Proof.
  intros Hh Hnone Hnone' Hen.
  assert (Hrows : rows (tags w) (tagWhere t) = []).
  { apply rows_none. intros x Hx Hhold. apply (Hnone x Hx).
    apply holds_tag. exact Hhold. }
  assert (Hrows' : rows (tags w) (tagWhere t') = []).
  { apply rows_none. intros x Hx Hhold. apply (Hnone' x Hx).
    apply holds_tag. exact Hhold. }
  unfold TagStringsToTags.
  destruct (tagLoop_absent (Protocol viper) (Host viper) originAccountID
              t [t'] [] w id1 (Some id2 :: en) Hh Hrows Hen)
    as (w2 & H1 & Hh2 & Hd2 & He2).
  rewrite H1.
  rewrite <- (tags_data _ _ Hd2) in Hrows'.
  simpl app.
  match goal with
  | |- context [tagLoop _ _ _ [t'] ?acc w2] =>
      destruct (tagLoop_absent (Protocol viper) (Host viper)
                  originAccountID t' [] acc w2 id2 en Hh2 Hrows' He2)
        as (w3 & H2 & _)
  end.
  rewrite H2. simpl.
  eexists. eexists. split; [reflexivity|]. repeat split.
Qed.

Lemma X16_same_name_twice_witness :
  exists tag1 tag2,
    fst (TagStringsToTags Sample.viper ["News"; "news"] "01ZORK"
           Sample.world)
    = ([tag1; tag2], None) /\
    TagID tag1 = "01TAGAAAA" /\ Name tag1 = "News" /\
    TagID tag2 = "01TAGBBBB" /\ Name tag2 = "news".
Proof.
  apply (X16_same_name_twice_in_a_batch Sample.viper "News" "news" "01ZORK"
           "01TAGAAAA" "01TAGBBBB" [] Sample.world).
  - exact sample_world_healthy.
  - intros r [].
  - intros r [].
  - reflexivity.
Defined.

Lemma omap_shortcodes table emojis_ :
  map Shortcode (omap (emojiFor table) emojis_)
  = filter (fun e => is_Some (emojiFor table e)) emojis_.
Proof.
  induction emojis_ as [|e rest IH]; [reflexivity|].
  simpl omap. destruct (emojiFor table e) as [r|] eqn:Hr.
  - rewrite filter_cons_True by (rewrite Hr; eauto).
    cbn [map]. change (list_omap string Emoji) with (@omap list _ string Emoji).
    rewrite IH. f_equal.
    apply emojiFor_usable in Hr. destruct Hr as (_ & Hs & _). exact Hs.
  - rewrite filter_cons_False by (rewrite Hr; intros [x Hx]; discriminate).
    exact IH.
Qed.

(** X17. With no driver failure [EmojiStringsToEmojis] returns, in input
    order, one emoji for every shortcode that has a usable emoji and
    nothing for the others: the shortcodes of the result are the input
    with the unmatched ones removed, so a shortcode given twice is
    answered twice and the result is never longer than the input. *)
Theorem X17_emoji_in_input_order (emojis_ : list string) (w : World) :
  healthy w ->
  exists es,
    fst (EmojiStringsToEmojis emojis_ w) = (es, None) /\
    map Shortcode es
    = filter (fun e => is_Some (emojiFor (emojis w) e)) emojis_ /\
    (length es <= length emojis_)%nat.
Proof.
  intros Hh. unfold EmojiStringsToEmojis.
  destruct (emojiLoop_healthy emojis_ [] w Hh) as (w' & H).
  rewrite H. simpl. eexists. split; [reflexivity|].
  split; [apply omap_shortcodes|].
  rewrite <- (length_map Shortcode), omap_shortcodes.
  apply length_filter.
Qed.

Lemma X17_emoji_in_input_order_witness :
  exists es,
    fst (EmojiStringsToEmojis ["rainbow"; "Rainbow"; "hidden"; "rainbow"]
           Sample.world) = (es, None) /\
    map Shortcode es = ["rainbow"; "rainbow"].
Proof.
  destruct (X17_emoji_in_input_order
              ["rainbow"; "Rainbow"; "hidden"; "rainbow"] Sample.world
              sample_world_healthy) as (es & H & Hs & _).
  exists es. split; [exact H|]. rewrite Hs. vm_compute. reflexivity.
Defined.
